(** * Library Manager (Simple_app.py): store and form contract

    A shallow embedding of [LibraryDB] (the SQLite-backed store) and of
    [LibraryApp]'s form validation, handlers, column sort and CSV export,
    followed by the properties the specification states about them and by
    further properties of the same code.

    Conventions of the model.
    - Text is [string]; a character is a code point below 256 (Latin-1).
      On that alphabet Python's [str.lower], [str.strip] and [int] and
      SQLite's [lower()] and [LIKE] are modelled exactly, including the
      places where they disagree: SQLite folds case for the ASCII letters
      only and LIKE reads a text up to its first NUL; [int] skips less
      whitespace than [strip] removes and converts at most 4300 digits.
    - Python integers are [Z].  SQLite stores 64-bit integers: binding an
      integer outside that range raises OverflowError, and SUM() raises
      "integer overflow" when a running total leaves it.
    - A store call that can raise returns an [outcome]; when it raises,
      the database file is as it was before the call.  An exception that a
      handler of the window does not catch ends the handler where it is;
      Tk reports it on stderr and the window goes on.
    - A table is the list of its rows in scan order.  [created_at] is the
      text SQLite stores for CURRENT_TIMESTAMP; the clock reading is an
      argument of [add_book].
    - Size limits of the engine and of the machine (length of a text or of
      a LIKE pattern, the end of the AUTOINCREMENT counter, disk space,
      file permissions) are outside the model. *)

From Stdlib Require Import Bool List ZArith NArith Lia Ascii String.
From Stdlib Require Import Permutation Sorted DecimalString DecimalPos.
From Stdlib Require Import DecimalFacts.
Import ListNotations.

Local Open Scope string_scope.
Local Open Scope Z_scope.

(** ** Python string operations used by the application *)

Module Py.

Definition code (c : ascii) : N := N_of_ascii c.

Definition between (lo hi n : N) : bool := ((lo <=? n) && (n <=? hi))%N.

(** [str.isspace] on a single character: the code points below 256 that
    Python treats as whitespace. *)
Definition is_space (c : ascii) : bool :=
  let n := code c in
  (between 9 13 n || between 28 32 n || (n =? 133) || (n =? 160))%N.

(** Upper-case letters below 256: A-Z, and the Latin-1 capitals
    (all of U+00C0..U+00DE but the multiplication sign U+00D7). *)
Definition is_upper (c : ascii) : bool :=
  let n := code c in
  (between 65 90 n || (between 192 222 n && negb (n =? 215)))%N.

Definition lower_char (c : ascii) : ascii :=
  if is_upper c then ascii_of_N (code c + 32) else c.

Fixpoint map_chars (f : ascii -> ascii) (s : string) : string :=
  match s with
  | EmptyString => EmptyString
  | String c r => String (f c) (map_chars f r)
  end.

(** [s.lower()] *)
Definition lower (s : string) : string := map_chars lower_char s.

Fixpoint lstrip (s : string) : string :=
  match s with
  | EmptyString => EmptyString
  | String c r => if is_space c then lstrip r else s
  end.

Definition is_empty (s : string) : bool :=
  match s with EmptyString => true | String _ _ => false end.

Fixpoint rstrip (s : string) : string :=
  match s with
  | EmptyString => EmptyString
  | String c r =>
      let r' := rstrip r in
      if is_space c && is_empty r' then EmptyString else String c r'
  end.

(** [s.strip()] *)
Definition strip (s : string) : string := rstrip (lstrip s).

Definition digit_value (c : ascii) : option Z :=
  let n := code c in
  if between 48 57 n then Some (Z.of_N n - 48) else None.

Definition is_underscore (c : ascii) : bool := (code c =? 95)%N.

(** The digits of a decimal literal, most significant first, with single
    underscores allowed between two digits.  [prev] tells whether the
    character just read was a digit. *)
Fixpoint int_digits (s : string) (acc : Z) (prev : bool) : option Z :=
  match s with
  | EmptyString => if prev then Some acc else None
  | String c r =>
      match digit_value c with
      | Some d => int_digits r (10 * acc + d) true
      | None =>
          if is_underscore c && prev then
            match r with
            | String c' _ =>
                match digit_value c' with
                | Some _ => int_digits r acc false
                | None => None
                end
            | EmptyString => None
            end
          else None
      end
  end.

(** The whitespace [int] skips at both ends of its argument. *)
Definition int_space (c : ascii) : bool :=
  let n := code c in
  (between 9 13 n || (n =? 32) || (n =? 133) || (n =? 160))%N.

Fixpoint lstrip_with (f : ascii -> bool) (s : string) : string :=
  match s with
  | EmptyString => EmptyString
  | String c r => if f c then lstrip_with f r else s
  end.

Fixpoint rstrip_with (f : ascii -> bool) (s : string) : string :=
  match s with
  | EmptyString => EmptyString
  | String c r =>
      let r' := rstrip_with f r in
      if f c && is_empty r' then EmptyString else String c r'
  end.

Fixpoint count_digits (s : string) : nat :=
  match s with
  | EmptyString => O
  | String c r =>
      match digit_value c with
      | Some _ => S (count_digits r)
      | None => count_digits r
      end
  end.

(** [sys.get_int_max_str_digits()], as the interpreter sets it. *)
Definition max_str_digits : nat := 4300.

(** The literal after the sign: refused when it has more digits than the
    interpreter converts. *)
Definition int_literal (s : string) : option Z :=
  if (count_digits s <=? max_str_digits)%nat then int_digits s 0 false
  else None.

(** [int(s)] for a string argument, base 10.  [None] stands for the
    ValueError Python raises. *)
Definition int (s : string) : option Z :=
  match rstrip_with int_space (lstrip_with int_space s) with
  | String "+" r => int_literal r
  | String "-" r => option_map Z.opp (int_literal r)
  | t => int_literal t
  end.

(** [str(n)] for an integer; the program applies it to integers read from
    the database. *)
Definition str_int (n : Z) : string := NilZero.string_of_int (Z.to_int n).

(** Truthiness of a string: [if s] / [not s]. *)
Definition truthy (s : string) : bool := negb (is_empty s).

(** [a or b] on strings. *)
Definition or_str (a b : string) : string := if truthy a then a else b.

End Py.

(** ** Exceptions *)

(** The exceptions the program can meet. *)
Inductive exn :=
| OverflowError
| OperationalError (message : string).

(** The result of a call that can raise. *)
Inductive outcome (A : Type) :=
| Returned (a : A)
| Raised (e : exn).

Arguments Returned {A} a.
Arguments Raised {A} e.

(** ** The SQL functions and operators the queries use *)

Module Sql.

(** SQLite's built-in [lower()] changes the ASCII letters A-Z only. *)
Definition lower_char (c : ascii) : ascii :=
  if Py.between 65 90 (Py.code c) then ascii_of_N (Py.code c + 32) else c.

Definition lower (s : string) : string := Py.map_chars lower_char s.

Definition is_percent (c : ascii) : bool := (Py.code c =? 37)%N.
Definition is_underscore (c : ascii) : bool := (Py.code c =? 95)%N.

(** Character comparison inside LIKE: equal, or equal ASCII letters up to
    case. *)
Definition char_eq_nocase (c d : ascii) : bool :=
  Ascii.eqb (lower_char c) (lower_char d).

(** The comparison LIKE makes, no ESCAPE clause: [%] matches any run of
    characters, [_] exactly one, any other character itself up to ASCII
    case. *)
Fixpoint pattern_compare (pattern text : string) {struct pattern} : bool :=
  match pattern with
  | EmptyString => Py.is_empty text
  | String c p =>
      if is_percent c then
        (fix star (t : string) : bool :=
           pattern_compare p t
           || match t with
              | EmptyString => false
              | String _ t' => star t'
              end) text
      else
        match text with
        | EmptyString => false
        | String d t =>
            (is_underscore c || char_eq_nocase c d) && pattern_compare p t
        end
  end.

Definition is_nul (c : ascii) : bool := (Py.code c =? 0)%N.

(** A text as the C code of LIKE reads it: up to its first NUL. *)
Fixpoint c_text (s : string) : string :=
  match s with
  | EmptyString => EmptyString
  | String c r => if is_nul c then EmptyString else String c (c_text r)
  end.

(** [text LIKE pattern] *)
Definition like (pattern text : string) : bool :=
  pattern_compare (c_text pattern) (c_text text).

(** The integers SQLite stores: signed, 64 bits. *)
Definition min_int : Z := - 2 ^ 63.
Definition max_int : Z := 2 ^ 63 - 1.

Definition fits (n : Z) : bool := (min_int <=? n) && (n <=? max_int).

(** A nullable integer parameter can be bound. *)
Definition fits_opt (v : option Z) : bool :=
  match v with Some n => fits n | None => true end.

(** Three-valued logic: [None] is SQL's NULL. *)
Definition or3 (a b : option bool) : option bool :=
  match a, b with
  | Some true, _ | _, Some true => Some true
  | Some false, Some false => Some false
  | _, _ => None
  end.

(** [lower(x) LIKE pattern] on a nullable text column. *)
Definition lower_like (x : option string) (pattern : string) : option bool :=
  match x with
  | None => None
  | Some s => Some (like pattern (lower s))
  end.

(** A WHERE clause keeps the rows on which the condition is true. *)
Definition holds (v : option bool) : bool :=
  match v with Some true => true | _ => false end.

End Sql.

(** ** hashlib.sha256 *)

Module Sha256.

Definition w32 (x : Z) : Z := Z.land x 0xffffffff.
Definition add32 (x y : Z) : Z := w32 (x + y).
Definition rotr (n x : Z) : Z :=
  Z.lor (Z.shiftr x n) (w32 (Z.shiftl x (32 - n))).
Definition not32 (x : Z) : Z := Z.lxor x 0xffffffff.

Definition Ch (x y z : Z) : Z :=
  Z.lxor (Z.land x y) (Z.land (not32 x) z).
Definition Maj (x y z : Z) : Z :=
  Z.lxor (Z.lxor (Z.land x y) (Z.land x z)) (Z.land y z).
Definition Sigma0 (x : Z) : Z :=
  Z.lxor (Z.lxor (rotr 2 x) (rotr 13 x)) (rotr 22 x).
Definition Sigma1 (x : Z) : Z :=
  Z.lxor (Z.lxor (rotr 6 x) (rotr 11 x)) (rotr 25 x).
Definition sigma0 (x : Z) : Z :=
  Z.lxor (Z.lxor (rotr 7 x) (rotr 18 x)) (Z.shiftr x 3).
Definition sigma1 (x : Z) : Z :=
  Z.lxor (Z.lxor (rotr 17 x) (rotr 19 x)) (Z.shiftr x 10).

(** A table written as hexadecimal text, eight digits per 32-bit word. *)
Definition hex_value (c : ascii) : Z :=
  let n := Z.of_N (N_of_ascii c) in
  if n <? 58 then n - 48 else n - 87.

Fixpoint hex_words (s : string) (acc : Z) (k : nat) : list Z :=
  match s with
  | EmptyString => []
  | String c r =>
      let acc' := 16 * acc + hex_value c in
      match k with
      | O => acc' :: hex_words r 0 7
      | S k' => hex_words r acc' k'
      end
  end.

(** The round constants. *)
Definition K : list Z :=
  hex_words
    ("428a2f9871374491b5c0fbcfe9b5dba53956c25b59f111f1923f82a4ab1c5ed5"
     ++ "d807aa9812835b01243185be550c7dc372be5d7480deb1fe9bdc06a7c19bf174"
     ++ "e49b69c1efbe47860fc19dc6240ca1cc2de92c6f4a7484aa5cb0a9dc76f988da"
     ++ "983e5152a831c66db00327c8bf597fc7c6e00bf3d5a7914706ca635114292967"
     ++ "27b70a852e1b21384d2c6dfc53380d13650a7354766a0abb81c2c92e92722c85"
     ++ "a2bfe8a1a81a664bc24b8b70c76c51a3d192e819d6990624f40e3585106aa070"
     ++ "19a4c1161e376c082748774c34b0bcb5391c0cb34ed8aa4a5b9cca4f682e6ff3"
     ++ "748f82ee78a5636f84c878148cc7020890befffaa4506cebbef9a3f7c67178f2")
    0 7.

(** The initial hash value. *)
Definition H0 : list Z :=
  hex_words
    ("6a09e667bb67ae853c6ef372a54ff53a"
     ++ "510e527f9b05688c1f83d9ab5be0cd19")
    0 7.

(** Message padding: a 1 bit, zeros up to 56 mod 64 bytes, then the bit
    length on 8 bytes, big-endian. *)
Fixpoint be_bytes (n : nat) (x : Z) : list Z :=
  match n with
  | O => []
  | S n' => (be_bytes n' (Z.shiftr x 8) ++ [Z.land x 0xff])%list
  end.

Definition pad (msg : list Z) : list Z :=
  let len := Z.of_nat (List.length msg) in
  let zeros := Z.to_nat ((55 - len) mod 64) in
  (msg ++ [0x80] ++ repeat 0 zeros ++ be_bytes 8 (8 * len))%list.

Fixpoint words (fuel : nat) (bs : list Z) : list Z :=
  match fuel, bs with
  | S f, b0 :: b1 :: b2 :: b3 :: r =>
      (((b0 * 256 + b1) * 256 + b2) * 256 + b3) :: words f r
  | _, _ => []
  end.

(** The message schedule, kept most recent word first. *)
Fixpoint extend (n : nat) (w : list Z) : list Z :=
  match n with
  | O => w
  | S n' =>
      let x := add32 (add32 (sigma1 (nth 1 w 0)) (nth 6 w 0))
                     (add32 (sigma0 (nth 14 w 0)) (nth 15 w 0)) in
      extend n' (x :: w)
  end.

Definition schedule (block : list Z) : list Z :=
  rev (extend 48 (rev block)).

Definition round (s : list Z) (kw : Z * Z) : list Z :=
  match s with
  | [a; b; c; d; e; f; g; h] =>
      let t1 := add32 (add32 (add32 h (Sigma1 e)) (Ch e f g))
                      (add32 (fst kw) (snd kw)) in
      let t2 := add32 (Sigma0 a) (Maj a b c) in
      [add32 t1 t2; a; b; c; add32 d t1; e; f; g]
  | _ => s
  end.

Definition compress (h : list Z) (block : list Z) : list Z :=
  map (fun p => add32 (fst p) (snd p))
      (combine h (fold_left round (combine K (schedule block)) h)).

Fixpoint blocks (fuel : nat) (ws : list Z) (h : list Z) : list Z :=
  match fuel with
  | O => h
  | S f =>
      match ws with
      | [] => h
      | _ => blocks f (skipn 16 ws) (compress h (firstn 16 ws))
      end
  end.

Definition digest (msg : list Z) : list Z :=
  let bs := pad msg in
  let ws := words (List.length bs) bs in
  blocks (List.length ws) ws H0.

Definition hex_digit (n : Z) : ascii :=
  ascii_of_N (Z.to_N (if n <? 10 then 48 + n else 87 + n)).

Fixpoint hex_word (n : nat) (x : Z) (tail : string) : string :=
  match n with
  | O => tail
  | S n' => hex_word n' (Z.shiftr x 4) (String (hex_digit (Z.land x 15)) tail)
  end.

(** [sha256(msg).hexdigest()] *)
Definition hexdigest (msg : list Z) : string :=
  fold_right (fun w acc => hex_word 8 w acc) "" (digest msg).

End Sha256.

(** [raw.encode("utf-8")] for code points below 256. *)
Fixpoint utf8 (s : string) : list Z :=
  match s with
  | EmptyString => []
  | String c r =>
      let n := Z.of_N (Py.code c) in
      if n <? 128 then n :: utf8 r
      else Z.lor 0xc0 (Z.shiftr n 6) :: Z.lor 0x80 (Z.land n 0x3f) :: utf8 r
  end.

Definition hash_password (raw : string) : string :=
  Sha256.hexdigest (utf8 raw).

(** ** The store *)

Module LibraryDB.

(** A row of [users]. *)
Record user := mkUser {
  user_id : Z;
  username : string;
  password_hash : string
}.

(** A row of [books]; the nullable columns are options. *)
Record book := mkBook {
  id : Z;
  title : string;
  author : string;
  category : option string;
  year : option Z;
  copies : Z;
  available : Z;
  created_at : string
}.

(** The dict handed to [add_book] / [update_book].  [p_id] is the ["id"]
    key: absent in what the form produces, set by [update_book] on the
    dict it was given. *)
Record payload := mkPayload {
  p_title : string;
  p_author : string;
  p_category : option string;
  p_year : option Z;
  p_copies : Z;
  p_available : Z;
  p_id : option Z
}.

(** The database file: both tables and, for each, the largest key
    AUTOINCREMENT has handed out. *)
Record db := mkDb {
  users : list user;
  users_seq : Z;
  books : list book;
  books_seq : Z
}.

(** A database file that does not exist yet. *)
Definition no_file : db := mkDb [] 0 [] 0.

Definition set_books (d : db) (bs : list book) (seq : Z) : db :=
  mkDb (users d) (users_seq d) bs seq.

(** AUTOINCREMENT: one more than every key in use or ever handed out. *)
Definition next_key (seq : Z) (keys : list Z) : Z :=
  fold_left Z.max keys seq + 1.

Definition _user_exists (d : db) (name : string) : bool :=
  existsb (fun u => String.eqb (username u) name) (users d).

Definition _ensure_db (d : db) : db :=
  if negb (_user_exists d "admin") then
    let k := next_key (users_seq d) (map user_id (users d)) in
    mkDb (users d ++ [mkUser k "admin" (hash_password "admin")]) k
         (books d) (books_seq d)
  else d.

(** [LibraryDB(db_path)] on a file with contents [d]. *)
Definition __init__ (d : db) : db := _ensure_db d.

(** SELECT password_hash FROM users WHERE username=?, then fetchone():
    the first matching row, if any. *)
Definition select_hash (d : db) (name : string) : option string :=
  option_map password_hash
    (find (fun u => String.eqb (username u) name) (users d)).

Definition verify_user (d : db) (name password : string) : bool :=
  match select_hash d name with
  | None => false
  | Some h => String.eqb h (hash_password password)
  end.

(** The INSERT statement. *)
Definition insert_book (d : db) (p : payload) (now : string) : db :=
  let k := next_key (books_seq d) (map id (books d)) in
  set_books d
    (books d ++ [mkBook k (p_title p) (p_author p) (p_category p)
                        (p_year p) (p_copies p) (p_available p) now])
    k.

(** The integer parameters [:year], [:copies] and [:available] can be
    bound. *)
Definition binds (p : payload) : bool :=
  Sql.fits_opt (p_year p) && Sql.fits (p_copies p) && Sql.fits (p_available p).

(** The database file after a call that may have raised. *)
Definition after (d : db) (r : outcome db) : db :=
  match r with
  | Returned d' => d'
  | Raised _ => d
  end.

(** The ["id"] key of the dict, if it has one, is no parameter of the
    INSERT and is not looked at. *)
Definition add_book (d : db) (p : payload) (now : string) : outcome db :=
  if binds p then Returned (insert_book d p now) else Raised OverflowError.

Definition overwrite (p : payload) (b : book) : book :=
  mkBook (id b) (p_title p) (p_author p) (p_category p) (p_year p)
         (p_copies p) (p_available p) (created_at b).

Definition with_id (p : payload) (book_id : Z) : payload :=
  mkPayload (p_title p) (p_author p) (p_category p) (p_year p)
            (p_copies p) (p_available p) (Some book_id).

(** The UPDATE statement. *)
Definition update_rows (d : db) (book_id : Z) (p : payload) : db :=
  set_books d
    (map (fun b => if id b =? book_id then overwrite p b else b) (books d))
    (books_seq d).

(** Returns the outcome of the UPDATE together with the dict, which the
    caller still holds and which carries the ["id"] key from before the
    statement is run. *)
Definition update_book (d : db) (book_id : Z) (p : payload)
    : outcome db * payload :=
  let p' := with_id p book_id in
  (if binds p' && Sql.fits book_id
   then Returned (update_rows d book_id p')
   else Raised OverflowError,
   p').

(** The DELETE statement. *)
Definition delete_rows (d : db) (book_id : Z) : db :=
  set_books d (filter (fun b => negb (id b =? book_id)) (books d))
            (books_seq d).

Definition delete_book (d : db) (book_id : Z) : outcome db :=
  if Sql.fits book_id then Returned (delete_rows d book_id)
  else Raised OverflowError.

(** ORDER BY created_at DESC.  Rows with the same [created_at] keep their
    scan order; SQL leaves their order open and nothing below relies on
    it. *)
Fixpoint insert_desc (b : book) (l : list book) : list book :=
  match l with
  | [] => [b]
  | x :: r =>
      if String.leb (created_at x) (created_at b) then b :: l
      else x :: insert_desc b r
  end.

Definition order_by_created_desc (l : list book) : list book :=
  fold_right insert_desc [] l.

(** WHERE lower(title) LIKE ? OR lower(author) LIKE ? OR lower(category) LIKE ? *)
Definition where_like (pattern : string) (b : book) : bool :=
  Sql.holds
    (Sql.or3
       (Sql.or3 (Sql.lower_like (Some (title b)) pattern)
                (Sql.lower_like (Some (author b)) pattern))
       (Sql.lower_like (category b) pattern)).

Definition fetch_books (d : db) (search : string) : list book :=
  if Py.truthy search then
    let like := "%" ++ Py.lower search ++ "%" in
    order_by_created_desc (filter (where_like like) (books d))
  else
    order_by_created_desc (books d).

Record stats := mkStats {
  total : Z;
  stat_available : Z;
  stat_copies : Z;
  issued : Z
}.

Definition integer_overflow : exn := OperationalError "integer overflow".

(** The running total of SUM(), row after row. *)
Fixpoint sum_from (acc : Z) (l : list Z) : outcome Z :=
  match l with
  | [] => Returned acc
  | x :: r =>
      if Sql.fits (acc + x) then sum_from (acc + x) r
      else Raised integer_overflow
  end.

(** SUM(): NULL over no rows. *)
Definition sql_sum (l : list Z) : outcome (option Z) :=
  match l with
  | [] => Returned None
  | _ =>
      match sum_from 0 l with
      | Returned n => Returned (Some n)
      | Raised e => Raised e
      end
  end.

Definition sql_count {A} (l : list A) : Z := Z.of_nat (List.length l).

(** [v or 0] *)
Definition or_0 (v : option Z) : Z :=
  match v with
  | Some n => if n =? 0 then 0 else n
  | None => 0
  end.

Definition summary (d : db) : outcome stats :=
  let total_ := sql_count (books d) in
  match sql_sum (map available (books d)) with
  | Raised e => Raised e
  | Returned available_ =>
      match sql_sum (map copies (books d)) with
      | Raised e => Raised e
      | Returned copies_ =>
          let issued_ :=
            sql_count (filter (fun b => available b =? 0) (books d)) in
          Returned (mkStats (or_0 (Some total_)) (or_0 available_)
                            (or_0 copies_) (or_0 (Some issued_)))
      end
  end.

End LibraryDB.

(** ** pathlib and csv, as far as the export uses them *)

Module Path.

(** [parent] is the text up to and including the last separator. *)
Record path := mkPath { parent : string; name : string }.



Fixpoint rfind_dot (s : string) (i : nat) (last : option nat) : option nat :=
  match s with
  | EmptyString => last
  | String c r =>
      rfind_dot r (S i) (if Ascii.eqb c "." then Some i else last)
  end.

(** The final suffix of a file name: from its last dot on, unless that dot
    is the first or the last character. *)
Definition suffix (n : string) : string :=
  match rfind_dot n 0 None with
  | Some i =>
      if (Nat.ltb 0 i && Nat.ltb i (String.length n - 1))%bool
      then substring i (String.length n - i) n
      else ""
  | None => ""
  end.

Definition with_suffix (p : path) (sfx : string) : path :=
  let old := suffix (name p) in
  mkPath (parent p)
         (substring 0 (String.length (name p) - String.length old) (name p)
          ++ sfx).

End Path.

Module Csv.

Definition dquote : ascii := "034"%char.
Definition cr : ascii := "013"%char.
Definition lf : ascii := "010"%char.

(** A cell handed to [writerow]: None, an int or a str. *)
Inductive cell := CNone | CInt (n : Z) | CStr (s : string).

Definition cell_text (c : cell) : string :=
  match c with
  | CNone => ""
  | CInt n => Py.str_int n
  | CStr s => s
  end.

(** QUOTE_MINIMAL: a field is quoted when it holds the delimiter, the
    quote character or a character of the line terminator. *)
Definition special (c : ascii) : bool :=
  Ascii.eqb c "," || Ascii.eqb c dquote || Ascii.eqb c cr || Ascii.eqb c lf.

Fixpoint needs_quotes (s : string) : bool :=
  match s with
  | EmptyString => false
  | String c r => special c || needs_quotes r
  end.

(** doublequote=True: a quote character inside a field is written twice. *)
Fixpoint escape (s : string) : string :=
  match s with
  | EmptyString => EmptyString
  | String c r =>
      if Ascii.eqb c dquote then String c (String c (escape r))
      else String c (escape r)
  end.

Definition field (c : cell) : string :=
  let s := cell_text c in
  if needs_quotes s
  then String dquote (escape s ++ String dquote EmptyString)
  else s.

Definition line_end : string := String cr (String lf EmptyString).

(** The text [writerow] appends for a record of at least two cells. *)
Definition writerow (cells : list cell) : string :=
  String.concat "," (map field cells) ++ line_end.


End Csv.
(** ** How Tk shows a value *)

Module Tk.

(** The text a table cell holds for a Python value: [str] of it. *)
Definition text_of_str (v : option string) : string :=
  match v with Some s => s | None => "None" end.
Definition text_of_int (v : option Z) : string :=
  match v with Some n => Py.str_int n | None => "None" end.

End Tk.


(** ** Sorting the table by a column *)

Module TableSort.

Import LibraryDB.

(** The columns of the Treeview. *)
Inductive column :=
| col_id | col_title | col_author | col_category
| col_year | col_copies | col_available | col_created.

Definition column_eqb (c d : column) : bool :=
  match c, d with
  | col_id, col_id | col_title, col_title | col_author, col_author
  | col_category, col_category | col_year, col_year
  | col_copies, col_copies | col_available, col_available
  | col_created, col_created => true
  | _, _ => false
  end.

(** [self.tree.set(k, col)]: the text the table holds in a cell. *)
Definition cell (col : column) (k : book) : string :=
  match col with
  | col_id => Py.str_int (id k)
  | col_title => title k
  | col_author => author k
  | col_category => Tk.text_of_str (category k)
  | col_year => Tk.text_of_int (year k)
  | col_copies => Py.str_int (copies k)
  | col_available => Py.str_int (available k)
  | col_created => created_at k
  end.

(** [list.sort(key=..., reverse=...)] on items already paired with their
    keys.  The sort is stable in both directions: an item goes before the
    first item it may stand before. *)
Definition may_precede {K} (leb : K -> K -> bool) (reverse : bool)
    (x y : K) : bool :=
  if reverse then leb y x else leb x y.

Fixpoint insert_by {K A} (before : K -> K -> bool) (x : K * A)
    (l : list (K * A)) : list (K * A) :=
  match l with
  | [] => [x]
  | y :: r =>
      if before (fst x) (fst y) then x :: l else y :: insert_by before x r
  end.

Definition py_sort {K A} (leb : K -> K -> bool) (reverse : bool)
    (keyed : list (K * A)) : list A :=
  map snd (fold_right (insert_by (may_precede leb reverse)) [] keyed).

(** The keys [int(t[0])] of all the items; [None] when one of them raises
    ValueError, which leaves the list as it was. *)
Fixpoint int_keys (data : list (string * book))
    : option (list (Z * (string * book))) :=
  match data with
  | [] => Some []
  | t :: r =>
      match Py.int (fst t) with
      | Some n => option_map (cons (n, t)) (int_keys r)
      | None => None
      end
  end.

(** Returns the rows in their new order and the [reverse] argument the
    heading will pass on the next click. *)
Definition sort_by_column (rows : list book) (col : column) (reverse : bool)
    : list book * bool :=
  let data := map (fun k => (cell col k, k)) rows in
  let sorted :=
    match int_keys data with
    | Some keyed => py_sort Z.leb reverse keyed
    | None =>
        py_sort String.leb reverse
                (map (fun t => (Py.lower (fst t), t)) data)
    end in
  (map snd sorted, negb reverse).

End TableSort.

(** ** The window: form, table and handlers *)

Module LibraryApp.

Import LibraryDB.

(** The six StringVars of the form. *)
Record form_vars := mkForm {
  Title : string;
  Author : string;
  Category : string;
  Year : string;
  Copies : string;
  Available : string
}.

(** The modal dialogs of tkinter.messagebox, with title and message. *)
Inductive dialog :=
| showinfo (t m : string)
| showwarning (t m : string)
| showerror (t m : string)
| askyesno (t m : string).

Inductive screen := LoggedOut | LoggedIn.

(** [db] is the database file as it stands; [tree] the rows of the table
    widget, top to bottom; [headings] the direction each heading's next
    click sorts in, [true] for descending; [stderr] the exceptions the
    handlers have raised, which Tk reports there, oldest first. *)
Record app := mkApp {
  db : LibraryDB.db;
  view : screen;
  form : form_vars;
  search_var : string;
  selected_id : option Z;
  tree : list book;
  stat_total : string;
  stat_available : string;
  stat_issued : string;
  headings : TableSort.column -> bool;
  stderr : list exn
}.


(** A try block: [None] is a raised ValueError. *)
Definition bind {A B} (x : option A) (k : A -> option B) : option B :=
  match x with Some a => k a | None => None end.

Notation "x <- e ;; k" := (bind e (fun x => k))
  (at level 61, e at next level, right associativity).

Definition numbers (year copies available : string)
  : option (option Z * Z * Z) :=
  year_val <- (if Py.truthy year then option_map Some (Py.int year)
               else Some None) ;;
  c <- Py.int copies ;;
  let copies_val := Z.max 0 c in
  a <- Py.int available ;;
  let available_val := Z.max 0 (Z.min a copies_val) in
  Some (year_val, copies_val, available_val).

Definition _form_payload (f : form_vars) : option payload * list dialog :=
  let title := Py.strip (Title f) in
  let author := Py.strip (Author f) in
  let category := Py.strip (Category f) in
  let year := Py.strip (Year f) in
  let copies := Py.or_str (Py.strip (Copies f)) "0" in
  let available := Py.or_str (Py.strip (Available f)) "0" in
  if negb (Py.truthy title) || negb (Py.truthy author) then
    (None, [showwarning "Missing data" "Title and Author are required"])
  else
    match numbers year copies available with
    | Some (year_val, copies_val, available_val) =>
        (Some (mkPayload title author (Some category) year_val
                         copies_val available_val None),
         [])
    | None =>
        (None,
         [showerror "Invalid number" "Year, Copies, Available must be numbers"])
    end.

Definition set_db (a : app) (d : LibraryDB.db) : app :=
  mkApp d (view a) (form a) (search_var a) (selected_id a) (tree a)
        (stat_total a) (stat_available a) (stat_issued a) (headings a)
        (stderr a).

Definition set_tree (a : app) (rows : list book) : app :=
  mkApp (db a) (view a) (form a) (search_var a) (selected_id a) rows
        (stat_total a) (stat_available a) (stat_issued a) (headings a)
        (stderr a).

Definition set_stats (a : app) (s : stats) : app :=
  mkApp (db a) (view a) (form a) (search_var a) (selected_id a) (tree a)
        ("Total books: " ++ Py.str_int (total s))
        ("Available copies: " ++ Py.str_int (LibraryDB.stat_available s))
        ("Issued titles: " ++ Py.str_int (issued s))
        (headings a) (stderr a).

(** Returns the window and the exception raised, if one is. *)
Definition update_stats (a : app) : app * option exn :=
  match summary (db a) with
  | Returned s => (set_stats a s, None)
  | Raised e => (a, Some e)
  end.

Definition refresh_table (a : app) : app * option exn :=
  let search := Py.strip (search_var a) in
  update_stats (set_tree a (fetch_books (db a) search)).

Definition clear_form (a : app) : app :=
  mkApp (db a) (view a) (mkForm "" "" "" "" "" "1") (search_var a) None
        (tree a) (stat_total a) (stat_available a) (stat_issued a)
        (headings a) (stderr a).

(** [focus] is the row of the table that has the focus, if any. *)
Definition on_select (a : app) (focus : option nat) : app :=
  match focus with
  | None => a
  | Some i =>
      match nth_error (tree a) i with
      | None => a
      | Some b =>
          mkApp (db a) (view a)
                (mkForm (title b) (author b) (Tk.text_of_str (category b))
                        (Tk.text_of_int (year b)) (Py.str_int (copies b))
                        (Py.str_int (available b)))
                (search_var a) (Some (id b)) (tree a)
                (stat_total a) (stat_available a) (stat_issued a)
                (headings a) (stderr a)
      end
  end.

(** An exception no handler catches ends the handler where it is; Tk
    reports it and the window goes on. *)
Definition report (a : app) (e : exn) : app :=
  mkApp (db a) (view a) (form a) (search_var a) (selected_id a) (tree a)
        (stat_total a) (stat_available a) (stat_issued a) (headings a)
        (stderr a ++ [e])%list.

(** The end of a handler whose last call before its closing dialogs
    [last] came back as [r]: the dialogs are shown unless the call
    raised. *)
Definition finish (r : app * option exn) (ds last : list dialog)
    : app * list dialog :=
  match snd r with
  | None => (fst r, ds ++ last)%list
  | Some e => (report (fst r) e, ds)
  end.

(** [now] is the clock reading CURRENT_TIMESTAMP takes. *)
Definition add_book (a : app) (now : string) : app * list dialog :=
  match _form_payload (form a) with
  | (None, ds) => (a, ds)
  | (Some payload, ds) =>
      match LibraryDB.add_book (db a) payload now with
      | Raised e => (report a e, ds)
      | Returned d =>
          finish (refresh_table (clear_form (set_db a d))) ds
                 [showinfo "Added" "Book added successfully"]
      end
  end.

Definition update_selected (a : app) : app * list dialog :=
  match selected_id a with
  | None => (a, [showwarning "Select a row" "Choose a book to update"])
  | Some book_id =>
      match _form_payload (form a) with
      | (None, ds) => (a, ds)
      | (Some payload, ds) =>
          match fst (update_book (db a) book_id payload) with
          | Raised e => (report a e, ds)
          | Returned d =>
              finish (refresh_table (set_db a d)) ds
                     [showinfo "Updated" "Book updated"]
          end
      end
  end.

(** [answer] is what the user replies to the confirmation. *)
Definition delete_selected (a : app) (answer : bool) : app * list dialog :=
  match selected_id a with
  | None => (a, [showwarning "Select a row" "Choose a book to delete"])
  | Some book_id =>
      let ask := askyesno "Confirm" "Delete this book? This cannot be undone." in
      if negb answer then (a, [ask])
      else
        match delete_book (db a) book_id with
        | Raised e => (report a e, [ask])
        | Returned d =>
            finish (refresh_table (clear_form (set_db a d))) [ask] []
        end
  end.

(** [_build_main_ui] makes new form, search, table and label objects, fills
    them from the database and leaves the [selected_id] attribute as it
    is. *)
Definition _build_main_ui (a : app) : app * option exn :=
  let built :=
    mkApp (db a) LoggedIn (mkForm "" "" "" "" "" "1") "" (selected_id a) []
          "Total books: 0" "Available copies: 0" "Issued titles: 0"
          (fun _ => false) (stderr a) in
  match refresh_table built with
  | (a1, Some e) => (a1, Some e)
  | (a1, None) => update_stats a1
  end.

Definition handle_login (a : app) (user password : string)
  : app * list dialog :=
  let username := Py.strip user in
  if negb (Py.truthy username) || negb (Py.truthy password) then
    (a, [showwarning "Missing fields" "Enter both username and password"])
  else if negb (verify_user (db a) username password) then
    (a, [showerror "Login failed" "Invalid credentials"])
  else
    finish (_build_main_ui a) [] [].

(** A click on the heading of [col]: the rows are put in order, and the
    heading remembers the direction of its next click. *)
Definition sort_by_column (a : app) (col : TableSort.column)
    (reverse : bool) : app :=
  let r := TableSort.sort_by_column (tree a) col reverse in
  mkApp (db a) (view a) (form a) (search_var a) (selected_id a) (fst r)
        (stat_total a) (stat_available a) (stat_issued a)
        (fun c => if TableSort.column_eqb c col then snd r
                  else headings a c)
        (stderr a).

Definition columns : list Csv.cell :=
  map Csv.CStr
      ["ID"; "Title"; "Author"; "Category"; "Year"; "Copies"; "Available";
       "Created"].

Definition opt_cell {A} (f : A -> Csv.cell) (v : option A) : Csv.cell :=
  match v with Some x => f x | None => Csv.CNone end.

(** A fetched row as the tuple the cursor returns. *)
Definition row_tuple (b : book) : list Csv.cell :=
  [Csv.CInt (id b); Csv.CStr (title b); Csv.CStr (author b);
   opt_cell Csv.CStr (category b); opt_cell Csv.CInt (year b);
   Csv.CInt (copies b); Csv.CInt (available b); Csv.CStr (created_at b)].

Section Paths.

(** [Path(__file__)]: where the script lives. *)
Variable __file__ : Path.path.



End Paths.

(** What the user can do, and the window's reaction.  [Login] is the
    Login button or the Return key, whose binding stays on the window;
    [Edit_search] is typing in the search field, which ends with a key
    release; [Change_search] changes the field without one (a paste with
    the mouse).  The widgets of the dashboard exist only once it is
    built. *)
Inductive event :=
| Login (user password : string)
| Edit_form (f : form_vars)
| Edit_search (s : string)
| Change_search (s : string)
| Select_row (focus : option nat)
| Click_add (now : string)
| Click_update
| Click_delete (answer : bool)
| Click_clear
| Click_heading (col : TableSort.column).

Definition set_form (a : app) (f : form_vars) : app :=
  mkApp (db a) (view a) f (search_var a) (selected_id a) (tree a)
        (stat_total a) (stat_available a) (stat_issued a) (headings a)
        (stderr a).

Definition set_search (a : app) (s : string) : app :=
  mkApp (db a) (view a) (form a) s (selected_id a) (tree a)
        (stat_total a) (stat_available a) (stat_issued a) (headings a)
        (stderr a).

Definition handle (a : app) (e : event) : app * list dialog :=
  match view a, e with
  | _, Login u p => handle_login a u p
  | LoggedOut, _ => (a, [])
  | LoggedIn, Edit_form f => (set_form a f, [])
  | LoggedIn, Edit_search s => finish (refresh_table (set_search a s)) [] []
  | LoggedIn, Change_search s => (set_search a s, [])
  | LoggedIn, Select_row focus => (on_select a focus, [])
  | LoggedIn, Click_add now => add_book a now
  | LoggedIn, Click_update => update_selected a
  | LoggedIn, Click_delete answer => delete_selected a answer
  | LoggedIn, Click_clear => (clear_form a, [])
  | LoggedIn, Click_heading col =>
      (sort_by_column a col (headings a col), [])
  end.

Fixpoint run (a : app) (es : list event) : app :=
  match es with
  | [] => a
  | e :: r => run (fst (handle a e)) r
  end.

(** [LibraryApp()] started on a database file with contents [d]. *)
Definition __init__ (d : LibraryDB.db) : app :=
  mkApp (LibraryDB.__init__ d) LoggedOut (mkForm "" "" "" "" "" "")
        "" None [] "" "" "" (fun _ => false) [].

End LibraryApp.

(** ** The Return key *)

Module Keyboard.

Import LibraryApp.

(** [_build_login] binds <Return> on the window to [handle_login], and the
    binding is still there once the dashboard is built.  [user] and
    [password] are what [username_var] and [password_var] hold. *)
Definition press_return (a : app) (user password : string)
    : app * list dialog :=
  handle_login a user password.

(** A user action: one of the window's, or the Return key. *)
Inductive action :=
| Do (e : event)
| Return_key (user password : string).

Definition react (a : app) (k : action) : app * list dialog :=
  match k with
  | Do e => handle a e
  | Return_key u p => press_return a u p
  end.

Fixpoint run (a : app) (ks : list action) : app :=
  match ks with
  | [] => a
  | k :: r => run (fst (react a k)) r
  end.

End Keyboard.


(** ** The specification's vocabulary *)

Module Spec.

Import LibraryDB.

(** [needle] occurs in [hay] as a run of consecutive characters. *)
Fixpoint contains (needle hay : string) : bool :=
  String.prefix needle hay
  || match hay with
     | EmptyString => false
     | String _ r => contains needle r
     end.

(** Substring up to the case of the ASCII letters, the case-insensitive
    comparison LIKE makes. *)
Definition contains_nocase (s t : string) : bool :=
  contains (Sql.lower s) (Sql.lower t).

(** The term occurs in the title, the author or the category, each read
    up to its first NUL. *)
Definition matches (s : string) (b : book) : bool :=
  contains_nocase s (Sql.c_text (title b))
  || contains_nocase s (Sql.c_text (author b))
  || match category b with
     | Some c => contains_nocase s (Sql.c_text c)
     | None => false
     end.




(** Newest first. *)
Definition newer_or_same (x y : book) : Prop :=
  String.leb (created_at y) (created_at x) = true.

(** The column sum, as arithmetic. *)
Definition column_sum (f : book -> Z) (rows : list book) : Z :=
  fold_right (fun b acc => f b + acc) 0 rows.

(** The totals of a column after one row, two rows and so on, in scan
    order, starting from [acc]. *)
Fixpoint running_totals (acc : Z) (l : list Z) : list Z :=
  match l with
  | [] => []
  | x :: r => (acc + x) :: running_totals (acc + x) r
  end.

(** Every running total of the column is a 64-bit integer. *)
Definition column_fits (f : book -> Z) (rows : list book) : bool :=
  forallb Sql.fits (running_totals 0 (map f rows)).

(** Both columns [summary] adds up can be added up. *)
Definition totals_fit (d : db) : bool :=
  column_fits available (books d) && column_fits copies (books d).

(** The data model's invariant on a row. *)
Definition row_ok (b : book) : Prop := 0 <= available b <= copies b.

Definition dune_payload : payload :=
  mkPayload "Dune" "Herbert" None None 2 2 None.

(** The scenario of the specification: a fresh store, then Dune added. *)
Definition scenario_clock : string := "2024-01-01 00:00:00".

Definition dune_store : db :=
  insert_book (LibraryDB.__init__ no_file) dune_payload scenario_clock.

Definition dune_row : book :=
  mkBook 1 "Dune" "Herbert" None None 2 2 scenario_clock.

(** A form field that is empty once trimmed. *)
Definition blank (s : string) : bool := Py.is_empty (Py.strip s).

(** A form field that, once trimmed, reads as an integer. *)
Definition reads_as_int (s : string) : bool :=
  match Py.int (Py.strip s) with Some _ => true | None => false end.

Definition blank_or_int (s : string) : bool := blank s || reads_as_int s.

(** Malformed numeric input: a Year that is neither blank nor an integer,
    or a Copies or Available that is neither blank nor an integer. *)
Definition malformed_numbers (f : LibraryApp.form_vars) : bool :=
  negb (blank_or_int (LibraryApp.Year f))
  || negb (blank_or_int (LibraryApp.Copies f))
  || negb (blank_or_int (LibraryApp.Available f)).

Definition invalid_number : LibraryApp.dialog :=
  LibraryApp.showerror "Invalid number"
                       "Year, Copies, Available must be numbers".

(** Every row of the table satisfies the data model's invariant. *)
Definition rows_ok (d : db) : Prop := Forall row_ok (books d).

Definition dune_form : LibraryApp.form_vars :=
  LibraryApp.mkForm "Dune" "Herbert" "" "" "2" "2".

(** A store with no books yet. *)
Definition no_books (us : list user) (useq bseq : Z) : db :=
  mkDb us useq [] bseq.

(** Two rows of 2^62 copies, each of which the form accepts: their sum is
    2^63. *)
Definition big_form : LibraryApp.form_vars :=
  LibraryApp.mkForm "Big" "B" "" "1965" "4611686018427387904"
                    "4611686018427387904".

Definition big_payload : payload :=
  mkPayload "Big" "B" (Some "") (Some 1965) (2 ^ 62) (2 ^ 62) None.

Definition big_store : db :=
  insert_book (insert_book no_file big_payload scenario_clock)
              big_payload scenario_clock.

(** What the form yields for Copies 9223372036854775808, which is 2^63. *)
Definition wide_form : LibraryApp.form_vars :=
  LibraryApp.mkForm "Dune" "Herbert" "" "" "9223372036854775808" "1".

Definition wide_payload : payload :=
  mkPayload "Dune" "Herbert" (Some "") None (2 ^ 63) 1 None.

End Spec.
(** ** Invariants of the store and of the window *)

Module Inv.

Import LibraryDB.

(** Primary keys are unique and none exceeds the AUTOINCREMENT counter. *)
Definition keys_ok (d : db) : Prop :=
  NoDup (map id (books d))
  /\ Forall (fun b => id b <= books_seq d) (books d).

(** The integers of a row are 64-bit integers, as every integer SQLite
    has stored is. *)
Definition row_fits (b : book) : bool :=
  Sql.fits (id b) && Sql.fits_opt (year b) && Sql.fits (copies b)
  && Sql.fits (available b).

Definition rows_fit (rows : list book) : Prop :=
  Forall (fun b => row_fits b = true) rows.

(** The three labels show the aggregates [s]. *)
Definition labels_show (a : LibraryApp.app) (s : stats) : Prop :=
  LibraryApp.stat_total a = "Total books: " ++ Py.str_int (total s)
  /\ LibraryApp.stat_available a
     = "Available copies: " ++ Py.str_int (stat_available s)
  /\ LibraryApp.stat_issued a
     = "Issued titles: " ++ Py.str_int (issued s).

(** The labels as [_build_main_ui] creates them. *)
Definition labels_blank (a : LibraryApp.app) : Prop :=
  LibraryApp.stat_total a = "Total books: 0"
  /\ LibraryApp.stat_available a = "Available copies: 0"
  /\ LibraryApp.stat_issued a = "Issued titles: 0".

(** The table shows, in some order, the rows a query of the current
    database returns for some search term, and whenever [summary] can be
    computed on the current database the labels show it. *)
Definition in_sync (a : LibraryApp.app) : Prop :=
  (exists s, Permutation (LibraryApp.tree a)
                         (fetch_books (LibraryApp.db a) s))
  /\ (forall st, summary (LibraryApp.db a) = Returned st -> labels_show a st).


(** The remembered selection is the key of a stored row. *)
Definition selection_ok (a : LibraryApp.app) : Prop :=
  forall k, LibraryApp.selected_id a = Some k ->
            exists b, In b (books (LibraryApp.db a)) /\ id b = k.

(** The facts about a window that every handler keeps. *)
Definition coherent (a : LibraryApp.app) : Prop :=
  (LibraryApp.view a = LibraryApp.LoggedIn -> in_sync a) /\ selection_ok a.

(** The integer a cell reads as, 0 when it does not. *)
Definition int_key (t : string * book) : Z :=
  match Py.int (fst t) with Some n => n | None => 0 end.



Definition window_after_add : LibraryApp.app :=
  LibraryApp.run (LibraryApp.__init__ no_file)
    [LibraryApp.Login "admin" "admin"; LibraryApp.Edit_form Spec.dune_form;
     LibraryApp.Click_add Spec.scenario_clock].

Definition window_with_form : LibraryApp.app :=
  LibraryApp.run (LibraryApp.__init__ no_file)
    [LibraryApp.Login "admin" "admin"; LibraryApp.Edit_form Spec.dune_form].

(** A window on the store whose column sums pass 64 bits. *)
Definition big_window (sel : option Z) : LibraryApp.app :=
  LibraryApp.mkApp Spec.big_store LibraryApp.LoggedIn
                   (LibraryApp.mkForm "" "" "" "" "" "1") "" sel
                   (fetch_books Spec.big_store "") "" "" ""
                   (fun _ => false) [].


(** Every character of the text satisfies [f]. *)
Fixpoint all_chars (f : ascii -> bool) (s : string) : bool :=
  match s with
  | EmptyString => true
  | String c r => f c && all_chars f r
  end.

Definition not_space (c : ascii) : bool := negb (Py.is_space c).



(** A text of [n] digits 1. *)
Fixpoint ones (n : nat) : string :=
  match n with
  | O => EmptyString
  | S m => String "1" (ones m)
  end.

End Inv.


(** ** Checks on concrete inputs *)

Example int_plain : Py.int "42" = Some 42.
Proof. reflexivity. Qed.
Example int_signed : Py.int "-7" = Some (-7).
Proof. reflexivity. Qed.
Example int_grouped : Py.int "1_000" = Some 1000.
Proof. reflexivity. Qed.
Example int_blank : Py.int "" = None.
Proof. reflexivity. Qed.
Example int_word : Py.int "abc" = None.
Proof. reflexivity. Qed.
Example int_trailing_underscore : Py.int "1_" = None.
Proof. reflexivity. Qed.
Example int_double_underscore : Py.int "1__2" = None.
Proof. reflexivity. Qed.
Example int_fraction : Py.int "1.5" = None.
Proof. reflexivity. Qed.
Example int_spaces : Py.int "  42 " = Some 42.
Proof. reflexivity. Qed.
Example int_plus : Py.int "+7" = Some 7.
Proof. reflexivity. Qed.
(** [int] does not skip the separators U+001C..U+001F that [strip]
    removes. *)
Example int_separator : Py.int (String (ascii_of_N 28) "5") = None.
Proof. reflexivity. Qed.
Example strip_separator : Py.strip (String (ascii_of_N 28) "5") = "5".
Proof. reflexivity. Qed.
Example int_4300_digits : Py.int (Inv.ones 4300) <> None.
Proof. vm_compute. discriminate. Qed.
Example int_4301_digits : Py.int (Inv.ones 4301) = None.
Proof. vm_compute. reflexivity. Qed.
Example int_4301_zeros_counted :
  Py.int (String "0" (Inv.ones 4300)) = None.
Proof. vm_compute. reflexivity. Qed.
Example strip_both : Py.strip "  Dune " = "Dune".
Proof. reflexivity. Qed.
Example strip_inner : Py.strip " a b " = "a b".
Proof. reflexivity. Qed.
Example lower_mixed : Py.lower "DuNe" = "dune".
Proof. reflexivity. Qed.
Example str_int_neg : Py.str_int (-12) = "-12".
Proof. reflexivity. Qed.
Example str_int_zero : Py.str_int 0 = "0".
Proof. reflexivity. Qed.

Example like_inner : Sql.like "%dun%" "dune" = true.
Proof. reflexivity. Qed.
Example like_case : Sql.like "%DUN%" "dune" = true.
Proof. reflexivity. Qed.
Example like_miss : Sql.like "%zzz%" "dune" = false.
Proof. reflexivity. Qed.
Example like_one : Sql.like "d_ne" "dune" = true.
Proof. reflexivity. Qed.
Example like_anchored : Sql.like "dun" "dune" = false.
Proof. reflexivity. Qed.

(** The pattern and the text end at their first NUL. *)
Example like_nul_pattern :
  Sql.like (String "%" (String (ascii_of_N 0) "%")) "dune" = true.
Proof. reflexivity. Qed.
Example like_nul_text :
  Sql.like "%dune%" (String "x" (String (ascii_of_N 0) "dune")) = false.
Proof. reflexivity. Qed.

Example fits_max : Sql.fits (2 ^ 63 - 1) = true.
Proof. reflexivity. Qed.
Example fits_over : Sql.fits (2 ^ 63) = false.
Proof. reflexivity. Qed.
Example fits_min : Sql.fits (- 2 ^ 63) = true.
Proof. reflexivity. Qed.

(** SUM() fails on the running total, in scan order. *)
Example sum_overflow_early :
  LibraryDB.sql_sum [2 ^ 63 - 1; 1; -5] = Raised LibraryDB.integer_overflow.
Proof. reflexivity. Qed.
Example sum_no_overflow :
  LibraryDB.sql_sum [-5; 2 ^ 63 - 1; 1] = Returned (Some (2 ^ 63 - 5)).
Proof. reflexivity. Qed.

Example sha256_empty :
  Sha256.hexdigest [] =
  "e3b0c44298fc1c149afbf4c8996fb92427ae41e4649b934ca495991b7852b855".
Proof. vm_compute. reflexivity. Qed.

Example sha256_abc :
  Sha256.hexdigest [97; 98; 99] =
  "ba7816bf8f01cfea414140de5dae2223b00361a396177a9cb410ff61f20015ad".
Proof. vm_compute. reflexivity. Qed.

Example hash_admin :
  hash_password "admin" =
  "8c6976e5b5410415bde908bd4dee15dfb167a9c873fc4bb8a81f6f2ab448a918".
Proof. vm_compute. reflexivity. Qed.

Example fresh_store_has_admin :
  LibraryDB.verify_user (LibraryDB.__init__ LibraryDB.no_file) "admin" "admin"
  = true.
Proof. vm_compute. reflexivity. Qed.

Example with_suffix_db :
  Path.with_suffix (Path.mkPath "/srv/app/" "library.db") ".csv"
  = Path.mkPath "/srv/app/" "library.csv".
Proof. reflexivity. Qed.

(** ** Ordering of text and of fetched rows *)

Lemma leb_cons (c1 c2 : ascii) (s1 s2 : string) :
  String.leb (String c1 s1) (String c2 s2) =
  match N.compare (N_of_ascii c1) (N_of_ascii c2) with
  | Lt => true
  | Eq => String.leb s1 s2
  | Gt => false
  end.
Proof.
  unfold String.leb. simpl. unfold Ascii.compare.
  destruct (N.compare (N_of_ascii c1) (N_of_ascii c2)); reflexivity.
Qed.

Lemma leb_nil_l (s : string) : String.leb "" s = true.
Proof. destruct s; reflexivity. Qed.

Lemma leb_trans (a b c : string) :
  String.leb a b = true -> String.leb b c = true -> String.leb a c = true.
Proof.
  revert b c. induction a as [|x a IH]; intros b c Hab Hbc.
  - apply leb_nil_l.
  - destruct b as [|y b]; [discriminate Hab|].
    destruct c as [|z c]; [discriminate Hbc|].
    rewrite leb_cons in *.
    destruct (N.compare_spec (N_of_ascii x) (N_of_ascii y)) as [E1|L1|G1];
      destruct (N.compare_spec (N_of_ascii y) (N_of_ascii z)) as [E2|L2|G2];
      try discriminate;
      destruct (N.compare_spec (N_of_ascii x) (N_of_ascii z)) as [E3|L3|G3];
      try reflexivity; try lia.
    eapply IH; eassumption.
Qed.

Lemma leb_false_flip (a b : string) :
  String.leb a b = false -> String.leb b a = true.
Proof.
  intros H. destruct (String.leb_total a b) as [E|E]; [congruence|exact E].
Qed.

Section OrderBy.

Import LibraryDB.

Lemma insert_desc_perm (b : book) (l : list book) :
  Permutation (b :: l) (insert_desc b l).
Proof.
  induction l as [|x r IH]; simpl.
  - apply Permutation_refl.
  - destruct (String.leb (created_at x) (created_at b)).
    + apply Permutation_refl.
    + eapply Permutation_trans; [apply perm_swap|].
      apply perm_skip, IH.
Qed.

Lemma order_by_perm (l : list book) :
  Permutation l (order_by_created_desc l).
Proof.
  induction l as [|b l IH]; simpl.
  - apply perm_nil.
  - eapply Permutation_trans; [apply perm_skip, IH|].
    apply insert_desc_perm.
Qed.

Lemma newer_trans (x y z : book) :
  Spec.newer_or_same x y -> Spec.newer_or_same y z -> Spec.newer_or_same x z.
Proof.
  unfold Spec.newer_or_same. intros H1 H2. eapply leb_trans; eassumption.
Qed.

Lemma insert_desc_sorted (b : book) (l : list book) :
  StronglySorted Spec.newer_or_same l ->
  StronglySorted Spec.newer_or_same (insert_desc b l).
Proof.
  induction 1 as [|x r Hs IH Hx]; simpl.
  - constructor; constructor.
  - destruct (String.leb (created_at x) (created_at b)) eqn:E.
    + constructor.
      * constructor; assumption.
      * constructor; [exact E|].
        eapply Forall_impl; [|exact Hx].
        intros y Hy. eapply newer_trans; [exact E|exact Hy].
    + constructor; [exact IH|].
      eapply Permutation_Forall; [apply insert_desc_perm|].
      constructor; [|exact Hx].
      apply leb_false_flip, E.
Qed.

Lemma order_by_sorted (l : list book) :
  StronglySorted Spec.newer_or_same (order_by_created_desc l).
Proof.
  induction l as [|b l IH]; simpl.
  - constructor.
  - apply insert_desc_sorted, IH.
Qed.

Lemma order_by_length (l : list book) :
  List.length (order_by_created_desc l) = List.length l.
Proof. symmetry. apply Permutation_length, order_by_perm. Qed.

Lemma order_by_in (b : book) (l : list book) :
  In b (order_by_created_desc l) <-> In b l.
Proof.
  split; intros H.
  - eapply Permutation_in; [apply Permutation_sym, order_by_perm|exact H].
  - eapply Permutation_in; [apply order_by_perm|exact H].
Qed.

End OrderBy.

(** ** LIKE on a pattern without wildcards between the two percent signs *)

Ltac by_cases_on_char c :=
  destruct c as [[] [] [] [] [] [] [] []]; vm_compute; try reflexivity;
  try discriminate; auto.



















(** ** fetch_books *)

Section Fetch.

Import LibraryDB.






Lemma fetch_books_all (d : db) : fetch_books d "" = order_by_created_desc (books d).
Proof. reflexivity. Qed.




End Fetch.
(** ** Search *)

Section SearchTerm.

Import LibraryDB.

Example dune_store_books : books Spec.dune_store = [Spec.dune_row].
Proof. reflexivity. Qed.

Example dune_store_added :
  add_book (LibraryDB.__init__ no_file) Spec.dune_payload Spec.scenario_clock
  = Returned Spec.dune_store.
Proof. reflexivity. Qed.

(** A capital outside ASCII in the term is lowered by Python but not by
    SQLite, so the term misses the very text it was copied from. *)
Example fetch_books_wide_capital :
  fetch_books
    (insert_book no_file
       (mkPayload (String (ascii_of_N 201) "") "x" None None 1 1 None)
       Spec.scenario_clock)
    (String (ascii_of_N 201) "") = [].
Proof. vm_compute. reflexivity. Qed.

(** A term that starts with NUL is an empty pattern between the two
    percent signs, of which only the first is read: every row comes
    back. *)
Example fetch_books_nul_term :
  fetch_books Spec.dune_store (String (ascii_of_N 0) "zzz") = [Spec.dune_row]
  /\ Spec.matches (String (ascii_of_N 0) "zzz") Spec.dune_row = false.
Proof. split; vm_compute; reflexivity. Qed.

(** A text is searched up to its first NUL only. *)
Example fetch_books_nul_title :
  fetch_books
    (insert_book no_file
       (mkPayload (String "x" (String (ascii_of_N 0) "dune")) "y" None None
                  1 1 None)
       Spec.scenario_clock)
    "dune" = [].
Proof. vm_compute. reflexivity. Qed.




End SearchTerm.
(** ** Aggregates *)

Section Summary.

Import LibraryDB.

Lemma or_0_some (n : Z) : or_0 (Some n) = n.
Proof.
  unfold or_0. destruct (n =? 0) eqn:E; [|reflexivity].
  apply Z.eqb_eq in E. symmetry. exact E.
Qed.

Lemma column_sum_map (f : book -> Z) (rows : list book) :
  fold_right Z.add 0 (map f rows) = Spec.column_sum f rows.
Proof.
  induction rows as [|b rows IH]; simpl; [reflexivity|].
  rewrite IH. reflexivity.
Qed.

(** SUM() returns the total when every running total is a 64-bit integer
    and raises otherwise. *)
Lemma sum_from_running (l : list Z) (acc : Z) :
  sum_from acc l =
  if forallb Sql.fits (Spec.running_totals acc l)
  then Returned (acc + fold_right Z.add 0 l)
  else Raised integer_overflow.
Proof.
  revert acc. induction l as [|x l IH]; intros acc.
  - cbn. f_equal. lia.
  - cbn [sum_from Spec.running_totals forallb fold_right].
    destruct (Sql.fits (acc + x)); [|reflexivity].
    rewrite IH. cbn [andb].
    destruct (forallb Sql.fits (Spec.running_totals (acc + x) l));
      [|reflexivity].
    f_equal. lia.
Qed.

Lemma sql_sum_column (f : book -> Z) (rows : list book) :
  sql_sum (map f rows) =
  if Spec.column_fits f rows
  then Returned (match rows with
                 | [] => None
                 | _ :: _ => Some (Spec.column_sum f rows)
                 end)
  else Raised integer_overflow.
Proof.
  unfold Spec.column_fits. rewrite <- column_sum_map.
  destruct rows as [|b rows]; [reflexivity|].
  unfold sql_sum. cbn [map]. rewrite sum_from_running, Z.add_0_l.
  destruct (forallb Sql.fits (Spec.running_totals 0 (f b :: map f rows)));
    reflexivity.
Qed.

Lemma or_0_column (f : book -> Z) (rows : list book) :
  or_0 (match rows with
        | [] => None
        | _ :: _ => Some (Spec.column_sum f rows)
        end) = Spec.column_sum f rows.
Proof. destruct rows; [reflexivity|apply or_0_some]. Qed.

(** What [summary] computes, and when. *)
Lemma summary_columns (d : db) :
  summary d =
  if Spec.totals_fit d
  then Returned
         (mkStats (Z.of_nat (List.length (books d)))
                  (Spec.column_sum available (books d))
                  (Spec.column_sum copies (books d))
                  (Z.of_nat (List.length
                               (filter (fun b => available b =? 0)
                                       (books d)))))
  else Raised integer_overflow.
Proof.
  unfold summary, Spec.totals_fit. rewrite !sql_sum_column.
  destruct (Spec.column_fits available (books d)); [|reflexivity].
  destruct (Spec.column_fits copies (books d)); [|reflexivity].
  cbn [andb]. rewrite !or_0_some, !or_0_column. reflexivity.
Qed.

Lemma summary_returned (d : db) (st : stats) :
  summary d = Returned st ->
  Spec.totals_fit d = true
  /\ st = mkStats (Z.of_nat (List.length (books d)))
                  (Spec.column_sum available (books d))
                  (Spec.column_sum copies (books d))
                  (Z.of_nat (List.length
                               (filter (fun b => available b =? 0)
                                       (books d)))).
Proof.
  rewrite summary_columns. destruct (Spec.totals_fit d); [|discriminate].
  intros H. injection H as H. split; [reflexivity|]. symmetry. exact H.
Qed.

Lemma summary_raised (d : db) (e : exn) :
  summary d = Raised e ->
  Spec.totals_fit d = false /\ e = integer_overflow.
Proof.
  rewrite summary_columns. destruct (Spec.totals_fit d); [discriminate|].
  intros H. injection H as H. split; [reflexivity|]. symmetry. exact H.
Qed.

Example big_store_added :
  LibraryApp._form_payload Spec.big_form = (Some Spec.big_payload, [])
  /\ add_book (after no_file
                 (add_book no_file Spec.big_payload Spec.scenario_clock))
              Spec.big_payload Spec.scenario_clock
     = Returned Spec.big_store.
Proof. split; vm_compute; reflexivity. Qed.

(** C3, as stated, fails: two books of 2^62 copies each, which the form
    accepts and [add_book] stores, make the sum of a column pass 64 bits;
    SUM() then fails and [summary] raises instead of returning. *)
Lemma summary_raises_on_overflow :
  Spec.rows_ok Spec.big_store
  /\ map copies (books Spec.big_store) = [2 ^ 62; 2 ^ 62]
  /\ summary Spec.big_store = Raised integer_overflow.
Proof.
  split; [|split; reflexivity].
  repeat constructor; cbn; lia.
Qed.

(** C3 (amended): on every store whose running totals of the [available]
    and [copies] columns, in scan order, all are 64-bit integers,
    [summary] returns the number of rows, the sum of the [available]
    column, the sum of the [copies] column and the number of rows with
    [available = 0]; on every other store it raises the "integer overflow"
    error of SUM(); after adding Dune (2 copies, 2 available) to a store
    without books it returns total 1, available 2, copies 2, issued 0. *)
Theorem summary_spec (d : db) :
  (Spec.totals_fit d = true ->
     exists st,
       summary d = Returned st
       /\ total st = Z.of_nat (List.length (books d))
       /\ stat_available st = Spec.column_sum available (books d)
       /\ stat_copies st = Spec.column_sum copies (books d)
       /\ issued st =
          Z.of_nat (List.length (filter (fun b => available b =? 0)
                                        (books d))))
  /\ (Spec.totals_fit d = false -> summary d = Raised integer_overflow)
  /\ (forall us useq bseq now,
        exists d',
          add_book (Spec.no_books us useq bseq) Spec.dune_payload now
          = Returned d'
          /\ summary d' = Returned (mkStats 1 2 2 0)).
Proof.
  rewrite summary_columns. split; [|split].
  - intros F. rewrite F. eexists. split; [reflexivity|]. repeat split.
  - intros F. rewrite F. reflexivity.
  - intros us useq bseq now. eexists. split; reflexivity.
Qed.

Lemma summary_spec_witness :
  exists st,
    summary Spec.dune_store = Returned st
    /\ total st = 1
    /\ stat_available st = 2
    /\ stat_copies st = 2
    /\ issued st = 0.
Proof.
  destruct (summary_spec Spec.dune_store) as [H _].
  apply H. reflexivity.
Defined.

(** C7, as stated, fails: on the store of two books of 2^62 copies each,
    [fetch_books("")] returns two rows while [summary] raises and so gives
    no total. *)
Lemma summary_total_missing_on_overflow :
  List.length (fetch_books Spec.big_store "") = 2%nat
  /\ summary Spec.big_store = Raised integer_overflow.
Proof. split; reflexivity. Qed.

(** C7 (amended): whenever [summary] returns, its total is the number of
    rows [fetch_books("")] returns; it returns exactly on the stores whose
    running column totals all are 64-bit integers, and raises on the
    others. *)
Theorem summary_total_fetch_all (d : db) :
  (forall st, summary d = Returned st ->
     total st = Z.of_nat (List.length (fetch_books d "")))
  /\ ((exists st, summary d = Returned st) <-> Spec.totals_fit d = true)
  /\ (Spec.totals_fit d = false -> summary d = Raised integer_overflow).
Proof.
  split; [|split].
  - intros st H. apply summary_returned in H. destruct H as [_ H].
    subst st. rewrite fetch_books_all, order_by_length. reflexivity.
  - split.
    + intros [st H]. apply summary_returned in H. apply H.
    + intros F. rewrite summary_columns, F. eexists. reflexivity.
  - intros F. rewrite summary_columns, F. reflexivity.
Qed.

Lemma summary_total_fetch_all_witness :
  total (mkStats 1 2 2 0)
  = Z.of_nat (List.length (fetch_books Spec.dune_store "")).
Proof.
  destruct (summary_total_fetch_all Spec.dune_store) as [H _].
  apply H. reflexivity.
Defined.

End Summary.
(** ** Insert and update *)

Section Mutations.

Import LibraryDB.

Lemma set_books_same (d : db) : set_books d (books d) (books_seq d) = d.
Proof. destruct d. reflexivity. Qed.

Lemma map_unchanged {A} (f : A -> A) (l : list A) :
  (forall x, In x l -> f x = x) -> map f l = l.
Proof.
  induction l as [|x l IH]; intros H; simpl; [reflexivity|].
  rewrite (H x (or_introl eq_refl)), IH; [reflexivity|].
  intros y Hy. apply H. right. exact Hy.
Qed.

Lemma binds_with_id (p : payload) (k : Z) : binds (with_id p k) = binds p.
Proof. reflexivity. Qed.

Lemma update_rows_missing_id (d : db) (book_id : Z) (p : payload) :
  (forall b, In b (books d) -> id b <> book_id) ->
  update_rows d book_id p = d.
Proof.
  intros Missing. unfold update_rows. rewrite map_unchanged.
  - apply set_books_same.
  - intros b Hb. apply Missing in Hb. apply Z.eqb_neq in Hb.
    rewrite Hb. reflexivity.
Qed.

(** C4, as stated, fails where it says "without raising an error": the
    parameters are bound before any row is looked for, so an integer
    outside 64 bits in the payload, which the form can yield, makes
    [update_book] raise OverflowError although no row has the id. *)
Lemma update_book_missing_id_raises :
  LibraryApp._form_payload Spec.wide_form = (Some Spec.wide_payload, [])
  /\ map id (books Spec.dune_store) = [1]
  /\ fst (update_book Spec.dune_store 7 Spec.wide_payload)
     = Raised OverflowError
  /\ fst (update_book Spec.dune_store (2 ^ 63) Spec.dune_payload)
     = Raised OverflowError.
Proof. split; [vm_compute; reflexivity|]. repeat split. Qed.

(** C4 (amended): [update_book] on an id that no row carries changes
    nothing in the database, whatever the payload; it returns without
    raising when the id and the payload's year, copies and available are
    64-bit integers, and raises OverflowError otherwise. *)
Theorem update_book_missing_id (d : db) (book_id : Z) (p : payload)
    (Missing : forall b, In b (books d) -> id b <> book_id) :
  after d (fst (update_book d book_id p)) = d
  /\ books (after d (fst (update_book d book_id p))) = books d
  /\ (binds p && Sql.fits book_id = true ->
      fst (update_book d book_id p) = Returned d)
  /\ (binds p && Sql.fits book_id = false ->
      fst (update_book d book_id p) = Raised OverflowError).
Proof.
  unfold update_book. cbn [fst]. rewrite binds_with_id.
  rewrite (update_rows_missing_id d book_id _ Missing).
  destruct (binds p && Sql.fits book_id); cbn [after].
  - repeat split. intros H. discriminate H.
  - repeat split. intros H. discriminate H.
Qed.

Lemma update_book_missing_id_witness :
  after Spec.dune_store (fst (update_book Spec.dune_store 7 Spec.dune_payload))
  = Spec.dune_store
  /\ fst (update_book Spec.dune_store 7 Spec.dune_payload)
     = Returned Spec.dune_store.
Proof.
  destruct (update_book_missing_id Spec.dune_store 7 Spec.dune_payload)
    as [E [_ [R _]]].
  - intros b Hb. simpl in Hb. destruct Hb as [Hb|[]]. subst b.
    simpl. discriminate.
  - split; [exact E|]. apply R. reflexivity.
Defined.

(** C5, as stated, fails: for Copies 9223372036854775808 the form yields
    a validated payload, [add_book] raises OverflowError on it, nothing is
    stored and [fetch_books("")] holds no such row. *)
Lemma add_book_wide_copies_raises :
  LibraryApp._form_payload Spec.wide_form = (Some Spec.wide_payload, [])
  /\ add_book no_file Spec.wide_payload Spec.scenario_clock
     = Raised OverflowError
  /\ fetch_books
       (after no_file
          (add_book no_file Spec.wide_payload Spec.scenario_clock)) ""
     = [].
Proof. split; [|split]; vm_compute; reflexivity. Qed.

(** C5 (amended): for every payload whose year, copies and available are
    64-bit integers, [add_book] returns, and [fetch_books("")] then holds
    a row that carries the payload's title, author, category, year, copies
    and available (and the clock reading as [created_at]); for every other
    payload it raises OverflowError and the database is as before. *)
Theorem add_book_then_fetch (d : db) (p : payload) (now : string) :
  (binds p = true ->
   exists d' b,
     add_book d p now = Returned d'
     /\ In b (fetch_books d' "")
     /\ title b = p_title p /\ author b = p_author p
     /\ category b = p_category p /\ year b = p_year p
     /\ copies b = p_copies p /\ available b = p_available p
     /\ created_at b = now)
  /\ (binds p = false ->
      add_book d p now = Raised OverflowError
      /\ after d (add_book d p now) = d).
Proof.
  unfold add_book. split; intros B; rewrite B.
  - exists (insert_book d p now).
    exists (mkBook (next_key (books_seq d) (map id (books d)))
                   (p_title p) (p_author p) (p_category p) (p_year p)
                   (p_copies p) (p_available p) now).
    split; [reflexivity|]. split.
    + rewrite fetch_books_all. apply order_by_in.
      unfold insert_book, set_books. cbn [books].
      apply in_or_app. right. left. reflexivity.
    + cbn. repeat split.
  - split; reflexivity.
Qed.

Lemma add_book_then_fetch_witness :
  exists d' b,
    add_book (LibraryDB.__init__ no_file) Spec.dune_payload
             Spec.scenario_clock = Returned d'
    /\ In b (fetch_books d' "")
    /\ title b = "Dune" /\ author b = "Herbert"
    /\ category b = None /\ year b = None
    /\ copies b = 2 /\ available b = 2
    /\ created_at b = Spec.scenario_clock.
Proof.
  destruct (add_book_then_fetch (LibraryDB.__init__ no_file)
              Spec.dune_payload Spec.scenario_clock) as [H _].
  apply H. reflexivity.
Defined.

Lemma overwrite_id (p : payload) (b : book) : id (overwrite p b) = id b.
Proof. reflexivity. Qed.

Lemma overwrite_twice (p : payload) (b : book) :
  overwrite p (overwrite p b) = overwrite p b.
Proof. reflexivity. Qed.

Lemma with_id_twice (p : payload) (k : Z) :
  with_id (with_id p k) k = with_id p k.
Proof. reflexivity. Qed.

Lemma overwrite_with_id (p : payload) (k : Z) (b : book) :
  overwrite (with_id p k) b = overwrite p b.
Proof. reflexivity. Qed.

Lemma update_rows_twice (d : db) (k : Z) (p q : payload) :
  overwrite q = overwrite p ->
  update_rows (update_rows d k p) k q = update_rows d k p.
Proof.
  intros Hq. unfold update_rows, set_books.
  cbn [books users users_seq books_seq]. f_equal.
  rewrite map_map. apply map_ext. intros b.
  destruct (id b =? k) eqn:E.
  - rewrite overwrite_id, E, Hq. reflexivity.
  - rewrite E. reflexivity.
Qed.

(** C6: [update_book] is idempotent.  Called a second time with the same id
    and the same dict (which the first call has marked with the id), or
    with an unmarked copy of it, it leaves the database as the first call
    left it and ends as the first call ended: returning, or raising
    OverflowError with the database untouched. *)
Theorem update_book_idempotent (d : db) (book_id : Z) (p : payload) :
  let once := update_book d book_id p in
  update_book (after d (fst once)) book_id (snd once) = once
  /\ update_book (after d (fst once)) book_id p = once
  /\ after (after d (fst once))
           (fst (update_book (after d (fst once)) book_id p))
     = after d (fst once).
Proof.
  cbv zeta.
  assert (E : update_book (after d (fst (update_book d book_id p))) book_id p
              = update_book d book_id p).
  { unfold update_book. cbn [fst snd]. rewrite binds_with_id.
    destruct (binds p && Sql.fits book_id); cbn [after]; [|reflexivity].
    rewrite update_rows_twice by reflexivity. reflexivity. }
  split; [|split].
  - rewrite <- E at 3. unfold update_book. cbn [snd].
    rewrite with_id_twice, !binds_with_id. reflexivity.
  - exact E.
  - rewrite E. destruct (fst (update_book d book_id p)); reflexivity.
Qed.

End Mutations.

(** ** Credentials *)

Section Users.

Import LibraryDB.

Lemma find_user_none (us : list user) (name : string) :
  (forall u, In u us -> username u <> name) ->
  find (fun u => String.eqb (username u) name) us = None.
Proof.
  induction us as [|u us IH]; intros H; simpl; [reflexivity|].
  destruct (String.eqb_spec (username u) name) as [E|N].
  - exfalso. exact (H u (or_introl eq_refl) E).
  - apply IH. intros v Hv. apply H. right. exact Hv.
Qed.

Lemma find_user_unique (us : list user) (name : string) (u : user) :
  NoDup (map username us) -> In u us -> username u = name ->
  find (fun v => String.eqb (username v) name) us = Some u.
Proof.
  induction us as [|v us IH]; intros U Hin Hname; [destruct Hin|].
  simpl in U. inversion U as [|x l Hnot Hrest]; subst x l.
  simpl. destruct (String.eqb_spec (username v) name) as [E|N].
  - destruct Hin as [Hv|Hin]; [subst v; reflexivity|].
    exfalso. apply Hnot. rewrite E, <- Hname. apply in_map. exact Hin.
  - destruct Hin as [Hv|Hin]; [subst v; contradiction|].
    apply IH; assumption.
Qed.

(** C8: with user names unique, as the table declares them,
    [verify_user] returns false when no stored user has the name, false
    when the stored hash differs from the digest of the password, and true
    exactly when a stored user has the name and the digest of the password
    as hash. *)
Theorem verify_user_spec (d : db) (name password : string)
    (Unique : NoDup (map username (users d))) :
  ((forall u, In u (users d) -> username u <> name) ->
     verify_user d name password = false)
  /\ (forall u, In u (users d) -> username u = name ->
        password_hash u <> hash_password password ->
        verify_user d name password = false)
  /\ (verify_user d name password = true <->
      exists u, In u (users d) /\ username u = name
                /\ password_hash u = hash_password password).
Proof.
  unfold verify_user, select_hash. split; [|split].
  - intros H. rewrite (find_user_none _ _ H). reflexivity.
  - intros u Hin Hname Hneq.
    rewrite (find_user_unique _ _ _ Unique Hin Hname). cbn.
    apply String.eqb_neq. exact Hneq.
  - split.
    + destruct (find _ (users d)) as [u|] eqn:F; [|discriminate].
      cbn. intros E. apply find_some in F. destruct F as [Hin Hname].
      exists u. repeat split.
      * exact Hin.
      * apply String.eqb_eq. exact Hname.
      * apply String.eqb_eq. exact E.
    + intros [u [Hin [Hname Hhash]]].
      rewrite (find_user_unique _ _ _ Unique Hin Hname). cbn.
      apply String.eqb_eq. exact Hhash.
Qed.

End Users.

Lemma verify_user_spec_witness :
  LibraryDB.verify_user (LibraryDB.__init__ LibraryDB.no_file) "admin" "admin"
  = true.
Proof.
  apply (verify_user_spec (LibraryDB.__init__ LibraryDB.no_file)
                          "admin" "admin").
  - constructor; [intros []|constructor].
  - eexists. split; [left; reflexivity|]. split; reflexivity.
Defined.

(** ** Form validation *)

Section Validation.

Import LibraryDB LibraryApp.

Lemma is_empty_true (s : string) : Py.is_empty s = true -> s = "".
Proof. destruct s; [reflexivity|discriminate]. Qed.

Lemma or_str_blank (s : string) :
  Py.is_empty s = true -> Py.or_str s "0" = "0".
Proof. intros H. apply is_empty_true in H. subst s. reflexivity. Qed.

Lemma or_str_not_blank (s : string) :
  Py.is_empty s = false -> Py.or_str s "0" = s.
Proof. intros H. unfold Py.or_str, Py.truthy. rewrite H. reflexivity. Qed.

(** What the try block computes, field by field. *)
Lemma numbers_some (y c a : string) (r : option Z * Z * Z) :
  numbers y c a = Some r ->
  exists cv av,
    Py.int c = Some cv /\ Py.int a = Some av
    /\ (if Py.truthy y then option_map Some (Py.int y) else Some None)
       = Some (fst (fst r))
    /\ snd (fst r) = Z.max 0 cv
    /\ snd r = Z.max 0 (Z.min av (Z.max 0 cv)).
Proof.
  unfold numbers, bind.
  destruct (if Py.truthy y then option_map Some (Py.int y) else Some None)
    as [yv|]; [|discriminate].
  destruct (Py.int c) as [cv|]; [|discriminate].
  destruct (Py.int a) as [av|]; [|discriminate].
  intros H. injection H as H. subst r. exists cv, av. repeat split.
Qed.

Lemma form_payload_some (f : form_vars) (p : payload) (ds : list dialog) :
  _form_payload f = (Some p, ds) ->
  ds = []
  /\ Py.truthy (Py.strip (Title f)) = true
  /\ Py.truthy (Py.strip (Author f)) = true
  /\ exists r,
       numbers (Py.strip (Year f))
               (Py.or_str (Py.strip (Copies f)) "0")
               (Py.or_str (Py.strip (Available f)) "0") = Some r
       /\ p = mkPayload (Py.strip (Title f)) (Py.strip (Author f))
                        (Some (Py.strip (Category f)))
                        (fst (fst r)) (snd (fst r)) (snd r) None.
Proof.
  unfold _form_payload.
  destruct (Py.truthy (Py.strip (Title f))); [|discriminate].
  destruct (Py.truthy (Py.strip (Author f))); [|discriminate].
  cbn [negb orb].
  destruct (numbers _ _ _) as [[[yv cv] av]|] eqn:N; [|discriminate].
  intros H. injection H as Hp Hds. subst p ds.
  repeat split. eexists. split; reflexivity.
Qed.

Lemma form_payload_clamped (f : form_vars) (p : payload) (ds : list dialog) :
  _form_payload f = (Some p, ds) -> 0 <= p_available p <= p_copies p.
Proof.
  intros H. apply form_payload_some in H.
  destruct H as [_ [_ [_ [r [N Hp]]]]]. subst p. cbn [p_available p_copies].
  apply numbers_some in N. destruct N as [cv [av [_ [_ [_ [Hc Ha]]]]]].
  rewrite Hc, Ha. lia.
Qed.

Lemma numbers_none_iff (f : form_vars) :
  numbers (Py.strip (Year f))
          (Py.or_str (Py.strip (Copies f)) "0")
          (Py.or_str (Py.strip (Available f)) "0") = None
  <-> Spec.malformed_numbers f = true.
Proof.
  unfold Spec.malformed_numbers, Spec.blank_or_int, Spec.blank,
    Spec.reads_as_int, numbers, bind, Py.truthy.
  destruct (Py.is_empty (Py.strip (Year f))) eqn:Ey;
    destruct (Py.is_empty (Py.strip (Copies f))) eqn:Ec;
    destruct (Py.is_empty (Py.strip (Available f))) eqn:Ea;
    rewrite ?(or_str_blank _ Ec), ?(or_str_blank _ Ea),
            ?(or_str_not_blank _ Ec), ?(or_str_not_blank _ Ea);
    change (Py.int "0") with (Some 0); cbn [negb orb option_map];
    repeat match goal with
           | |- context [Py.int ?s] => destruct (Py.int s)
           end;
    cbn; split; intros H; try reflexivity; try discriminate H.
Qed.

Lemma form_payload_accepts (f : form_vars) (r : option Z * Z * Z) :
  Spec.blank (Title f) = false -> Spec.blank (Author f) = false ->
  numbers (Py.strip (Year f))
          (Py.or_str (Py.strip (Copies f)) "0")
          (Py.or_str (Py.strip (Available f)) "0") = Some r ->
  _form_payload f =
  (Some (mkPayload (Py.strip (Title f)) (Py.strip (Author f))
                   (Some (Py.strip (Category f)))
                   (fst (fst r)) (snd (fst r)) (snd r) None), []).
Proof.
  intros T A N. unfold Spec.blank in T, A.
  unfold _form_payload, Py.truthy. rewrite T, A, N.
  destruct r as [[yv cv] av]. reflexivity.
Qed.

Lemma form_payload_rejects (f : form_vars) :
  Spec.blank (Title f) = false -> Spec.blank (Author f) = false ->
  Spec.malformed_numbers f = true ->
  _form_payload f = (None, [Spec.invalid_number]).
Proof.
  intros T A M. apply numbers_none_iff in M.
  unfold Spec.blank in T, A.
  unfold _form_payload, Py.truthy. rewrite T, A, M. reflexivity.
Qed.

End Validation.

Section BlankCopies.

Import LibraryDB LibraryApp.

(** C10, as stated, fails where it says "regardless of the Available field's
    value": with Title and Author filled in and Copies blank, an Available
    that is not a number makes validation stop with the "Invalid number"
    dialog, and no payload is produced. *)
Lemma form_payload_blank_copies_bad_available :
  _form_payload (mkForm "Dune" "Herbert" "" "" "" "abc")
  = (None, [Spec.invalid_number]).
Proof. reflexivity. Qed.

(** An Available of 4301 digits is not a number [int] converts, and is
    refused like any other malformed number. *)
Example form_payload_blank_copies_long_available :
  _form_payload (mkForm "Dune" "Herbert" "" "" "" (Inv.ones 4301))
  = (None, [Spec.invalid_number])
  /\ Spec.blank_or_int (Inv.ones 4301) = false.
Proof. split; vm_compute; reflexivity. Qed.

(** C10 (amended): a blank Copies field is read as "0".  For every form with
    Title and Author not blank and Copies blank: any payload produced has
    copies = 0 and available = 0; one is produced whenever Year and
    Available are each blank or a text [int] converts, which is a decimal
    integer of at most 4300 digits (the form's default Available of "1"
    included); otherwise validation shows "Invalid number" and produces
    none. *)
Theorem form_payload_blank_copies (f : form_vars)
    (T : Spec.blank (Title f) = false) (A : Spec.blank (Author f) = false)
    (C : Spec.blank (Copies f) = true) :
  (forall p ds, _form_payload f = (Some p, ds) ->
     p_copies p = 0 /\ p_available p = 0)
  /\ (Spec.blank_or_int (Year f) = true ->
      Spec.blank_or_int (Available f) = true ->
      exists p, _form_payload f = (Some p, [])
                /\ p_copies p = 0 /\ p_available p = 0)
  /\ (Spec.blank_or_int (Year f) = false
      \/ Spec.blank_or_int (Available f) = false ->
      _form_payload f = (None, [Spec.invalid_number])).
Proof.
  assert (Zero : forall p ds, _form_payload f = (Some p, ds) ->
                   p_copies p = 0 /\ p_available p = 0).
  { intros p ds H. apply form_payload_some in H.
    destruct H as [_ [_ [_ [r [N Hp]]]]]. subst p.
    cbn [p_copies p_available].
    apply numbers_some in N. destruct N as [cv [av [Hc [_ [_ [Hcv Hav]]]]]].
    unfold Spec.blank in C. rewrite (or_str_blank _ C) in Hc.
    injection Hc as Hc. subst cv. rewrite Hcv, Hav. lia. }
  assert (BC : Spec.blank_or_int (Copies f) = true).
  { unfold Spec.blank_or_int. rewrite C. reflexivity. }
  split; [exact Zero|split].
  - intros Y Av.
    destruct (numbers (Py.strip (Year f))
                (Py.or_str (Py.strip (Copies f)) "0")
                (Py.or_str (Py.strip (Available f)) "0")) as [r|] eqn:N.
    + pose proof (form_payload_accepts f r T A N) as F.
      eexists. split; [exact F|]. exact (Zero _ _ F).
    + apply numbers_none_iff in N. unfold Spec.malformed_numbers in N.
      rewrite Y, Av, BC in N. discriminate N.
  - intros M.
    assert (N : Spec.malformed_numbers f = true).
    { unfold Spec.malformed_numbers. destruct M as [M|M]; rewrite M.
      - reflexivity.
      - apply orb_true_r. }
    apply form_payload_rejects; assumption.
Qed.

Lemma form_payload_blank_copies_witness :
  exists p, _form_payload (mkForm "Dune" "Herbert" "" "" "" "1") = (Some p, [])
            /\ p_copies p = 0 /\ p_available p = 0.
Proof.
  apply (form_payload_blank_copies (mkForm "Dune" "Herbert" "" "" "" "1"));
    reflexivity.
Defined.

End BlankCopies.
(** ** What a store call returns *)

Section Outcomes.

Import LibraryDB.

Lemma add_book_returned (d d' : db) (p : payload) (now : string) :
  add_book d p now = Returned d' ->
  d' = insert_book d p now /\ binds p = true.
Proof.
  unfold add_book. destruct (binds p); [|discriminate].
  intros H. injection H as H. split; [symmetry; exact H|reflexivity].
Qed.

Lemma add_book_raised (d : db) (p : payload) (now : string) (e : exn) :
  add_book d p now = Raised e -> e = OverflowError /\ binds p = false.
Proof.
  unfold add_book. destruct (binds p); [discriminate|].
  intros H. injection H as H. split; [symmetry; exact H|reflexivity].
Qed.

Lemma update_book_returned (d d' : db) (k : Z) (p : payload) :
  fst (update_book d k p) = Returned d' ->
  d' = update_rows d k (with_id p k)
  /\ binds p = true /\ Sql.fits k = true.
Proof.
  unfold update_book. cbn [fst]. rewrite binds_with_id.
  destruct (binds p); [|discriminate].
  destruct (Sql.fits k); [|discriminate].
  intros H. injection H as H. repeat split. symmetry. exact H.
Qed.

Lemma update_book_raised (d : db) (k : Z) (p : payload) (e : exn) :
  fst (update_book d k p) = Raised e ->
  e = OverflowError /\ binds p && Sql.fits k = false.
Proof.
  unfold update_book. cbn [fst]. rewrite binds_with_id.
  destruct (binds p && Sql.fits k); [discriminate|].
  intros H. injection H as H. split; [symmetry; exact H|reflexivity].
Qed.

Lemma delete_book_returned (d d' : db) (k : Z) :
  delete_book d k = Returned d' ->
  d' = delete_rows d k /\ Sql.fits k = true.
Proof.
  unfold delete_book. destruct (Sql.fits k); [|discriminate].
  intros H. injection H as H. split; [symmetry; exact H|reflexivity].
Qed.

Lemma delete_book_raised (d : db) (k : Z) (e : exn) :
  delete_book d k = Raised e -> e = OverflowError /\ Sql.fits k = false.
Proof.
  unfold delete_book. destruct (Sql.fits k); [discriminate|].
  intros H. injection H as H. split; [symmetry; exact H|reflexivity].
Qed.

End Outcomes.

(** ** The invariant on rows *)

Section Invariant.

Import LibraryDB LibraryApp.

Lemma rows_ok_insert (d : LibraryDB.db) (p : payload) (now : string) :
  Spec.rows_ok d -> 0 <= p_available p <= p_copies p ->
  Spec.rows_ok (insert_book d p now).
Proof.
  unfold Spec.rows_ok, insert_book, set_books. cbn [books].
  intros H Hp. apply Forall_app. split; [exact H|].
  constructor; [exact Hp|constructor].
Qed.

Lemma rows_ok_update_rows (d : LibraryDB.db) (k : Z) (p : payload) :
  Spec.rows_ok d -> 0 <= p_available p <= p_copies p ->
  Spec.rows_ok (update_rows d k p).
Proof.
  unfold Spec.rows_ok, update_rows, set_books. cbn [books].
  intros H Hp. apply Forall_map. eapply Forall_impl; [|exact H].
  intros b Hb. destruct (id b =? k); [exact Hp|exact Hb].
Qed.

Lemma rows_ok_delete_rows (d : LibraryDB.db) (k : Z) :
  Spec.rows_ok d -> Spec.rows_ok (delete_rows d k).
Proof.
  unfold Spec.rows_ok, delete_rows, set_books. cbn [books].
  intros H. apply Forall_forall. intros b Hb.
  apply filter_In in Hb. destruct Hb as [Hb _].
  revert b Hb. apply Forall_forall. exact H.
Qed.

Lemma rows_ok_add (d : LibraryDB.db) (p : payload) (now : string) :
  Spec.rows_ok d -> 0 <= p_available p <= p_copies p ->
  Spec.rows_ok (after d (LibraryDB.add_book d p now)).
Proof.
  intros H Hp. unfold LibraryDB.add_book.
  destruct (binds p); cbn [after]; [apply rows_ok_insert; assumption|exact H].
Qed.

Lemma rows_ok_update (d : LibraryDB.db) (k : Z) (p : payload) :
  Spec.rows_ok d -> 0 <= p_available p <= p_copies p ->
  Spec.rows_ok (after d (fst (update_book d k p))).
Proof.
  intros H Hp. unfold update_book. cbn [fst].
  destruct (binds (with_id p k) && Sql.fits k); cbn [after]; [|exact H].
  apply rows_ok_update_rows; assumption.
Qed.

Lemma rows_ok_delete (d : LibraryDB.db) (k : Z) :
  Spec.rows_ok d -> Spec.rows_ok (after d (delete_book d k)).
Proof.
  intros H. unfold delete_book.
  destruct (Sql.fits k); cbn [after]; [apply rows_ok_delete_rows|]; exact H.
Qed.

(** The two ways [refresh_table] ends. *)
Lemma refresh_table_cases (a : app) :
  (exists st,
     summary (db a) = Returned st
     /\ refresh_table a =
        (set_stats
           (set_tree a (fetch_books (db a) (Py.strip (search_var a)))) st,
         None))
  \/ (exists e,
        summary (db a) = Raised e
        /\ refresh_table a =
           (set_tree a (fetch_books (db a) (Py.strip (search_var a))),
            Some e)).
Proof.
  unfold refresh_table, update_stats. cbn [set_tree db].
  destruct (summary (db a)) as [st|e].
  - left. exists st. split; reflexivity.
  - right. exists e. split; reflexivity.
Qed.

Lemma db_update_stats (a : app) : db (fst (update_stats a)) = db a.
Proof. unfold update_stats. destruct (summary (db a)); reflexivity. Qed.

Lemma db_refresh_table (a : app) : db (fst (refresh_table a)) = db a.
Proof. unfold refresh_table. rewrite db_update_stats. reflexivity. Qed.

Lemma db_finish (r : app * option exn) (ds last : list dialog) :
  db (fst (finish r ds last)) = db (fst r).
Proof. unfold finish. destruct (snd r); reflexivity. Qed.

Lemma db_clear_form (a : app) : db (clear_form a) = db a.
Proof. reflexivity. Qed.

Lemma db_on_select (a : app) (focus : option nat) : db (on_select a focus) = db a.
Proof.
  unfold on_select. destruct focus as [i|]; [|reflexivity].
  destruct (nth_error (tree a) i); reflexivity.
Qed.

Lemma db_build_main_ui (a : app) : db (fst (_build_main_ui a)) = db a.
Proof.
  unfold _build_main_ui.
  match goal with
  | |- context [refresh_table ?b] =>
      pose proof (db_refresh_table b) as R;
      destruct (refresh_table b) as [a1 [e|]]
  end; cbn [fst] in *.
  - exact R.
  - rewrite db_update_stats. exact R.
Qed.

Lemma db_handle_login (a : app) (u pw : string) :
  db (fst (handle_login a u pw)) = db a.
Proof.
  unfold handle_login.
  destruct (negb (Py.truthy (Py.strip u)) || negb (Py.truthy pw));
    [reflexivity|].
  destruct (negb (verify_user (db a) (Py.strip u) pw)); [reflexivity|].
  rewrite db_finish. apply db_build_main_ui.
Qed.

Lemma db_add_click (a : app) (now : string) :
  db (fst (add_book a now)) = db a
  \/ exists p ds,
       _form_payload (form a) = (Some p, ds)
       /\ db (fst (add_book a now))
          = after (db a) (LibraryDB.add_book (db a) p now).
Proof.
  unfold add_book.
  destruct (_form_payload (form a)) as [[p|] ds] eqn:F; [|left; reflexivity].
  right. exists p, ds. split; [reflexivity|].
  destruct (LibraryDB.add_book (db a) p now) as [d|e]; cbn [after].
  - rewrite db_finish, db_refresh_table. reflexivity.
  - reflexivity.
Qed.

Lemma db_update_click (a : app) :
  db (fst (update_selected a)) = db a
  \/ exists k p ds,
       selected_id a = Some k
       /\ _form_payload (form a) = (Some p, ds)
       /\ db (fst (update_selected a))
          = after (db a) (fst (update_book (db a) k p)).
Proof.
  unfold update_selected.
  destruct (selected_id a) as [k|]; [|left; reflexivity].
  destruct (_form_payload (form a)) as [[p|] ds] eqn:F; [|left; reflexivity].
  right. exists k, p, ds. split; [reflexivity|]. split; [reflexivity|].
  destruct (fst (update_book (db a) k p)) as [d|e]; cbn [after].
  - rewrite db_finish, db_refresh_table. reflexivity.
  - reflexivity.
Qed.

Lemma db_delete_click (a : app) (answer : bool) :
  db (fst (delete_selected a answer)) = db a
  \/ exists k,
       selected_id a = Some k /\ answer = true
       /\ db (fst (delete_selected a answer))
          = after (db a) (delete_book (db a) k).
Proof.
  unfold delete_selected.
  destruct (selected_id a) as [k|]; [|left; reflexivity].
  destruct answer; cbn [negb]; [|left; reflexivity].
  right. exists k. split; [reflexivity|]. split; [reflexivity|].
  destruct (delete_book (db a) k) as [d|e]; cbn [after].
  - rewrite db_finish, db_refresh_table. reflexivity.
  - reflexivity.
Qed.

Lemma rows_ok_add_click (a : app) (now : string) :
  Spec.rows_ok (db a) -> Spec.rows_ok (db (fst (add_book a now))).
Proof.
  intros H. destruct (db_add_click a now) as [E|[p [ds [F E]]]]; rewrite E.
  - exact H.
  - apply rows_ok_add; [exact H|]. eapply form_payload_clamped, F.
Qed.

Lemma rows_ok_update_click (a : app) :
  Spec.rows_ok (db a) -> Spec.rows_ok (db (fst (update_selected a))).
Proof.
  intros H. destruct (db_update_click a) as [E|[k [p [ds [_ [F E]]]]]];
    rewrite E.
  - exact H.
  - apply rows_ok_update; [exact H|]. eapply form_payload_clamped, F.
Qed.

Lemma rows_ok_delete_click (a : app) (answer : bool) :
  Spec.rows_ok (db a) -> Spec.rows_ok (db (fst (delete_selected a answer))).
Proof.
  intros H. destruct (db_delete_click a answer) as [E|[k [_ [_ E]]]];
    rewrite E.
  - exact H.
  - apply rows_ok_delete, H.
Qed.

Lemma rows_ok_handle (a : app) (e : event) :
  Spec.rows_ok (db a) -> Spec.rows_ok (db (fst (handle a e))).
Proof.
  intros H. unfold handle. destruct (view a), e; cbn [fst];
    try exact H; try (rewrite db_handle_login; exact H).
  - rewrite db_finish, db_refresh_table. exact H.
  - rewrite db_on_select. exact H.
  - apply rows_ok_add_click, H.
  - apply rows_ok_update_click, H.
  - apply rows_ok_delete_click, H.
Qed.

Lemma rows_ok_run (es : list event) (a : app) :
  Spec.rows_ok (db a) -> Spec.rows_ok (db (run a es)).
Proof.
  revert a. induction es as [|e es IH]; intros a H; simpl; [exact H|].
  apply IH, rows_ok_handle, H.
Qed.

End Invariant.

Section UiMutations.

Import LibraryDB LibraryApp.

Lemma books_ensure_db (d : LibraryDB.db) : books (_ensure_db d) = books d.
Proof.
  unfold _ensure_db. destruct (negb (_user_exists d "admin")); reflexivity.
Qed.

Example run_adds_dune :
  books (db (run (LibraryApp.__init__ no_file)
                 [Login "admin" "admin"; Edit_form Spec.dune_form;
                  Click_add Spec.scenario_clock]))
  = [mkBook 1 "Dune" "Herbert" (Some "") None 2 2 Spec.scenario_clock].
Proof. vm_compute. reflexivity. Qed.

Example run_needs_login :
  books (db (run (LibraryApp.__init__ no_file)
                 [Login "admin" "nope"; Edit_form Spec.dune_form;
                  Click_add Spec.scenario_clock]))
  = [].
Proof. vm_compute. reflexivity. Qed.

(** Copies 2^63 passes validation; the INSERT then raises OverflowError,
    which ends the handler: nothing is stored, the form is not cleared and
    no dialog is shown. *)
Example run_add_wide_copies :
  books (db (run (LibraryApp.__init__ no_file)
                 [Login "admin" "admin"; Edit_form Spec.wide_form;
                  Click_add Spec.scenario_clock]))
  = []
  /\ stderr (run (LibraryApp.__init__ no_file)
                 [Login "admin" "admin"; Edit_form Spec.wide_form;
                  Click_add Spec.scenario_clock])
     = [OverflowError]
  /\ form (run (LibraryApp.__init__ no_file)
               [Login "admin" "admin"; Edit_form Spec.wide_form;
                Click_add Spec.scenario_clock])
     = Spec.wide_form.
Proof. vm_compute. repeat split. Qed.

(** C2: validation turns Copies and Available into integers with
    available clamped into [0, copies]; numeric input that is malformed is
    answered with the "Invalid number" dialog and Add and Update then leave
    the window and the store as they were; and every handler, Add, Update
    and Delete included, keeps [0 <= available <= copies] true of every row,
    so that it holds after any sequence of user actions on a store that
    satisfied it when the window opened, a newly created store among
    them. *)
Theorem ui_mutations_keep_rows_ok :
  (forall f p ds, _form_payload f = (Some p, ds) ->
     0 <= p_available p <= p_copies p
     /\ exists cv av,
          Py.int (Py.or_str (Py.strip (Copies f)) "0") = Some cv
          /\ Py.int (Py.or_str (Py.strip (Available f)) "0") = Some av
          /\ p_copies p = Z.max 0 cv
          /\ p_available p = Z.max 0 (Z.min av (p_copies p)))
  /\ (forall a now,
        Spec.blank (Title (form a)) = false ->
        Spec.blank (Author (form a)) = false ->
        Spec.malformed_numbers (form a) = true ->
        _form_payload (form a) = (None, [Spec.invalid_number])
        /\ add_book a now = (a, [Spec.invalid_number])
        /\ (forall k, selected_id a = Some k ->
              update_selected a = (a, [Spec.invalid_number])))
  /\ (forall a now, Spec.rows_ok (db a) ->
        Spec.rows_ok (db (fst (add_book a now))))
  /\ (forall a, Spec.rows_ok (db a) ->
        Spec.rows_ok (db (fst (update_selected a))))
  /\ (forall a answer, Spec.rows_ok (db a) ->
        Spec.rows_ok (db (fst (delete_selected a answer))))
  /\ (forall d es, Spec.rows_ok d ->
        Spec.rows_ok (db (run (LibraryApp.__init__ d) es)))
  /\ (forall es, Spec.rows_ok (db (run (LibraryApp.__init__ no_file) es))).
Proof.
  assert (Run : forall d es, Spec.rows_ok d ->
                  Spec.rows_ok (db (run (LibraryApp.__init__ d) es))).
  { intros d es H. apply rows_ok_run. unfold Spec.rows_ok.
    cbn [LibraryApp.__init__ db]. unfold LibraryDB.__init__.
    rewrite books_ensure_db. exact H. }
  split; [|split; [|split; [|split; [|split; [|split]]]]].
  - intros f p ds F. split; [eapply form_payload_clamped, F|].
    apply form_payload_some in F. destruct F as [_ [_ [_ [r [N Hp]]]]].
    subst p. cbn [p_copies p_available].
    apply numbers_some in N. destruct N as [cv [av [Hc [Ha [_ [Hcv Hav]]]]]].
    exists cv, av. rewrite Hcv at 2. repeat split; assumption.
  - intros a now T A M.
    pose proof (form_payload_rejects (form a) T A M) as R.
    split; [exact R|split].
    + unfold add_book. rewrite R. reflexivity.
    + intros k K. unfold update_selected. rewrite K, R. reflexivity.
  - intros a now. apply rows_ok_add_click.
  - intros a. apply rows_ok_update_click.
  - intros a answer. apply rows_ok_delete_click.
  - exact Run.
  - intros es. apply Run. constructor.
Qed.

Lemma ui_mutations_keep_rows_ok_witness :
  Spec.rows_ok
    (db (run (LibraryApp.__init__ no_file)
             [Login "admin" "admin"; Edit_form Spec.dune_form;
              Click_add Spec.scenario_clock])).
Proof.
  destruct ui_mutations_keep_rows_ok as [_ [_ [_ [_ [_ [H _]]]]]].
  apply (H no_file). constructor.
Defined.

End UiMutations.

(** ** Export *)

Section CsvExport.

Import LibraryDB LibraryApp.

Variable __file__ : Path.path.

Example header_line :
  Csv.writerow columns =
  "ID,Title,Author,Category,Year,Copies,Available,Created" ++ Csv.line_end.
Proof. reflexivity. Qed.

Example quoted_field :
  Csv.field (Csv.CStr "Dune, part two") =
  String Csv.dquote ("Dune, part two" ++ String Csv.dquote "").
Proof. reflexivity. Qed.

Example dune_line :
  Csv.writerow (row_tuple Spec.dune_row) =
  "1,Dune,Herbert,,,2,2,2024-01-01 00:00:00" ++ Csv.line_end.
Proof. reflexivity. Qed.



End CsvExport.
(** ** Further properties of the store *)

Section StoreFacts.

Import LibraryDB.

Lemma fetch_books_in (d : db) (s : string) (b : book) :
  In b (fetch_books d s) <->
  In b (books d)
  /\ (Py.truthy s = false
      \/ where_like ("%" ++ Py.lower s ++ "%") b = true).
Proof.
  unfold fetch_books. destruct (Py.truthy s).
  - rewrite order_by_in, filter_In. intuition discriminate.
  - rewrite order_by_in. intuition.
Qed.

Lemma filter_all_in {A} (f : A -> bool) (l : list A) :
  (forall x, In x l -> f x = true) -> filter f l = l.
Proof.
  induction l as [|x l IH]; intros H; simpl; [reflexivity|].
  rewrite (H x (or_introl eq_refl)), IH; [reflexivity|].
  intros y Hy. apply H. right. exact Hy.
Qed.

Lemma NoDup_map_filter {A B} (g : A -> B) (f : A -> bool) (l : list A) :
  NoDup (map g l) -> NoDup (map g (filter f l)).
Proof.
  induction l as [|x l IH]; simpl; intros H; [constructor|].
  inversion H as [|y r Hnot Hrest]; subst y r.
  destruct (f x); [|apply IH, Hrest].
  simpl. constructor; [|apply IH, Hrest].
  intros Hin. apply Hnot. apply in_map_iff in Hin.
  destruct Hin as [z [Hz Hin]]. apply filter_In in Hin.
  rewrite <- Hz. apply in_map, Hin.
Qed.

Lemma Forall_filter_keep {A} (P : A -> Prop) (f : A -> bool) (l : list A) :
  Forall P l -> Forall P (filter f l).
Proof.
  intros H. apply Forall_forall. intros x Hx. apply filter_In in Hx.
  destruct Hx as [Hx _]. revert x Hx. apply Forall_forall. exact H.
Qed.

Lemma delete_rows_then_fetch (d : db) (k : Z) (s : string) (b : book) :
  In b (fetch_books (delete_rows d k) s) <->
  In b (fetch_books d s) /\ id b <> k.
Proof.
  rewrite !fetch_books_in. unfold delete_rows, set_books. cbn [books].
  rewrite filter_In, negb_true_iff, Z.eqb_neq. intuition.
Qed.

Lemma delete_rows_missing_id (d : db) (k : Z) :
  (forall b, In b (books d) -> id b <> k) -> delete_rows d k = d.
Proof.
  intros Missing. unfold delete_rows. rewrite filter_all_in.
  - apply set_books_same.
  - intros b Hb. apply negb_true_iff, Z.eqb_neq, Missing, Hb.
Qed.

(** X1: [delete_book(k)], for an id that is a 64-bit integer, returns,
    and [fetch_books] then returns, for every search term, the rows it
    returned before except those with id [k]: no row with the deleted id
    comes back and no other row is lost.  For any other id it raises
    OverflowError and every search returns what it returned before. *)
Theorem delete_book_then_fetch (d : db) (k : Z) (s : string) (b : book) :
  (Sql.fits k = true ->
   exists d',
     delete_book d k = Returned d'
     /\ (In b (fetch_books d' s) <-> In b (fetch_books d s) /\ id b <> k))
  /\ (Sql.fits k = false ->
      delete_book d k = Raised OverflowError
      /\ fetch_books (after d (delete_book d k)) s = fetch_books d s).
Proof.
  unfold delete_book. split; intros F; rewrite F.
  - exists (delete_rows d k). split; [reflexivity|].
    apply delete_rows_then_fetch.
  - split; reflexivity.
Qed.

Lemma delete_book_then_fetch_witness :
  exists d',
    delete_book Spec.dune_store 1 = Returned d'
    /\ (In Spec.dune_row (fetch_books d' "dun")
        <-> In Spec.dune_row (fetch_books Spec.dune_store "dun")
            /\ id Spec.dune_row <> 1).
Proof.
  destruct (delete_book_then_fetch Spec.dune_store 1 "dun" Spec.dune_row)
    as [H _].
  apply H. reflexivity.
Defined.

(** X2: [delete_book] on an id that no row carries leaves the database as
    it is, and deleting the same id a second time changes nothing more and
    ends as the first call did: it returns when the id is a 64-bit
    integer and raises OverflowError otherwise. *)
Theorem delete_book_missing_id (d : db) (k : Z)
    (Missing : forall b, In b (books d) -> id b <> k) :
  after d (delete_book d k) = d
  /\ delete_book (after d (delete_book d k)) k = delete_book d k
  /\ (Sql.fits k = true -> delete_book d k = Returned d)
  /\ (Sql.fits k = false -> delete_book d k = Raised OverflowError).
Proof.
  unfold delete_book. rewrite (delete_rows_missing_id d k Missing).
  destruct (Sql.fits k); cbn [after].
  - rewrite (delete_rows_missing_id d k Missing).
    repeat split. intros H. discriminate H.
  - repeat split. intros H. discriminate H.
Qed.

Lemma delete_book_missing_id_witness :
  after Spec.dune_store (delete_book Spec.dune_store 7) = Spec.dune_store
  /\ delete_book Spec.dune_store 7 = Returned Spec.dune_store.
Proof.
  destruct (delete_book_missing_id Spec.dune_store 7) as [E [_ [R _]]].
  - intros b Hb. simpl in Hb. destruct Hb as [Hb|[]]. subst b.
    simpl. discriminate.
  - split; [exact E|]. apply R. reflexivity.
Defined.

Lemma fold_max_ge_init (l : list Z) (a : Z) : a <= fold_left Z.max l a.
Proof.
  revert a. induction l as [|x l IH]; intros a; simpl; [lia|].
  specialize (IH (Z.max a x)). lia.
Qed.

Lemma fold_max_ge_in (l : list Z) (a x : Z) :
  In x l -> x <= fold_left Z.max l a.
Proof.
  revert a. induction l as [|y l IH]; intros a H; simpl; [destruct H|].
  destruct H as [H|H].
  - subst y. pose proof (fold_max_ge_init l (Z.max a x)). lia.
  - apply IH, H.
Qed.

Lemma next_key_above_seq (seq : Z) (keys : list Z) : seq < next_key seq keys.
Proof. unfold next_key. pose proof (fold_max_ge_init keys seq). lia. Qed.

Lemma next_key_above_keys (seq : Z) (keys : list Z) (x : Z) :
  In x keys -> x < next_key seq keys.
Proof.
  intros H. unfold next_key. pose proof (fold_max_ge_in keys seq x H). lia.
Qed.

(** X3: [add_book], for a payload whose year, copies and available are
    64-bit integers, appends one row, whose id is larger than every id in
    the table and than every id AUTOINCREMENT has handed out before, and
    records that id as handed out; the rows already there are untouched.
    For any other payload it raises OverflowError and appends nothing. *)
Theorem add_book_fresh_key (d : db) (p : payload) (now : string) :
  (binds p = true ->
   exists d' b,
     add_book d p now = Returned d'
     /\ books d' = (books d ++ [b])%list
     /\ (forall x, In x (books d) -> id x < id b)
     /\ books_seq d < id b
     /\ books_seq d' = id b
     /\ users d' = users d)
  /\ (binds p = false ->
      add_book d p now = Raised OverflowError
      /\ after d (add_book d p now) = d).
Proof.
  unfold add_book. split; intros B; rewrite B.
  - exists (insert_book d p now).
    exists (mkBook (next_key (books_seq d) (map id (books d)))
                   (p_title p) (p_author p) (p_category p) (p_year p)
                   (p_copies p) (p_available p) now).
    split; [reflexivity|]. split; [reflexivity|]. cbn [id]. repeat split.
    + intros x Hx. apply next_key_above_keys, in_map, Hx.
    + apply next_key_above_seq.
  - split; reflexivity.
Qed.

Lemma add_book_fresh_key_witness :
  exists d' b,
    add_book Spec.dune_store Spec.dune_payload Spec.scenario_clock
    = Returned d'
    /\ books d' = (books Spec.dune_store ++ [b])%list
    /\ (forall x, In x (books Spec.dune_store) -> id x < id b)
    /\ books_seq Spec.dune_store < id b
    /\ books_seq d' = id b
    /\ users d' = users Spec.dune_store.
Proof.
  destruct (add_book_fresh_key Spec.dune_store Spec.dune_payload
              Spec.scenario_clock) as [H _].
  apply H. reflexivity.
Defined.

Lemma keys_ok_insert (d : db) (p : payload) (now : string) :
  Inv.keys_ok d -> Inv.keys_ok (insert_book d p now).
Proof.
  intros [U B]. unfold Inv.keys_ok, insert_book, set_books.
  cbn [books books_seq]. split.
  - rewrite map_app. cbn [map id].
    apply NoDup_app; [exact U|constructor; [intros []|constructor]|].
    intros x Hx [E|[]].
    pose proof (next_key_above_keys (books_seq d) _ x Hx). lia.
  - apply Forall_app. split.
    + eapply Forall_impl; [|exact B]. intros b Hb. cbn beta in *.
      pose proof (next_key_above_seq (books_seq d) (map id (books d))). lia.
    + constructor; [cbn [id]; lia|constructor].
Qed.

Lemma keys_ok_update_rows (d : db) (k : Z) (p : payload) :
  Inv.keys_ok d -> Inv.keys_ok (update_rows d k p).
Proof.
  intros [U B]. unfold Inv.keys_ok, update_rows, set_books.
  cbn [books books_seq]. split.
  - rewrite map_map.
    rewrite (map_ext _ id); [exact U|].
    intros b. destruct (id b =? k); reflexivity.
  - apply Forall_map. eapply Forall_impl; [|exact B].
    intros b Hb. destruct (id b =? k); exact Hb.
Qed.

Lemma keys_ok_delete_rows (d : db) (k : Z) :
  Inv.keys_ok d -> Inv.keys_ok (delete_rows d k).
Proof.
  intros [U B]. unfold Inv.keys_ok, delete_rows, set_books.
  cbn [books books_seq]. split.
  - apply NoDup_map_filter, U.
  - apply Forall_filter_keep, B.
Qed.

(** X4: the three mutations keep the primary keys unique and below the
    AUTOINCREMENT counter, whether they return or raise. *)
Theorem keys_ok_preserved (d : db) (p : payload) (k : Z) (now : string)
    (H : Inv.keys_ok d) :
  Inv.keys_ok (after d (add_book d p now))
  /\ Inv.keys_ok (after d (fst (update_book d k p)))
  /\ Inv.keys_ok (after d (delete_book d k)).
Proof.
  split; [|split].
  - unfold add_book. destruct (binds p); cbn [after];
      [apply keys_ok_insert|]; exact H.
  - unfold update_book. cbn [fst].
    destruct (binds (with_id p k) && Sql.fits k); cbn [after];
      [apply keys_ok_update_rows|]; exact H.
  - unfold delete_book. destruct (Sql.fits k); cbn [after];
      [apply keys_ok_delete_rows|]; exact H.
Qed.

End StoreFacts.
Section StoreFacts2.

Import LibraryDB.

Lemma keys_ok_dune_store : Inv.keys_ok Spec.dune_store.
Proof.
  split.
  - simpl. constructor; [intros []|constructor].
  - simpl. constructor; [simpl; lia|constructor].
Defined.

Lemma keys_ok_preserved_witness :
  Inv.keys_ok
    (after Spec.dune_store
       (add_book Spec.dune_store Spec.dune_payload Spec.scenario_clock))
  /\ Inv.keys_ok
       (after Spec.dune_store
          (fst (update_book Spec.dune_store 1 Spec.dune_payload)))
  /\ Inv.keys_ok (after Spec.dune_store (delete_book Spec.dune_store 1)).
Proof.
  apply (keys_ok_preserved Spec.dune_store Spec.dune_payload 1
                           Spec.scenario_clock).
  exact keys_ok_dune_store.
Defined.

(** X5: an id is never handed out again.  In a store with well-formed
    keys, once the row with a given id is deleted, a book added afterwards
    gets another id, so no row carries the deleted id. *)
Theorem deleted_key_not_reused (d d1 d2 : db) (x : book) (p : payload)
    (now : string) (H : Inv.keys_ok d) (Hx : In x (books d))
    (Deleted : delete_book d (id x) = Returned d1)
    (Added : add_book d1 p now = Returned d2) :
  forall b, In b (books d2) -> id b <> id x.
Proof.
  destruct H as [_ B]. intros b Hb.
  apply delete_book_returned in Deleted. destruct Deleted as [E1 _].
  apply add_book_returned in Added. destruct Added as [E2 _].
  subst d2 d1.
  unfold insert_book, set_books in Hb. cbn [books] in Hb.
  apply in_app_or in Hb. destruct Hb as [Hb|[Hb|[]]].
  - unfold delete_rows, set_books in Hb. cbn [books] in Hb.
    apply filter_In in Hb. destruct Hb as [_ Hb].
    apply negb_true_iff, Z.eqb_neq in Hb. exact Hb.
  - subst b. cbn [id].
    pose proof (next_key_above_seq (books_seq (delete_rows d (id x)))
                  (map id (books (delete_rows d (id x))))) as N.
    rewrite Forall_forall in B. specialize (B x Hx).
    unfold delete_rows, set_books in *. cbn [books books_seq] in *. lia.
Qed.

Lemma deleted_key_not_reused_witness :
  id (mkBook 2 "Dune" "Herbert" None None 2 2 Spec.scenario_clock)
  <> id Spec.dune_row.
Proof.
  apply (deleted_key_not_reused Spec.dune_store
           (delete_rows Spec.dune_store 1)
           (insert_book (delete_rows Spec.dune_store 1) Spec.dune_payload
                        Spec.scenario_clock)
           Spec.dune_row
           Spec.dune_payload Spec.scenario_clock keys_ok_dune_store
           (or_introl eq_refl) eq_refl eq_refl).
  left. reflexivity.
Defined.

Example deleted_key_not_reused_run :
  map id (books (insert_book (delete_rows Spec.dune_store 1)
                             Spec.dune_payload Spec.scenario_clock))
  = [2].
Proof. reflexivity. Qed.

Lemma update_rows_overwrites (d : db) (k : Z) (p : payload) :
  map id (books (update_rows d k p)) = map id (books d)
  /\ map created_at (books (update_rows d k p)) = map created_at (books d)
  /\ (forall b, In b (books (update_rows d k p)) -> id b = k ->
        title b = p_title p /\ author b = p_author p
        /\ category b = p_category p /\ year b = p_year p
        /\ copies b = p_copies p /\ available b = p_available p)
  /\ (forall b, id b <> k ->
        (In b (books (update_rows d k p)) <-> In b (books d)))
  /\ (forall b, In b (books d) -> id b = k ->
        In (mkBook k (p_title p) (p_author p) (p_category p) (p_year p)
                   (p_copies p) (p_available p) (created_at b))
           (books (update_rows d k p)))
  /\ users (update_rows d k p) = users d
  /\ books_seq (update_rows d k p) = books_seq d.
Proof.
  unfold update_rows, set_books. cbn [books users books_seq].
  split; [|split; [|split; [|split; [|split]]]].
  - rewrite map_map. apply map_ext. intros b.
    destruct (id b =? k); reflexivity.
  - rewrite map_map. apply map_ext. intros b.
    destruct (id b =? k); reflexivity.
  - intros b Hb Hk. apply in_map_iff in Hb. destruct Hb as [x [Hx Hin]].
    destruct (id x =? k) eqn:E.
    + subst b. cbn. repeat split.
    + subst b. apply Z.eqb_neq in E. contradiction.
  - intros b Hk. rewrite in_map_iff. split.
    + intros [x [Hx Hin]]. destruct (id x =? k) eqn:E.
      * subst b. cbn [overwrite id] in Hk. apply Z.eqb_eq in E. contradiction.
      * subst b. exact Hin.
    + intros Hin. exists b. apply Z.eqb_neq in Hk. rewrite Hk.
      split; [reflexivity|exact Hin].
  - intros b Hin Hk. apply in_map_iff. exists b.
    apply Z.eqb_eq in Hk. rewrite Hk. split; [|exact Hin].
    apply Z.eqb_eq in Hk. unfold overwrite. rewrite Hk. reflexivity.
  - split; reflexivity.
Qed.

(** X6: [update_book], for an id and a payload whose integers are 64-bit
    integers, overwrites in place.  It keeps the number of rows, their ids
    and their [created_at]; every row with the given id ends up with the
    payload's six fields; every other row is kept as it was.  For any
    other id or payload it raises OverflowError and overwrites nothing. *)
Theorem update_book_overwrites (d : db) (k : Z) (p : payload) :
  (binds p && Sql.fits k = true ->
   exists d',
     fst (update_book d k p) = Returned d'
     /\ map id (books d') = map id (books d)
     /\ map created_at (books d') = map created_at (books d)
     /\ (forall b, In b (books d') -> id b = k ->
           title b = p_title p /\ author b = p_author p
           /\ category b = p_category p /\ year b = p_year p
           /\ copies b = p_copies p /\ available b = p_available p)
     /\ (forall b, id b <> k -> (In b (books d') <-> In b (books d)))
     /\ (forall b, In b (books d) -> id b = k ->
           In (mkBook k (p_title p) (p_author p) (p_category p) (p_year p)
                      (p_copies p) (p_available p) (created_at b))
              (books d'))
     /\ users d' = users d /\ books_seq d' = books_seq d)
  /\ (binds p && Sql.fits k = false ->
      fst (update_book d k p) = Raised OverflowError
      /\ after d (fst (update_book d k p)) = d).
Proof.
  unfold update_book. cbn [fst]. rewrite binds_with_id.
  split; intros B; rewrite B.
  - exists (update_rows d k (with_id p k)). split; [reflexivity|].
    exact (update_rows_overwrites d k (with_id p k)).
  - split; reflexivity.
Qed.

Lemma update_book_overwrites_witness :
  exists d',
    fst (update_book Spec.dune_store 1 Spec.big_payload) = Returned d'
    /\ map id (books d') = [1]
    /\ map copies (books d') = [2 ^ 62].
Proof.
  destruct (update_book_overwrites Spec.dune_store 1 Spec.big_payload)
    as [H _].
  destruct (H eq_refl) as [d' [R [I [_ [_ [_ [A _]]]]]]].
  exists d'. split; [exact R|]. split; [exact I|].
  injection R as R. subst d'. reflexivity.
Defined.

Lemma column_sum_app (f : book -> Z) (l r : list book) :
  Spec.column_sum f (l ++ r) = Spec.column_sum f l + Spec.column_sum f r.
Proof.
  induction l as [|b l IH]; simpl; [reflexivity|]. rewrite IH. lia.
Qed.

(** X7: when [add_book] returns and [summary] returns before and after
    it, the book has moved the aggregates by exactly itself: the total by
    one, the available and copies sums by the payload's values, and the
    issued count by one when the payload has no copy available. *)
Theorem summary_after_add (d d' : db) (p : payload) (now : string)
    (s s' : stats)
    (Added : add_book d p now = Returned d')
    (Before : summary d = Returned s)
    (After : summary d' = Returned s') :
  total s' = total s + 1
  /\ stat_available s' = stat_available s + p_available p
  /\ stat_copies s' = stat_copies s + p_copies p
  /\ issued s' = issued s + (if p_available p =? 0 then 1 else 0).
Proof.
  apply add_book_returned in Added. destruct Added as [E _]. subst d'.
  apply summary_returned in Before. destruct Before as [_ Es].
  apply summary_returned in After. destruct After as [_ Es'].
  subst s s'. cbn [total stat_available stat_copies issued].
  unfold insert_book, set_books. cbn [books].
  rewrite !column_sum_app, filter_app, !length_app. cbn [filter available].
  cbn [Spec.column_sum fold_right available copies List.length].
  repeat split; try lia.
  destruct (p_available p =? 0); cbn [List.length]; lia.
Qed.

Lemma summary_after_add_witness :
  total (mkStats 1 2 2 0) = total (mkStats 0 0 0 0) + 1
  /\ stat_available (mkStats 1 2 2 0) = stat_available (mkStats 0 0 0 0) + 2
  /\ stat_copies (mkStats 1 2 2 0) = stat_copies (mkStats 0 0 0 0) + 2
  /\ issued (mkStats 1 2 2 0) = issued (mkStats 0 0 0 0) + 0.
Proof.
  apply (summary_after_add (LibraryDB.__init__ no_file) Spec.dune_store
           Spec.dune_payload Spec.scenario_clock
           (mkStats 0 0 0 0) (mkStats 1 2 2 0));
    reflexivity.
Defined.

End StoreFacts2.

Section TotalsFit.

Import LibraryDB.

Lemma running_totals_fit (l : list Z) (acc : Z) :
  0 <= acc -> Forall (fun x => 0 <= x) l ->
  acc + fold_right Z.add 0 l <= Sql.max_int ->
  forallb Sql.fits (Spec.running_totals acc l) = true.
Proof.
  revert acc. induction l as [|x l IH]; intros acc A N B; [reflexivity|].
  inversion N as [|y r Hx Hr]; subst y r.
  cbn [fold_right] in B. cbn [Spec.running_totals forallb].
  assert (S : 0 <= fold_right Z.add 0 l).
  { clear -Hr. induction Hr as [|y r Hy _ IHr]; cbn [fold_right]; lia. }
  apply andb_true_intro. split.
  - unfold Sql.fits, Sql.min_int. apply andb_true_intro.
    split; apply Z.leb_le; lia.
  - apply IH; [lia|exact Hr|lia].
Qed.

Lemma column_sum_le (rows : list book) :
  Forall Spec.row_ok rows ->
  0 <= Spec.column_sum available rows <= Spec.column_sum copies rows.
Proof.
  induction 1 as [|b rows Hb _ IH]; cbn [Spec.column_sum fold_right]; [lia|].
  unfold Spec.row_ok in Hb. unfold Spec.column_sum in IH. lia.
Qed.

(** X28: [summary] returns on every store that satisfies the data model's
    invariant [0 <= available <= copies] and whose copies add up to at
    most 2^63 - 1; it then gives an available total between 0 and the
    copies total. *)
Theorem summary_returns_on_bounded_store (d : db)
    (Ok : Spec.rows_ok d)
    (Bound : Spec.column_sum copies (books d) <= Sql.max_int) :
  Spec.totals_fit d = true
  /\ exists st,
       summary d = Returned st
       /\ 0 <= stat_available st <= stat_copies st
       /\ stat_copies st <= Sql.max_int.
Proof.
  pose proof (column_sum_le (books d) Ok) as [A C].
  assert (F : Spec.totals_fit d = true).
  { unfold Spec.totals_fit, Spec.column_fits.
    apply andb_true_intro. split; apply running_totals_fit.
    - lia.
    - apply Forall_map. eapply Forall_impl; [|exact Ok].
      intros b Hb. unfold Spec.row_ok in Hb. lia.
    - rewrite column_sum_map. lia.
    - lia.
    - apply Forall_map. eapply Forall_impl; [|exact Ok].
      intros b Hb. unfold Spec.row_ok in Hb. lia.
    - rewrite column_sum_map. lia. }
  split; [exact F|]. rewrite summary_columns, F.
  eexists. split; [reflexivity|].
  cbn [stat_available stat_copies]. lia.
Qed.

Lemma summary_returns_on_bounded_store_witness :
  Spec.totals_fit Spec.dune_store = true
  /\ exists st,
       summary Spec.dune_store = Returned st
       /\ 0 <= stat_available st <= stat_copies st
       /\ stat_copies st <= Sql.max_int.
Proof.
  apply (summary_returns_on_bounded_store Spec.dune_store).
  - constructor; [unfold Spec.row_ok; cbn; lia|constructor].
  - cbn. unfold Sql.max_int. lia.
Defined.

End TotalsFit.

(** ** The seeded account *)

Section Seeding.

Import LibraryDB.

Lemma find_app_one {A} (f : A -> bool) (l : list A) (x : A) :
  find f (l ++ [x]) =
  match find f l with
  | Some y => Some y
  | None => if f x then Some x else None
  end.
Proof.
  induction l as [|y l IH]; simpl; [reflexivity|].
  destruct (f y); [reflexivity|exact IH].
Qed.

Lemma find_none_of_existsb {A} (f : A -> bool) (l : list A) :
  existsb f l = false -> find f l = None.
Proof.
  induction l as [|y l IH]; simpl; [reflexivity|].
  destruct (f y); [discriminate|exact IH].
Qed.

Lemma ensure_db_cases (d : db) :
  (_user_exists d "admin" = true /\ _ensure_db d = d)
  \/ (_user_exists d "admin" = false
      /\ _ensure_db d =
         mkDb (users d
               ++ [mkUser (next_key (users_seq d) (map user_id (users d)))
                          "admin" (hash_password "admin")])
              (next_key (users_seq d) (map user_id (users d)))
              (books d) (books_seq d)).
Proof.
  unfold _ensure_db. destruct (_user_exists d "admin").
  - left. split; reflexivity.
  - right. split; reflexivity.
Qed.

(** X8: [_ensure_db] makes sure an account named admin exists and touches
    nothing else: it is idempotent, returns unchanged a database that
    already has an admin, keeps the existing users in place, keeps the
    books table, and keeps user names unique. *)
Theorem ensure_db_spec (d : db) :
  _user_exists (_ensure_db d) "admin" = true
  /\ _ensure_db (_ensure_db d) = _ensure_db d
  /\ (_user_exists d "admin" = true -> _ensure_db d = d)
  /\ (exists extra, users (_ensure_db d) = (users d ++ extra)%list)
  /\ books (_ensure_db d) = books d
  /\ books_seq (_ensure_db d) = books_seq d
  /\ (NoDup (map username (users d)) ->
      NoDup (map username (users (_ensure_db d)))).
Proof.
  assert (Ex : _user_exists (_ensure_db d) "admin" = true).
  { destruct (ensure_db_cases d) as [[E R]|[E R]]; rewrite R; [exact E|].
    unfold _user_exists. cbn [users]. rewrite existsb_app.
    cbn [existsb username]. rewrite String.eqb_refl.
    rewrite orb_true_l. apply orb_true_r. }
  split; [exact Ex|]. split; [|split; [|split; [|split; [|split]]]].
  - unfold _ensure_db at 1. rewrite Ex. reflexivity.
  - intros E. unfold _ensure_db. rewrite E. reflexivity.
  - destruct (ensure_db_cases d) as [[E R]|[E R]]; rewrite R.
    + exists []. symmetry. apply List.app_nil_r.
    + eexists. reflexivity.
  - destruct (ensure_db_cases d) as [[E R]|[E R]]; rewrite R; reflexivity.
  - destruct (ensure_db_cases d) as [[E R]|[E R]]; rewrite R; reflexivity.
  - intros U. destruct (ensure_db_cases d) as [[E R]|[E R]]; rewrite R;
      [exact U|].
    cbn [users]. rewrite map_app. cbn [map username].
    apply NoDup_app; [exact U|constructor; [intros []|constructor]|].
    intros n Hn [Ha|[]]. subst n.
    unfold _user_exists in E.
    apply in_map_iff in Hn. destruct Hn as [u [Hu Hin]].
    assert (T : existsb (fun u => String.eqb (username u) "admin") (users d)
                = true).
    { apply existsb_exists. exists u. split; [exact Hin|].
      apply String.eqb_eq. exact Hu. }
    congruence.
Qed.

(** X9: [_ensure_db] changes no login verdict, with one exception: when no
    admin existed, the name admin is accepted afterwards with any password
    whose digest is that of "admin".  In particular an existing admin
    keeps the password it has. *)
Theorem ensure_db_keeps_verdicts (d : db) (name password : string) :
  verify_user (_ensure_db d) name password =
  verify_user d name password
  || (negb (_user_exists d "admin") && String.eqb name "admin"
      && String.eqb (hash_password "admin") (hash_password password)).
Proof.
  destruct (ensure_db_cases d) as [[E R]|[E R]]; rewrite R, E.
  - cbn [negb andb]. symmetry. apply orb_false_r.
  - cbn [negb andb]. unfold verify_user, select_hash. cbn [users].
    rewrite find_app_one. cbn [username].
    generalize (hash_password "admin") as h.
    generalize (hash_password password) as g. intros g h.
    destruct (find (fun u => String.eqb (username u) name) (users d))
      as [u|] eqn:F.
    + cbn [option_map].
      destruct (String.eqb_spec name "admin") as [N|N].
      * subst name. unfold _user_exists in E.
        rewrite (find_none_of_existsb _ _ E) in F. discriminate F.
      * cbn [andb]. symmetry. apply orb_false_r.
    + rewrite (String.eqb_sym "admin" name).
      destruct (String.eqb name "admin"); reflexivity.
Qed.

End Seeding.
(** ** Search with arbitrary terms *)

Section AnyTerm.

Import LibraryDB.

(** X10: for every search term, wildcards included, [fetch_books] returns
    only stored rows, none more often than the table holds it, newest
    [created_at] first. *)
Theorem fetch_books_any_term (d : db) (s : string) :
  StronglySorted Spec.newer_or_same (fetch_books d s)
  /\ (forall b, In b (fetch_books d s) -> In b (books d))
  /\ (List.length (fetch_books d s) <= List.length (books d))%nat
  /\ (NoDup (books d) -> NoDup (fetch_books d s)).
Proof.
  assert (P : exists f, Permutation (filter f (books d)) (fetch_books d s)).
  { unfold fetch_books. destruct (Py.truthy s).
    - eexists. apply order_by_perm.
    - exists (fun _ => true). rewrite filter_true. apply order_by_perm. }
  destruct P as [f P]. split; [|split; [|split]].
  - unfold fetch_books. destruct (Py.truthy s); apply order_by_sorted.
  - intros b Hb. apply fetch_books_in in Hb. apply Hb.
  - rewrite <- (Permutation_length P). apply filter_length_le.
  - intros U. eapply Permutation_NoDup; [exact P|]. apply NoDup_filter, U.
Qed.



















End AnyTerm.

(** ** Trimming and reading numbers *)

Section PyText.

Lemma rstrip_idem (s : string) : Py.rstrip (Py.rstrip s) = Py.rstrip s.
Proof.
  induction s as [|c r IH]; [reflexivity|].
  cbn [Py.rstrip].
  destruct (Py.is_space c && Py.is_empty (Py.rstrip r)) eqn:E; [reflexivity|].
  cbn [Py.rstrip]. rewrite IH, E. reflexivity.
Qed.

Lemma lstrip_head (s : string) (c : ascii) (r : string) :
  Py.lstrip s = String c r -> Py.is_space c = false.
Proof.
  induction s as [|x s IH]; [discriminate|].
  cbn [Py.lstrip]. destruct (Py.is_space x) eqn:E; [exact IH|].
  intros H. injection H as Hx _. subst x. exact E.
Qed.

Lemma rstrip_head (s : string) (c : ascii) (r : string) :
  Py.rstrip s = String c r -> exists r', s = String c r'.
Proof.
  destruct s as [|x s]; [discriminate|].
  cbn [Py.rstrip].
  destruct (Py.is_space x && Py.is_empty (Py.rstrip s)); [discriminate|].
  intros H. injection H as Hx _. subst x. exists s. reflexivity.
Qed.

Lemma lstrip_fixed (s : string) :
  (forall c r, s = String c r -> Py.is_space c = false) -> Py.lstrip s = s.
Proof.
  destruct s as [|c r]; [reflexivity|]. intros H.
  cbn [Py.lstrip]. rewrite (H c r eq_refl). reflexivity.
Qed.

Lemma strip_head (s : string) (c : ascii) (r : string) :
  Py.strip s = String c r -> Py.is_space c = false.
Proof.
  unfold Py.strip. intros H. apply rstrip_head in H. destruct H as [r' H].
  eapply lstrip_head, H.
Qed.

Lemma rstrip_last (s t : string) (c : ascii) :
  Py.rstrip s = t ++ String c "" -> Py.is_space c = false.
Proof.
  revert t. induction s as [|x s IH]; intros t; [destruct t; discriminate|].
  cbn [Py.rstrip].
  destruct (Py.is_space x && Py.is_empty (Py.rstrip s)) eqn:E;
    [destruct t; discriminate|].
  destruct t as [|y t]; cbn [append]; intros H; injection H as Hx Hr.
  - subst x. rewrite Hr in E. cbn [Py.is_empty] in E.
    rewrite andb_true_r in E. exact E.
  - eapply IH, Hr.
Qed.

Lemma lstrip_split (s : string) :
  exists pre, s = pre ++ Py.lstrip s /\ Inv.all_chars Py.is_space pre = true.
Proof.
  induction s as [|c s [pre [E A]]].
  - exists "". split; reflexivity.
  - cbn [Py.lstrip]. destruct (Py.is_space c) eqn:S.
    + exists (String c pre). cbn [append Inv.all_chars].
      rewrite S, A, <- E. split; reflexivity.
    + exists "". split; reflexivity.
Qed.

Lemma rstrip_split (s : string) :
  exists post, s = Py.rstrip s ++ post
               /\ Inv.all_chars Py.is_space post = true.
Proof.
  induction s as [|c s [post [E A]]].
  - exists "". split; reflexivity.
  - cbn [Py.rstrip].
    destruct (Py.is_space c && Py.is_empty (Py.rstrip s)) eqn:C.
    + apply andb_prop in C. destruct C as [S R].
      apply is_empty_true in R. rewrite R in E. cbn [append] in E.
      exists (String c post). cbn [append Inv.all_chars].
      rewrite S, A, <- E. split; reflexivity.
    + exists post. cbn [append]. rewrite <- E. split; [reflexivity|exact A].
Qed.

(** X13: [strip] removes whitespace from the two ends and nothing else:
    the text is a run of whitespace, the stripped text, and a run of
    whitespace; the stripped text neither starts nor ends with whitespace;
    stripping it again changes nothing. *)
Theorem strip_spec (s : string) :
  (exists pre post,
     s = pre ++ Py.strip s ++ post
     /\ Inv.all_chars Py.is_space pre = true
     /\ Inv.all_chars Py.is_space post = true)
  /\ (forall c r, Py.strip s = String c r -> Py.is_space c = false)
  /\ (forall t c, Py.strip s = t ++ String c "" -> Py.is_space c = false)
  /\ Py.strip (Py.strip s) = Py.strip s.
Proof.
  split; [|split; [|split]].
  - destruct (lstrip_split s) as [pre [E A]].
    destruct (rstrip_split (Py.lstrip s)) as [post [E' A']].
    exists pre, post. unfold Py.strip. rewrite <- E', <- E.
    repeat split; assumption.
  - apply strip_head.
  - intros t c. unfold Py.strip. apply rstrip_last.
  - unfold Py.strip at 1.
    rewrite (lstrip_fixed (Py.strip s) (strip_head s)).
    unfold Py.strip. apply rstrip_idem.
Qed.

Lemma rstrip_no_space (s : string) :
  Inv.all_chars Inv.not_space s = true -> Py.rstrip s = s.
Proof.
  induction s as [|c s IH]; [reflexivity|].
  cbn [Inv.all_chars]. intros H. apply andb_prop in H. destruct H as [C R].
  cbn [Py.rstrip]. rewrite (IH R).
  unfold Inv.not_space in C. apply negb_true_iff in C. rewrite C. reflexivity.
Qed.

Lemma strip_no_space (s : string) :
  Inv.all_chars Inv.not_space s = true -> Py.strip s = s.
Proof.
  intros H. unfold Py.strip. rewrite lstrip_fixed.
  - apply rstrip_no_space, H.
  - intros c r E. subst s. cbn [Inv.all_chars] in H.
    apply andb_prop in H. destruct H as [C _].
    apply negb_true_iff in C. exact C.
Qed.

Lemma uint_no_space (d : Decimal.uint) :
  Inv.all_chars Inv.not_space (NilEmpty.string_of_uint d) = true.
Proof. induction d; cbn [NilEmpty.string_of_uint Inv.all_chars]; auto. Qed.

Lemma int_digits_acc (d : Decimal.uint) (a : positive) :
  Py.int_digits (NilEmpty.string_of_uint d) (Zpos a) true
  = Some (Zpos (Pos.of_uint_acc d a)).
Proof.
  revert a. induction d; intros a;
    cbn [NilEmpty.string_of_uint Py.int_digits Pos.of_uint_acc];
    try reflexivity;
    match goal with
    | |- context [Py.digit_value ?c] =>
        let v := eval vm_compute in (Py.digit_value c) in
        change (Py.digit_value c) with v
    end;
    cbv iota beta;
    match goal with
    | |- Py.int_digits _ ?z true = _ =>
        match goal with
        | |- _ = Some (Z.pos (Pos.of_uint_acc _ ?q)) =>
            replace z with (Zpos q) by lia
        end
    end;
    apply IHd.
Qed.

Lemma int_digits_uint (d : Decimal.uint) (prev : bool) :
  (d = Decimal.Nil -> prev = true) ->
  Py.int_digits (NilEmpty.string_of_uint d) 0 prev
  = Some (Z.of_N (Pos.of_uint d)).
Proof.
  revert prev. induction d; intros prev H;
    cbn [NilEmpty.string_of_uint Py.int_digits Pos.of_uint].
  - rewrite (H eq_refl). reflexivity.
  - change (Py.digit_value "0") with (Some 0). cbv iota beta.
    change (10 * 0 + 0) with 0. apply IHd. reflexivity.
  - change (Py.digit_value "1") with (Some 1). apply (int_digits_acc d 1).
  - change (Py.digit_value "2") with (Some 2). apply (int_digits_acc d 2).
  - change (Py.digit_value "3") with (Some 3). apply (int_digits_acc d 3).
  - change (Py.digit_value "4") with (Some 4). apply (int_digits_acc d 4).
  - change (Py.digit_value "5") with (Some 5). apply (int_digits_acc d 5).
  - change (Py.digit_value "6") with (Some 6). apply (int_digits_acc d 6).
  - change (Py.digit_value "7") with (Some 7). apply (int_digits_acc d 7).
  - change (Py.digit_value "8") with (Some 8). apply (int_digits_acc d 8).
  - change (Py.digit_value "9") with (Some 9). apply (int_digits_acc d 9).
Qed.

Lemma int_space_is_space (c : ascii) :
  Py.int_space c = true -> Py.is_space c = true.
Proof. by_cases_on_char c. Qed.

Lemma rstrip_with_no_space (s : string) :
  Inv.all_chars Inv.not_space s = true ->
  Py.rstrip_with Py.int_space s = s.
Proof.
  induction s as [|c s IH]; [reflexivity|].
  cbn [Inv.all_chars]. intros H. apply andb_prop in H. destruct H as [C R].
  cbn [Py.rstrip_with]. rewrite (IH R).
  unfold Inv.not_space in C. apply negb_true_iff in C.
  destruct (Py.int_space c) eqn:E; [|reflexivity].
  apply int_space_is_space in E. congruence.
Qed.

(** [int] has nothing to skip around a text without whitespace. *)
Lemma int_trim_no_space (s : string) :
  Inv.all_chars Inv.not_space s = true ->
  Py.rstrip_with Py.int_space (Py.lstrip_with Py.int_space s) = s.
Proof.
  intros H. assert (L : Py.lstrip_with Py.int_space s = s).
  { destruct s as [|c r]; [reflexivity|]. cbn [Py.lstrip_with].
    cbn [Inv.all_chars] in H. apply andb_prop in H. destruct H as [C _].
    unfold Inv.not_space in C. apply negb_true_iff in C.
    destruct (Py.int_space c) eqn:E; [|reflexivity].
    apply int_space_is_space in E. congruence. }
  rewrite L. apply rstrip_with_no_space, H.
Qed.

Lemma count_digits_uint (d : Decimal.uint) :
  Py.count_digits (NilEmpty.string_of_uint d) = Decimal.nb_digits d.
Proof.
  induction d; cbn [NilEmpty.string_of_uint Py.count_digits Decimal.nb_digits];
    try reflexivity;
    match goal with
    | |- context [Py.digit_value ?c] =>
        let v := eval vm_compute in (Py.digit_value c) in
        change (Py.digit_value c) with v
    end;
    cbv iota beta; rewrite IHd; reflexivity.
Qed.

Lemma int_literal_uint (d : Decimal.uint) :
  d <> Decimal.Nil ->
  Py.int_literal (NilEmpty.string_of_uint d) =
  if (Decimal.nb_digits d <=? Py.max_str_digits)%nat
  then Some (Z.of_N (Pos.of_uint d)) else None.
Proof.
  intros N. unfold Py.int_literal.
  rewrite count_digits_uint, (int_digits_uint d false)
    by (intros E; contradiction).
  reflexivity.
Qed.

Lemma int_unsigned (d : Decimal.uint) :
  d <> Decimal.Nil ->
  Py.int (NilEmpty.string_of_uint d) =
  if (Decimal.nb_digits d <=? Py.max_str_digits)%nat
  then Some (Z.of_N (Pos.of_uint d)) else None.
Proof.
  intros N. rewrite <- (int_literal_uint d N).
  unfold Py.int. rewrite (int_trim_no_space _ (uint_no_space d)).
  destruct d; [contradiction|..]; reflexivity.
Qed.

Lemma str_int_pos (p : positive) :
  Py.str_int (Zpos p) = NilEmpty.string_of_uint (Pos.to_uint p).
Proof.
  unfold Py.str_int. cbn [Z.to_int NilZero.string_of_int].
  unfold NilZero.string_of_uint.
  destruct (Pos.to_uint p) eqn:E; try reflexivity.
  exfalso. exact (Unsigned.to_uint_nonnil p E).
Qed.

Lemma str_int_neg_eq (p : positive) :
  Py.str_int (Zneg p) = String "-" (NilEmpty.string_of_uint (Pos.to_uint p)).
Proof.
  unfold Py.str_int. cbn [Z.to_int NilZero.string_of_int].
  unfold NilZero.string_of_uint.
  destruct (Pos.to_uint p) eqn:E; try reflexivity.
  exfalso. exact (Unsigned.to_uint_nonnil p E).
Qed.

Lemma str_int_no_space (n : Z) :
  Inv.all_chars Inv.not_space (Py.str_int n) = true.
Proof.
  destruct n as [|p|p].
  - reflexivity.
  - rewrite str_int_pos. apply uint_no_space.
  - rewrite str_int_neg_eq. cbn [Inv.all_chars]. rewrite uint_no_space.
    reflexivity.
Qed.

Lemma str_int_not_empty (n : Z) : Py.is_empty (Py.str_int n) = false.
Proof.
  destruct n as [|p|p].
  - reflexivity.
  - rewrite str_int_pos. pose proof (Unsigned.to_uint_nonnil p) as N.
    destruct (Pos.to_uint p); [contradiction|..]; reflexivity.
  - rewrite str_int_neg_eq. reflexivity.
Qed.

(** [int(str(n))], with the limit on the number of digits. *)
Lemma int_str_int_limit (n : Z) :
  Py.int (Py.str_int n) =
  if (Py.count_digits (Py.str_int n) <=? Py.max_str_digits)%nat
  then Some n else None.
Proof.
  destruct n as [|p|p].
  - reflexivity.
  - rewrite str_int_pos, int_unsigned by apply Unsigned.to_uint_nonnil.
    rewrite count_digits_uint, Unsigned.of_to. reflexivity.
  - rewrite str_int_neg_eq. unfold Py.int.
    rewrite int_trim_no_space
      by (cbn [Inv.all_chars]; rewrite uint_no_space; reflexivity).
    cbv iota beta.
    rewrite int_literal_uint by apply Unsigned.to_uint_nonnil.
    change (Py.count_digits
              (String "-" (NilEmpty.string_of_uint (Pos.to_uint p))))
      with (Py.count_digits (NilEmpty.string_of_uint (Pos.to_uint p))).
    rewrite count_digits_uint, Unsigned.of_to.
    destruct (Decimal.nb_digits (Pos.to_uint p) <=? Py.max_str_digits)%nat;
      reflexivity.
Qed.

Lemma of_uint_acc_ge (d : Decimal.uint) (acc : positive) :
  Zpos acc * 10 ^ Z.of_nat (Decimal.nb_digits d)
  <= Zpos (Pos.of_uint_acc d acc).
Proof.
  revert acc. induction d; intros acc;
    cbn [Decimal.nb_digits Pos.of_uint_acc];
    [change (Z.of_nat 0) with 0; lia|..];
    rewrite Nat2Z.inj_succ, Z.pow_succ_r by lia;
    (eapply Z.le_trans; [|apply IHd]);
    assert (0 < 10 ^ Z.of_nat (Decimal.nb_digits d))
      by (apply Z.pow_pos_nonneg; lia);
    nia.
Qed.

(** The decimal text of a positive number starts with a digit other
    than 0. *)
Lemma to_uint_no_leading_zero (p : positive) (l : Decimal.uint) :
  Pos.to_uint p <> Decimal.D0 l.
Proof.
  intros E.
  pose proof (DecimalPos.Unsigned.to_of (Pos.to_uint p)) as U.
  rewrite DecimalPos.Unsigned.of_to in U. cbn [N.to_uint] in U.
  rewrite E in U. unfold Decimal.unorm in U. cbn [Decimal.nzhead] in U.
  pose proof (nb_digits_nzhead l) as B.
  destruct (Decimal.nzhead l) eqn:Z.
  - injection U as U. apply (Unsigned.to_uint_nonzero p).
    rewrite E, <- U. reflexivity.
  - rewrite <- U in B. cbn [Decimal.nb_digits] in B. lia.
  - rewrite <- U in B. cbn [Decimal.nb_digits] in B. lia.
  - rewrite <- U in B. cbn [Decimal.nb_digits] in B. lia.
  - rewrite <- U in B. cbn [Decimal.nb_digits] in B. lia.
  - rewrite <- U in B. cbn [Decimal.nb_digits] in B. lia.
  - rewrite <- U in B. cbn [Decimal.nb_digits] in B. lia.
  - rewrite <- U in B. cbn [Decimal.nb_digits] in B. lia.
  - rewrite <- U in B. cbn [Decimal.nb_digits] in B. lia.
  - rewrite <- U in B. cbn [Decimal.nb_digits] in B. lia.
  - rewrite <- U in B. cbn [Decimal.nb_digits] in B. lia.
Qed.

(** A number of [k] digits is at least 10^(k-1). *)
Lemma to_uint_digits_bound (p : positive) :
  10 ^ (Z.of_nat (Decimal.nb_digits (Pos.to_uint p)) - 1) <= Zpos p.
Proof.
  pose proof (DecimalPos.Unsigned.of_to p) as V.
  pose proof (to_uint_no_leading_zero p) as Z.
  pose proof (Unsigned.to_uint_nonnil p) as N.
  destruct (Pos.to_uint p) as [|l|l|l|l|l|l|l|l|l|l];
    [contradiction|exfalso; exact (Z l eq_refl)|..];
    cbn [Pos.of_uint] in V; injection V as V;
    cbn [Decimal.nb_digits]; rewrite Nat2Z.inj_succ;
    replace (Z.succ (Z.of_nat (Decimal.nb_digits l)) - 1)
      with (Z.of_nat (Decimal.nb_digits l)) by lia;
    rewrite <- V;
    match goal with
    | |- _ <= Zpos (Pos.of_uint_acc l ?k) =>
        pose proof (of_uint_acc_ge l k) as G
    end;
    assert (0 < 10 ^ Z.of_nat (Decimal.nb_digits l))
      by (apply Z.pow_pos_nonneg; lia);
    nia.
Qed.

Lemma digits_of_small (p : positive) :
  Zpos p < 10 ^ 19 -> (Decimal.nb_digits (Pos.to_uint p) <= 19)%nat.
Proof.
  intros H. pose proof (to_uint_digits_bound p) as B.
  destruct (Nat.le_gt_cases (Decimal.nb_digits (Pos.to_uint p)) 19)
    as [L|G]; [exact L|exfalso].
  assert (M : 10 ^ 19
              <= 10 ^ (Z.of_nat (Decimal.nb_digits (Pos.to_uint p)) - 1)).
  { apply Z.pow_le_mono_r; lia. }
  lia.
Qed.

(** A 64-bit integer is written with at most 19 digits. *)
Lemma count_digits_fits (n : Z) :
  Sql.fits n = true -> (Py.count_digits (Py.str_int n) <= 19)%nat.
Proof.
  unfold Sql.fits, Sql.min_int, Sql.max_int. intros F.
  apply andb_prop in F. destruct F as [Lo Hi].
  apply Z.leb_le in Lo. apply Z.leb_le in Hi.
  destruct n as [|p|p].
  - cbn. lia.
  - rewrite str_int_pos, count_digits_uint. apply digits_of_small. lia.
  - rewrite str_int_neg_eq.
    change (Py.count_digits
              (String "-" (NilEmpty.string_of_uint (Pos.to_uint p))))
      with (Py.count_digits (NilEmpty.string_of_uint (Pos.to_uint p))).
    rewrite count_digits_uint. apply digits_of_small. lia.
Qed.

Lemma int_str_int (n : Z) :
  Sql.fits n = true -> Py.int (Py.str_int n) = Some n.
Proof.
  intros F. rewrite int_str_int_limit.
  pose proof (count_digits_fits n F) as C.
  destruct (Nat.leb_spec (Py.count_digits (Py.str_int n)) Py.max_str_digits)
    as [L|G]; [reflexivity|].
  unfold Py.max_str_digits in G. lia.
Qed.

(** X14: what [str] writes for an integer, [int] reads back, up to the
    limit on the number of digits: [str(n)] is not empty and has no
    whitespace to strip, for every integer [n]; [int(str(n))] is [n] when
    [str(n)] has at most 4300 digits, which is so, with 19 digits at most,
    for every 64-bit integer, the integers a table cell can hold; with
    more digits [int] raises ValueError. *)
Theorem int_of_str_int (n : Z) :
  ((Py.count_digits (Py.str_int n) <= Py.max_str_digits)%nat ->
     Py.int (Py.str_int n) = Some n)
  /\ ((Py.max_str_digits < Py.count_digits (Py.str_int n))%nat ->
      Py.int (Py.str_int n) = None)
  /\ (Sql.fits n = true ->
      (Py.count_digits (Py.str_int n) <= 19)%nat
      /\ Py.int (Py.str_int n) = Some n)
  /\ Py.strip (Py.str_int n) = Py.str_int n
  /\ Py.str_int n <> "".
Proof.
  split; [|split; [|split; [|split]]].
  - intros L. rewrite int_str_int_limit.
    apply Nat.leb_le in L. rewrite L. reflexivity.
  - intros G. rewrite int_str_int_limit.
    apply Nat.leb_gt in G. rewrite G. reflexivity.
  - intros F. split; [apply count_digits_fits, F|apply int_str_int, F].
  - apply strip_no_space, str_int_no_space.
  - pose proof (str_int_not_empty n) as E.
    destruct (Py.str_int n); [discriminate E|discriminate].
Qed.

Lemma int_of_str_int_witness :
  Py.int (Py.str_int (- 2 ^ 63)) = Some (- 2 ^ 63).
Proof.
  destruct (int_of_str_int (- 2 ^ 63)) as [_ [_ [H _]]].
  apply H. reflexivity.
Defined.

End PyText.

(** ** Sorting the table *)

Section StableSort.

Variables K A : Type.
Variable before : K -> K -> bool.
Hypothesis before_total : forall x y, before x y = true \/ before y x = true.
Hypothesis before_trans :
  forall x y z, before x y = true -> before y z = true -> before x z = true.

Let ordered (x y : K * A) : Prop := before (fst x) (fst y) = true.

Lemma insert_by_perm (x : K * A) (l : list (K * A)) :
  Permutation (x :: l) (TableSort.insert_by before x l).
Proof.
  induction l as [|y r IH]; simpl.
  - apply Permutation_refl.
  - destruct (before (fst x) (fst y)).
    + apply Permutation_refl.
    + eapply Permutation_trans; [apply perm_swap|]. apply perm_skip, IH.
Qed.

Lemma insertion_perm (l : list (K * A)) :
  Permutation l (fold_right (TableSort.insert_by before) [] l).
Proof.
  induction l as [|x l IH]; simpl.
  - apply perm_nil.
  - eapply Permutation_trans; [apply perm_skip, IH|]. apply insert_by_perm.
Qed.

Lemma insert_by_sorted (x : K * A) (l : list (K * A)) :
  StronglySorted ordered l ->
  StronglySorted ordered (TableSort.insert_by before x l).
Proof.
  induction 1 as [|y r Hs IH Hy]; simpl.
  - constructor; constructor.
  - destruct (before (fst x) (fst y)) eqn:E.
    + constructor; [constructor; assumption|].
      constructor; [exact E|].
      eapply Forall_impl; [|exact Hy].
      intros z Hz. eapply before_trans; [exact E|exact Hz].
    + constructor; [exact IH|].
      eapply Permutation_Forall; [apply insert_by_perm|].
      constructor; [|exact Hy].
      destruct (before_total (fst x) (fst y)) as [T|T]; [congruence|exact T].
Qed.

Lemma insertion_sorted (l : list (K * A)) :
  StronglySorted ordered (fold_right (TableSort.insert_by before) [] l).
Proof.
  induction l as [|x l IH]; simpl; [constructor|].
  apply insert_by_sorted, IH.
Qed.

End StableSort.

Section SortColumn.

Import LibraryDB TableSort.

Lemma sorted_map_restrict {X Y} (R : X -> X -> Prop) (R' : Y -> Y -> Prop)
    (P : X -> Prop) (g : X -> Y) (l : list X) :
  (forall x y, P x -> P y -> R x y -> R' (g x) (g y)) ->
  Forall P l -> StronglySorted R l -> StronglySorted R' (map g l).
Proof.
  intros H F S. induction S as [|x l S IH Hx]; simpl; [constructor|].
  inversion F as [|x' l' Px Pl]; subst x' l'.
  constructor; [apply IH, Pl|].
  apply Forall_map. rewrite Forall_forall in *.
  intros y Hy. apply H; auto.
Qed.

Lemma may_precede_total {K} (leb : K -> K -> bool) (reverse : bool) :
  (forall x y, leb x y = true \/ leb y x = true) ->
  forall x y, may_precede leb reverse x y = true
              \/ may_precede leb reverse y x = true.
Proof. intros T x y. unfold may_precede. destruct reverse; apply T. Qed.

Lemma may_precede_trans {K} (leb : K -> K -> bool) (reverse : bool) :
  (forall x y z, leb x y = true -> leb y z = true -> leb x z = true) ->
  forall x y z, may_precede leb reverse x y = true ->
                may_precede leb reverse y z = true ->
                may_precede leb reverse x z = true.
Proof.
  intros T x y z. unfold may_precede. destruct reverse; intros H1 H2.
  - eapply T; eassumption.
  - eapply T; eassumption.
Qed.

Lemma py_sort_perm {K A} (leb : K -> K -> bool) (reverse : bool)
    (keyed : list (K * A)) :
  Permutation (map snd keyed) (py_sort leb reverse keyed).
Proof. unfold py_sort. apply Permutation_map, insertion_perm. Qed.

(** Sorting items keyed by a function of the item orders them by it. *)
Lemma py_sort_sorted {K A} (leb : K -> K -> bool) (reverse : bool)
    (f : A -> K) (l : list A) :
  (forall x y, leb x y = true \/ leb y x = true) ->
  (forall x y z, leb x y = true -> leb y z = true -> leb x z = true) ->
  StronglySorted (fun x y => may_precede leb reverse (f x) (f y) = true)
                 (py_sort leb reverse (map (fun t => (f t, t)) l)).
Proof.
  intros T Tr. unfold py_sort.
  eapply (sorted_map_restrict
            (fun p q => may_precede leb reverse (fst p) (fst q) = true)
            _ (fun p => fst p = f (snd p))).
  - intros x y Px Py R. rewrite <- Px, <- Py. exact R.
  - eapply Permutation_Forall; [apply insertion_perm|].
    apply Forall_map, Forall_forall. intros t _. reflexivity.
  - apply insertion_sorted.
    + apply may_precede_total, T.
    + apply may_precede_trans, Tr.
Qed.

Lemma int_keys_some (data : list (string * book))
    (keyed : list (Z * (string * book))) :
  int_keys data = Some keyed ->
  keyed = map (fun t => (Inv.int_key t, t)) data
  /\ Forall (fun t => Py.int (fst t) = Some (Inv.int_key t)) data.
Proof.
  revert keyed. induction data as [|t r IH]; intros keyed H.
  - injection H as H. subst keyed. split; [reflexivity|constructor].
  - cbn [int_keys] in H. destruct (Py.int (fst t)) as [n|] eqn:E;
      [|discriminate H].
    destruct (int_keys r) as [kr|]; [|discriminate H].
    injection H as H. subst keyed. destruct (IH kr eq_refl) as [Hk Hf].
    split.
    + cbn [map]. unfold Inv.int_key at 1. rewrite E, Hk. reflexivity.
    + constructor; [unfold Inv.int_key; rewrite E; reflexivity|exact Hf].
Qed.

Lemma int_keys_all (data : list (string * book)) :
  Forall (fun t => Py.int (fst t) <> None) data ->
  exists keyed, int_keys data = Some keyed.
Proof.
  induction 1 as [|t r Ht _ [kr IH]].
  - eexists. reflexivity.
  - cbn [int_keys]. destruct (Py.int (fst t)); [|contradiction].
    rewrite IH. eexists. reflexivity.
Qed.

Lemma int_keys_none (data : list (string * book)) (t : string * book) :
  In t data -> Py.int (fst t) = None -> int_keys data = None.
Proof.
  induction data as [|x r IH]; intros Hin E; [destruct Hin|].
  cbn [int_keys]. destruct Hin as [Hx|Hin].
  - subst x. rewrite E. reflexivity.
  - destruct (Py.int (fst x)); [|reflexivity]. rewrite (IH Hin E).
    reflexivity.
Qed.

Lemma map_snd_keyed {K A} (f : A -> K) (l : list A) :
  map snd (map (fun t => (f t, t)) l) = l.
Proof.
  induction l as [|x l IH]; [reflexivity|]. cbn [map snd]. rewrite IH.
  reflexivity.
Qed.

Lemma map_snd_data (col : column) (rows : list book) :
  map snd (map (fun k => (cell col k, k)) rows) = rows.
Proof. rewrite map_map. cbn [snd]. apply map_id. Qed.

Lemma sort_perm (rows : list book) (col : column) (reverse : bool) :
  Permutation rows (fst (sort_by_column rows col reverse)).
Proof.
  unfold sort_by_column. cbn [fst].
  destruct (int_keys (map (fun k => (cell col k, k)) rows)) as [keyed|] eqn:E.
  - apply int_keys_some in E. destruct E as [E _].
    rewrite <- (map_snd_data col rows) at 1.
    apply Permutation_map.
    eapply Permutation_trans; [|apply py_sort_perm].
    rewrite E, map_snd_keyed. apply Permutation_refl.
  - rewrite <- (map_snd_data col rows) at 1.
    apply Permutation_map.
    eapply Permutation_trans; [|apply py_sort_perm].
    rewrite map_snd_keyed. apply Permutation_refl.
Qed.

(** X21: sorting by a column only reorders the table: the rows after
    [sort_by_column] are a permutation of the rows before, whatever the
    column and the direction, and the next click on the same heading sorts
    the other way round. *)
Theorem sort_by_column_perm (rows : list book) (col : column)
    (reverse : bool) :
  Permutation rows (fst (sort_by_column rows col reverse))
  /\ snd (sort_by_column rows col reverse) = negb reverse.
Proof. split; [apply sort_perm|reflexivity]. Qed.

Lemma data_cells (col : column) (rows : list book) :
  Forall (fun t => fst t = cell col (snd t))
         (map (fun k => (cell col k, k)) rows).
Proof. apply Forall_map, Forall_forall. intros k _. reflexivity. Qed.

Lemma zleb_total (x y : Z) : (x <=? y) = true \/ (y <=? x) = true.
Proof. destruct (Z.leb_spec x y); [left; reflexivity|right]. apply Z.leb_le. lia. Qed.

Lemma zleb_trans (x y z : Z) :
  (x <=? y) = true -> (y <=? z) = true -> (x <=? z) = true.
Proof. rewrite !Z.leb_le. lia. Qed.

Lemma sort_numeric (rows : list book) (col : column)
    (reverse : bool)
    (Numeric : forall k, In k rows -> Py.int (cell col k) <> None) :
  StronglySorted
    (fun x y =>
       exists m n, Py.int (cell col x) = Some m
                   /\ Py.int (cell col y) = Some n
                   /\ if reverse then n <= m else m <= n)
    (fst (sort_by_column rows col reverse)).
Proof.
  unfold sort_by_column. cbn [fst].
  destruct (int_keys_all (map (fun k => (cell col k, k)) rows)) as [keyed E].
  { apply Forall_map, Forall_forall. intros k Hk. apply Numeric, Hk. }
  rewrite E. apply int_keys_some in E. destruct E as [E F]. rewrite E.
  eapply (sorted_map_restrict
            (fun x y => may_precede Z.leb reverse (Inv.int_key x)
                                    (Inv.int_key y) = true)
            _
            (fun t => fst t = cell col (snd t)
                      /\ Py.int (fst t) = Some (Inv.int_key t))).
  - intros x y [Cx Ix] [Cy Iy] R. exists (Inv.int_key x), (Inv.int_key y).
    rewrite <- Cx, <- Cy. split; [exact Ix|split; [exact Iy|]].
    unfold may_precede in R. destruct reverse; apply Z.leb_le, R.
  - eapply Permutation_Forall.
    + eapply Permutation_trans; [|apply py_sort_perm].
      rewrite map_snd_keyed. apply Permutation_refl.
    + apply Forall_forall. intros t Ht. split.
      * pose proof (data_cells col rows) as D. rewrite Forall_forall in D.
        apply D, Ht.
      * rewrite Forall_forall in F. apply F, Ht.
  - apply py_sort_sorted; [apply zleb_total|apply zleb_trans].
Qed.

Lemma sort_text (rows : list book) (col : column)
    (reverse : bool) (k : book)
    (Hk : In k rows) (Text : Py.int (cell col k) = None) :
  StronglySorted
    (fun x y =>
       if reverse
       then String.leb (Py.lower (cell col y)) (Py.lower (cell col x)) = true
       else String.leb (Py.lower (cell col x)) (Py.lower (cell col y)) = true)
    (fst (sort_by_column rows col reverse)).
Proof.
  unfold sort_by_column. cbn [fst].
  rewrite (int_keys_none _ (cell col k, k)).
  - eapply (sorted_map_restrict
              (fun x y => may_precede String.leb reverse (Py.lower (fst x))
                                      (Py.lower (fst y)) = true)
              _ (fun t => fst t = cell col (snd t))).
    + intros x y Cx Cy R. rewrite <- Cx, <- Cy.
      unfold may_precede in R. destruct reverse; exact R.
    + eapply Permutation_Forall; [|apply data_cells].
      eapply Permutation_trans; [|apply py_sort_perm].
      rewrite map_snd_keyed. apply Permutation_refl.
    + apply (py_sort_sorted String.leb reverse (fun t => Py.lower (fst t))).
      * apply String.leb_total.
      * apply leb_trans.
  - apply in_map_iff. exists k. split; [reflexivity|exact Hk].
  - exact Text.
Qed.

(** X22: when [int] converts every cell of the column, the rows come
    out ordered by that integer, ascending, or descending when [reverse]
    is set. *)
Theorem sort_by_column_numeric (rows : list book) (col : column)
    (reverse : bool)
    (Numeric : forall k, In k rows -> Py.int (cell col k) <> None) :
  StronglySorted
    (fun x y =>
       exists m n, Py.int (cell col x) = Some m
                   /\ Py.int (cell col y) = Some n
                   /\ if reverse then n <= m else m <= n)
    (fst (sort_by_column rows col reverse)).
Proof. apply sort_numeric, Numeric. Qed.

(** X23: as soon as [int] raises ValueError on one cell of the column (a
    word, a number behind a separator U+001C..U+001F, a number of more
    than 4300 digits), the whole column is ordered as text instead, by the
    lower-cased cell, ascending, or descending when [reverse] is set. *)
Theorem sort_by_column_text (rows : list book) (col : column)
    (reverse : bool) (k : book)
    (Hk : In k rows) (Text : Py.int (cell col k) = None) :
  StronglySorted
    (fun x y =>
       if reverse
       then String.leb (Py.lower (cell col y)) (Py.lower (cell col x)) = true
       else String.leb (Py.lower (cell col x)) (Py.lower (cell col y)) = true)
    (fst (sort_by_column rows col reverse)).
Proof. apply (sort_text rows col reverse k Hk Text). Qed.

Example sort_titles :
  map title
      (fst (sort_by_column
              [mkBook 1 "dune" "" None None 1 1 "";
               mkBook 2 "Emma" "" None None 1 1 "";
               mkBook 3 "Ask" "" None None 1 1 ""]
              col_title false))
  = ["Ask"; "dune"; "Emma"].
Proof. reflexivity. Qed.

Example sort_numeric_titles :
  map title
      (fst (sort_by_column
              [mkBook 1 "1984" "" None None 1 1 "";
               mkBook 2 "451" "" None None 1 1 "";
               mkBook 3 "2001" "" None None 1 1 ""]
              col_title true))
  = ["2001"; "1984"; "451"].
Proof. reflexivity. Qed.

(** A title that [strip] would read as 5 but [int] does not makes the
    column sort as text. *)
Example sort_separator_title :
  map id
      (fst (sort_by_column
              [mkBook 1 "10" "" None None 1 1 "";
               mkBook 2 (String (ascii_of_N 28) "5") "" None None 1 1 "";
               mkBook 3 "9" "" None None 1 1 ""]
              col_title false))
  = [2; 1; 3].
Proof. reflexivity. Qed.

Example sort_long_title :
  map id
      (fst (sort_by_column
              [mkBook 1 "2" "" None None 1 1 "";
               mkBook 2 (Inv.ones 4301) "" None None 1 1 ""]
              col_title false))
  = [2; 1].
Proof. vm_compute. reflexivity. Qed.

Lemma sort_by_column_numeric_witness :
  StronglySorted
    (fun x y =>
       exists m n, Py.int (cell col_title x) = Some m
                   /\ Py.int (cell col_title y) = Some n /\ m <= n)
    (fst (sort_by_column
            [mkBook 1 "1984" "" None None 1 1 "";
             mkBook 2 "451" "" None None 1 1 ""]
            col_title false)).
Proof.
  apply (sort_by_column_numeric
           [mkBook 1 "1984" "" None None 1 1 "";
            mkBook 2 "451" "" None None 1 1 ""] col_title false).
  intros k [H|[H|[]]]; subst k; discriminate.
Defined.

Lemma sort_by_column_text_witness :
  StronglySorted
    (fun x y =>
       String.leb (Py.lower (cell col_title x)) (Py.lower (cell col_title y))
       = true)
    (fst (sort_by_column
            [mkBook 1 "dune" "" None None 1 1 "";
             mkBook 2 "451" "" None None 1 1 ""]
            col_title false)).
Proof.
  apply (sort_by_column_text
           [mkBook 1 "dune" "" None None 1 1 "";
            mkBook 2 "451" "" None None 1 1 ""] col_title false
           (mkBook 1 "dune" "" None None 1 1 "")).
  - left. reflexivity.
  - reflexivity.
Defined.

Lemma sorted_weaken_in {X} (R R' : X -> X -> Prop) (l : list X) :
  (forall x y, In x l -> In y l -> R x y -> R' x y) ->
  StronglySorted R l -> StronglySorted R' l.
Proof.
  intros H S. induction S as [|x l S IH Hx]; constructor.
  - apply IH. intros a b Ha Hb. apply H; right; assumption.
  - rewrite Forall_forall in *. intros y Hy.
    apply H; [left; reflexivity|right; exact Hy|apply Hx, Hy].
Qed.

Lemma sort_integer_cells (rows : list book) (col : column) (reverse : bool)
    (f : book -> Z) :
  (forall k, cell col k = Py.str_int (f k)) ->
  (forall k, In k rows -> Sql.fits (f k) = true) ->
  StronglySorted (fun x y => if reverse then f y <= f x else f x <= f y)
                 (fst (sort_by_column rows col reverse)).
Proof.
  intros C F.
  eapply sorted_weaken_in; [|apply (sort_numeric rows col reverse)].
  - intros x y Hx Hy [m [n [Hm [Hn R]]]].
    apply (Permutation_in _ (Permutation_sym (sort_perm rows col reverse)))
      in Hx, Hy.
    rewrite C, (int_str_int _ (F _ Hx)) in Hm.
    rewrite C, (int_str_int _ (F _ Hy)) in Hn.
    injection Hm as Hm. injection Hn as Hn. subst m n. exact R.
  - intros k Hk. rewrite C, (int_str_int _ (F _ Hk)). discriminate.
Qed.

Lemma row_fits_fields (rows : list book) (k : book) :
  Inv.rows_fit rows -> In k rows ->
  Sql.fits (id k) = true /\ Sql.fits_opt (year k) = true
  /\ Sql.fits (copies k) = true /\ Sql.fits (available k) = true.
Proof.
  intros F Hk. unfold Inv.rows_fit in F. rewrite Forall_forall in F.
  specialize (F k Hk). unfold Inv.row_fits in F.
  apply andb_prop in F. destruct F as [F A].
  apply andb_prop in F. destruct F as [F C].
  apply andb_prop in F. destruct F as [I Y].
  repeat split; assumption.
Qed.

(** X24: on rows whose integers are 64-bit integers, as those of stored
    rows are, the ID, Copies and Available columns always sort by number.
    The Year column sorts by number as long as no shown row has a NULL
    year; with one NULL year in the table, whose cell reads None, the
    whole column sorts as text. *)
Theorem sort_by_integer_columns (rows : list book) (reverse : bool)
    (Fits : Inv.rows_fit rows) :
  StronglySorted (fun x y => if reverse then id y <= id x else id x <= id y)
                 (fst (sort_by_column rows col_id reverse))
  /\ StronglySorted
       (fun x y => if reverse then copies y <= copies x
                   else copies x <= copies y)
       (fst (sort_by_column rows col_copies reverse))
  /\ StronglySorted
       (fun x y => if reverse then available y <= available x
                   else available x <= available y)
       (fst (sort_by_column rows col_available reverse))
  /\ ((forall k, In k rows -> year k <> None) ->
      StronglySorted
        (fun x y => exists m n, year x = Some m /\ year y = Some n
                                /\ if reverse then n <= m else m <= n)
        (fst (sort_by_column rows col_year reverse)))
  /\ ((exists k, In k rows /\ year k = None) ->
      StronglySorted
        (fun x y =>
           if reverse
           then String.leb (Py.lower (cell col_year y))
                           (Py.lower (cell col_year x)) = true
           else String.leb (Py.lower (cell col_year x))
                           (Py.lower (cell col_year y)) = true)
        (fst (sort_by_column rows col_year reverse))).
Proof.
  split; [|split; [|split; [|split]]].
  - apply sort_integer_cells; [reflexivity|].
    intros k Hk. apply (row_fits_fields rows k Fits Hk).
  - apply sort_integer_cells; [reflexivity|].
    intros k Hk. apply (row_fits_fields rows k Fits Hk).
  - apply sort_integer_cells; [reflexivity|].
    intros k Hk. apply (row_fits_fields rows k Fits Hk).
  - intros Y.
    eapply sorted_weaken_in; [|apply (sort_numeric rows col_year reverse)].
    + intros x y Hx Hy [m [n [Hm [Hn R]]]]. exists m, n.
      apply (Permutation_in _
               (Permutation_sym (sort_perm rows col_year reverse)))
        in Hx, Hy.
      destruct (row_fits_fields rows x Fits Hx) as [_ [Fx _]].
      destruct (row_fits_fields rows y Fits Hy) as [_ [Fy _]].
      cbn [cell] in Hm, Hn. unfold Tk.text_of_int in Hm, Hn.
      destruct (year x) as [yx|]; [|discriminate Hm].
      destruct (year y) as [yy|]; [|discriminate Hn].
      cbn [Sql.fits_opt] in Fx, Fy.
      rewrite (int_str_int _ Fx) in Hm. rewrite (int_str_int _ Fy) in Hn.
      injection Hm as Hm. injection Hn as Hn. subst. repeat split. exact R.
    + intros k Hk. specialize (Y k Hk). cbn [cell].
      destruct (row_fits_fields rows k Fits Hk) as [_ [Fk _]].
      unfold Tk.text_of_int. destruct (year k) as [yk|];
        [|contradiction].
      cbn [Sql.fits_opt] in Fk. rewrite (int_str_int _ Fk). discriminate.
  - intros [k [Hk Null]]. apply (sort_text rows col_year reverse k Hk).
    cbn [cell]. rewrite Null. reflexivity.
Qed.

Lemma sort_by_integer_columns_witness :
  map year
      (fst (sort_by_column
              [mkBook 1 "a" "" None (Some 250) 1 1 "";
               mkBook 2 "b" "" None None 1 1 "";
               mkBook 3 "c" "" None (Some 1999) 1 1 ""]
              col_year false))
  = [Some 1999; Some 250; None]
  /\ StronglySorted
       (fun x y =>
          String.leb (Py.lower (cell col_year x)) (Py.lower (cell col_year y))
          = true)
       (fst (sort_by_column
               [mkBook 1 "a" "" None (Some 250) 1 1 "";
                mkBook 2 "b" "" None None 1 1 "";
                mkBook 3 "c" "" None (Some 1999) 1 1 ""]
               col_year false)).
Proof.
  split; [reflexivity|].
  apply (sort_by_integer_columns
           [mkBook 1 "a" "" None (Some 250) 1 1 "";
            mkBook 2 "b" "" None None 1 1 "";
            mkBook 3 "c" "" None (Some 1999) 1 1 ""] false).
  - repeat constructor.
  - exists (mkBook 2 "b" "" None None 1 1 ""). split; [|reflexivity].
    right. left. reflexivity.
Defined.

End SortColumn.
(** ** The window's states *)

Section Window.

Import LibraryDB LibraryApp.

Lemma strip_idem (s : string) : Py.strip (Py.strip s) = Py.strip s.
Proof.
  unfold Py.strip at 1.
  rewrite (lstrip_fixed (Py.strip s) (strip_head s)).
  unfold Py.strip. apply rstrip_idem.
Qed.

(** X15: the three outcomes of [_form_payload].  A blank Title or Author
    gives the "Missing data" warning, whatever the numbers are; otherwise
    malformed numbers (a Year, Copies or Available that is neither blank
    nor a text [int] converts) give the "Invalid number" error; otherwise
    a payload is produced without any dialog, and it holds the trimmed
    Title, Author and Category, no id, and a copies count that is not
    negative. *)
Theorem form_payload_outcomes (f : form_vars) :
  (Spec.blank (Title f) = true \/ Spec.blank (Author f) = true ->
     _form_payload f =
     (None, [showwarning "Missing data" "Title and Author are required"]))
  /\ (Spec.blank (Title f) = false -> Spec.blank (Author f) = false ->
      Spec.malformed_numbers f = true ->
      _form_payload f = (None, [Spec.invalid_number]))
  /\ (Spec.blank (Title f) = false -> Spec.blank (Author f) = false ->
      Spec.malformed_numbers f = false ->
      exists p,
        _form_payload f = (Some p, [])
        /\ p_title p = Py.strip (Title f)
        /\ p_author p = Py.strip (Author f)
        /\ p_category p = Some (Py.strip (Category f))
        /\ p_id p = None
        /\ 0 <= p_copies p).
Proof.
  split; [|split].
  - intros H. unfold _form_payload, Py.truthy. unfold Spec.blank in H.
    destruct H as [H|H]; rewrite H; [reflexivity|].
    cbn [negb]. rewrite orb_true_r. reflexivity.
  - apply form_payload_rejects.
  - intros T A M.
    destruct (numbers (Py.strip (Year f))
                (Py.or_str (Py.strip (Copies f)) "0")
                (Py.or_str (Py.strip (Available f)) "0")) as [r|] eqn:N.
    + eexists. split; [apply (form_payload_accepts f r T A N)|].
      cbn [p_title p_author p_category p_id p_copies].
      apply numbers_some in N. destruct N as [cv [av [_ [_ [_ [Hc _]]]]]].
      rewrite Hc. repeat split. lia.
    + apply numbers_none_iff in N. congruence.
Qed.

Lemma form_payload_outcomes_witness :
  _form_payload (mkForm "  " "Herbert" "" "abc" "x" "y") =
  (None, [showwarning "Missing data" "Title and Author are required"]).
Proof.
  apply (form_payload_outcomes (mkForm "  " "Herbert" "" "abc" "x" "y")).
  left. reflexivity.
Defined.

(** A Copies of 4301 digits is malformed. *)
Example form_payload_long_copies :
  Spec.malformed_numbers (mkForm "Dune" "Herbert" "" "" (Inv.ones 4301) "1")
  = true
  /\ _form_payload (mkForm "Dune" "Herbert" "" "" (Inv.ones 4301) "1")
     = (None, [Spec.invalid_number]).
Proof. split; vm_compute; reflexivity. Qed.

(** [in_sync] and [selection_ok] look at the database, the table, the
    labels and the selection only. *)
Lemma in_sync_same (a b : app) :
  db b = db a -> tree b = tree a -> stat_total b = stat_total a ->
  stat_available b = stat_available a -> stat_issued b = stat_issued a ->
  Inv.in_sync a -> Inv.in_sync b.
Proof.
  intros D T S1 S2 S3 [P L]. unfold Inv.in_sync, Inv.labels_show in *.
  rewrite D, T, S1, S2, S3. split; assumption.
Qed.

Lemma in_sync_report (a : app) (e : exn) :
  Inv.in_sync a -> Inv.in_sync (report a e).
Proof. apply in_sync_same; reflexivity. Qed.

Lemma in_sync_refresh (a : app) : Inv.in_sync (fst (refresh_table a)).
Proof.
  destruct (refresh_table_cases a) as [[st [S R]]|[e [S R]]]; rewrite R;
    cbn [fst]; split.
  - eexists. apply Permutation_refl.
  - cbn [db set_stats set_tree]. intros st' S'. rewrite S in S'.
    injection S' as S'. subst st'. repeat split.
  - eexists. apply Permutation_refl.
  - cbn [db set_tree]. intros st' S'. rewrite S in S'. discriminate S'.
Qed.

Lemma in_sync_finish (r : app * option exn) (ds last : list dialog) :
  Inv.in_sync (fst r) -> Inv.in_sync (fst (finish r ds last)).
Proof.
  intros H. unfold finish. destruct (snd r); cbn [fst];
    [apply in_sync_report|]; exact H.
Qed.

Lemma in_sync_update_stats (a : app) :
  Inv.in_sync a -> Inv.in_sync (fst (update_stats a)).
Proof.
  intros H. unfold update_stats.
  destruct (summary (db a)) as [st|e] eqn:S; cbn [fst]; [|exact H].
  destruct H as [P _]. split; [exact P|].
  cbn [db set_stats]. intros st' S'. rewrite S in S'.
  injection S' as S'. subst st'. repeat split.
Qed.

Lemma in_sync_build_main_ui (a : app) : Inv.in_sync (fst (_build_main_ui a)).
Proof.
  unfold _build_main_ui.
  match goal with
  | |- context [refresh_table ?b] =>
      pose proof (in_sync_refresh b) as R;
      destruct (refresh_table b) as [a1 [e|]]
  end; cbn [fst] in *.
  - exact R.
  - apply in_sync_update_stats, R.
Qed.

Lemma selection_ok_none (a : app) :
  selected_id a = None -> Inv.selection_ok a.
Proof. intros H k E. rewrite H in E. discriminate E. Qed.

Lemma selection_ok_same (a b : app) :
  db b = db a -> selected_id b = selected_id a ->
  Inv.selection_ok a -> Inv.selection_ok b.
Proof.
  intros D S K. unfold Inv.selection_ok in *. rewrite D, S. exact K.
Qed.

Lemma selected_id_update_stats (a : app) :
  selected_id (fst (update_stats a)) = selected_id a.
Proof. unfold update_stats. destruct (summary (db a)); reflexivity. Qed.

Lemma selected_id_refresh_table (a : app) :
  selected_id (fst (refresh_table a)) = selected_id a.
Proof.
  unfold refresh_table. rewrite selected_id_update_stats. reflexivity.
Qed.

Lemma selected_id_finish (r : app * option exn) (ds last : list dialog) :
  selected_id (fst (finish r ds last)) = selected_id (fst r).
Proof. unfold finish. destruct (snd r); reflexivity. Qed.

Lemma selected_id_build_main_ui (a : app) :
  selected_id (fst (_build_main_ui a)) = selected_id a.
Proof.
  unfold _build_main_ui.
  match goal with
  | |- context [refresh_table ?b] =>
      pose proof (selected_id_refresh_table b) as R;
      destruct (refresh_table b) as [a1 [e|]]
  end; cbn [fst] in *.
  - exact R.
  - rewrite selected_id_update_stats. exact R.
Qed.

Lemma view_update_stats (a : app) : view (fst (update_stats a)) = view a.
Proof. unfold update_stats. destruct (summary (db a)); reflexivity. Qed.

Lemma view_refresh_table (a : app) : view (fst (refresh_table a)) = view a.
Proof. unfold refresh_table. rewrite view_update_stats. reflexivity. Qed.

Lemma view_finish (r : app * option exn) (ds last : list dialog) :
  view (fst (finish r ds last)) = view (fst r).
Proof. unfold finish. destruct (snd r); reflexivity. Qed.

Lemma view_build_main_ui (a : app) : view (fst (_build_main_ui a)) = LoggedIn.
Proof.
  unfold _build_main_ui.
  match goal with
  | |- context [refresh_table ?b] =>
      pose proof (view_refresh_table b) as R;
      destruct (refresh_table b) as [a1 [e|]]
  end; cbn [fst] in *.
  - exact R.
  - rewrite view_update_stats. exact R.
Qed.

(** What [_build_main_ui] leaves behind, by the outcome of [summary]. *)
Lemma build_main_ui_cases (a : app) :
  tree (fst (_build_main_ui a)) = fetch_books (db a) ""
  /\ form (fst (_build_main_ui a)) = mkForm "" "" "" "" "" "1"
  /\ search_var (fst (_build_main_ui a)) = ""
  /\ stderr (fst (_build_main_ui a)) = stderr a
  /\ (forall c, headings (fst (_build_main_ui a)) c = false)
  /\ ((exists st, summary (db a) = Returned st
                  /\ Inv.labels_show (fst (_build_main_ui a)) st
                  /\ snd (_build_main_ui a) = None)
      \/ (exists e, summary (db a) = Raised e
                    /\ Inv.labels_blank (fst (_build_main_ui a))
                    /\ snd (_build_main_ui a) = Some e)).
Proof.
  unfold _build_main_ui, refresh_table, update_stats.
  cbn [db set_tree search_var].
  destruct (summary (db a)) as [st|e] eqn:S.
  - cbn [db set_stats set_tree]. rewrite S. cbn [fst snd].
    repeat split. left. exists st. repeat split.
  - cbn [fst snd]. repeat split. right. exists e. repeat split.
Qed.

(** X16: [handle_login] opens the dashboard exactly when the trimmed user
    name and the password are both non-empty and [verify_user] accepts
    them; it then shows no dialog, leaves the database and the remembered
    selection alone and fills the table with every book; the labels show
    [summary] when it returns, and when it raises they stay at 0 and the
    exception is reported.  In every other case it shows a dialog and
    changes nothing.  The user name is trimmed, the password is not. *)
Theorem handle_login_spec (a : app) (u pw : string) :
  let ok := Py.truthy (Py.strip u) && Py.truthy pw
            && verify_user (db a) (Py.strip u) pw in
  (ok = true ->
     view (fst (handle_login a u pw)) = LoggedIn
     /\ snd (handle_login a u pw) = []
     /\ db (fst (handle_login a u pw)) = db a
     /\ selected_id (fst (handle_login a u pw)) = selected_id a
     /\ tree (fst (handle_login a u pw)) = fetch_books (db a) ""
     /\ search_var (fst (handle_login a u pw)) = ""
     /\ Inv.in_sync (fst (handle_login a u pw))
     /\ (forall st, summary (db a) = Returned st ->
           Inv.labels_show (fst (handle_login a u pw)) st
           /\ stderr (fst (handle_login a u pw)) = stderr a)
     /\ (forall e, summary (db a) = Raised e ->
           Inv.labels_blank (fst (handle_login a u pw))
           /\ stderr (fst (handle_login a u pw)) = (stderr a ++ [e])%list))
  /\ (ok = false ->
        fst (handle_login a u pw) = a /\ snd (handle_login a u pw) <> [])
  /\ handle_login a (Py.strip u) pw = handle_login a u pw.
Proof.
  cbv zeta. split; [|split].
  - intros H. apply andb_prop in H. destruct H as [H V].
    apply andb_prop in H. destruct H as [U P].
    unfold handle_login. rewrite U, P, V. cbn [negb orb].
    destruct (build_main_ui_cases a)
      as [T [_ [Sv [E [_ [[st [S [L R]]]|[e [S [L R]]]]]]]]];
      unfold finish; rewrite R; cbn [fst snd].
    + split; [apply view_build_main_ui|]. split; [reflexivity|].
      split; [apply db_build_main_ui|].
      split; [apply selected_id_build_main_ui|].
      split; [exact T|]. split; [exact Sv|].
      split; [apply in_sync_build_main_ui|]. split.
      * intros st' S'. rewrite S in S'. injection S' as S'. subst st'.
        split; [exact L|exact E].
      * intros e S'. rewrite S in S'. discriminate S'.
    + split; [apply view_build_main_ui|]. split; [reflexivity|].
      split; [apply db_build_main_ui|].
      split; [apply selected_id_build_main_ui|].
      split; [exact T|]. split; [exact Sv|].
      split; [apply in_sync_report, in_sync_build_main_ui|]. split.
      * intros st S'. rewrite S in S'. discriminate S'.
      * intros e' S'. rewrite S in S'. injection S' as S'. subst e'.
        split; [exact L|]. cbn [report stderr]. rewrite E. reflexivity.
  - intros H. unfold handle_login.
    destruct (Py.truthy (Py.strip u)); [|split; [reflexivity|discriminate]].
    destruct (Py.truthy pw); [|split; [reflexivity|discriminate]].
    cbn [andb] in H. rewrite H. cbn [negb orb].
    split; [reflexivity|discriminate].
  - unfold handle_login. rewrite strip_idem. reflexivity.
Qed.

Lemma handle_login_spec_witness :
  view (fst (handle_login (LibraryApp.__init__ no_file) " admin " "admin"))
  = LoggedIn.
Proof.
  apply (handle_login_spec (LibraryApp.__init__ no_file) " admin " "admin").
  vm_compute. reflexivity.
Defined.

Example password_not_trimmed :
  view (fst (handle_login (LibraryApp.__init__ no_file) "admin" " admin"))
  = LoggedOut.
Proof. vm_compute. reflexivity. Qed.

(** On the store whose column sums pass 64 bits the dashboard opens with
    the table filled and the labels at 0. *)
Example login_on_big_store :
  stat_total
    (fst (handle_login (LibraryApp.__init__ Spec.big_store) "admin" "admin"))
  = "Total books: 0"
  /\ List.length
       (tree (fst (handle_login (LibraryApp.__init__ Spec.big_store)
                                "admin" "admin")))
     = 2%nat
  /\ stderr
       (fst (handle_login (LibraryApp.__init__ Spec.big_store)
                          "admin" "admin"))
     = [integer_overflow].
Proof. vm_compute. repeat split. Qed.

Lemma coherent_login (a : app) (u pw : string) :
  Inv.coherent a -> Inv.coherent (fst (handle_login a u pw)).
Proof.
  intros C. unfold handle_login.
  destruct (negb (Py.truthy (Py.strip u)) || negb (Py.truthy pw));
    [exact C|].
  destruct (negb (verify_user (db a) (Py.strip u) pw)); [exact C|].
  split.
  - intros _. apply in_sync_finish, in_sync_build_main_ui.
  - apply (selection_ok_same a); [| |exact (proj2 C)].
    + rewrite db_finish. apply db_build_main_ui.
    + rewrite selected_id_finish. apply selected_id_build_main_ui.
Qed.

Lemma coherent_on_select (a : app) (focus : option nat) :
  view a = LoggedIn -> Inv.coherent a -> Inv.coherent (on_select a focus).
Proof.
  intros L [S K]. unfold on_select. destruct focus as [i|]; [|split; assumption].
  destruct (nth_error (tree a) i) as [b|] eqn:N; [|split; assumption].
  split.
  - intros _. exact (S L).
  - intros k E. cbn [selected_id] in E. injection E as E. subst k.
    cbn [db]. exists b. split; [|reflexivity].
    apply nth_error_In in N. destruct (S L) as [[s P] _].
    apply (Permutation_in _ P) in N.
    apply fetch_books_in in N. apply N.
Qed.

Lemma coherent_add (a : app) (now : string) :
  Inv.coherent a -> Inv.coherent (fst (add_book a now)).
Proof.
  intros C. unfold add_book.
  destruct (_form_payload (form a)) as [[p|] ds]; [|exact C].
  destruct (LibraryDB.add_book (db a) p now) as [d|e].
  - split.
    + intros _. apply in_sync_finish, in_sync_refresh.
    + apply selection_ok_none.
      rewrite selected_id_finish, selected_id_refresh_table. reflexivity.
  - cbn [fst]. destruct C as [S K]. split.
    + intros V. apply in_sync_report, S, V.
    + exact K.
Qed.

Lemma coherent_update (a : app) :
  Inv.coherent a -> Inv.coherent (fst (update_selected a)).
Proof.
  intros [S K]. unfold update_selected.
  destruct (selected_id a) as [k|] eqn:Sel; [|split; assumption].
  destruct (_form_payload (form a)) as [[p|] ds]; [|split; assumption].
  destruct (fst (update_book (db a) k p)) as [d|e] eqn:U.
  - apply update_book_returned in U. destruct U as [U _]. split.
    + intros _. apply in_sync_finish, in_sync_refresh.
    + intros k' E.
      rewrite selected_id_finish, selected_id_refresh_table in E.
      cbn [set_db selected_id] in E.
      rewrite db_finish, db_refresh_table. cbn [set_db db].
      destruct (K k' E) as [b [Hb Hk]].
      subst d. unfold update_rows, set_books. cbn [books].
      exists (if id b =? k then overwrite (with_id p k) b else b). split.
      * apply in_map_iff. exists b. split; [reflexivity|exact Hb].
      * destruct (id b =? k); exact Hk.
  - cbn [fst]. split.
    + intros V. apply in_sync_report, S, V.
    + exact K.
Qed.

Lemma coherent_delete (a : app) (answer : bool) :
  Inv.coherent a -> Inv.coherent (fst (delete_selected a answer)).
Proof.
  intros C. unfold delete_selected.
  destruct (selected_id a) as [k|]; [|exact C].
  destruct answer; cbn [negb]; [|exact C].
  destruct (delete_book (db a) k) as [d|e].
  - split.
    + intros _. apply in_sync_finish, in_sync_refresh.
    + apply selection_ok_none.
      rewrite selected_id_finish, selected_id_refresh_table. reflexivity.
  - cbn [fst]. destruct C as [S K]. split.
    + intros V. apply in_sync_report, S, V.
    + exact K.
Qed.

Lemma in_sync_sort (a : app) (col : TableSort.column) (reverse : bool) :
  Inv.in_sync a -> Inv.in_sync (sort_by_column a col reverse).
Proof.
  intros [[s P] L]. split.
  - exists s. cbn [sort_by_column tree db].
    eapply Permutation_trans; [|exact P].
    apply Permutation_sym, sort_perm.
  - exact L.
Qed.

Lemma coherent_handle (a : app) (e : event) :
  Inv.coherent a -> Inv.coherent (fst (handle a e)).
Proof.
  intros C. unfold handle. destruct (view a) eqn:V, e; cbn [fst];
    try exact C; try (apply coherent_login, C).
  - split; [intros _; apply in_sync_finish, in_sync_refresh|].
    apply (selection_ok_same a); [| |exact (proj2 C)].
    + rewrite db_finish, db_refresh_table. reflexivity.
    + rewrite selected_id_finish, selected_id_refresh_table. reflexivity.
  - apply coherent_on_select; assumption.
  - apply coherent_add, C.
  - apply coherent_update, C.
  - apply coherent_delete, C.
  - destruct C as [S K]. split; [intros _; exact (S V)|].
    apply selection_ok_none. reflexivity.
  - destruct C as [S K]. split; [intros _; apply in_sync_sort, S, V|exact K].
Qed.

Lemma coherent_react (a : app) (k : Keyboard.action) :
  Inv.coherent a -> Inv.coherent (fst (Keyboard.react a k)).
Proof.
  intros C. destruct k as [e|u pw]; cbn [Keyboard.react].
  - apply coherent_handle, C.
  - apply coherent_login, C.
Qed.

Lemma coherent_run (ks : list Keyboard.action) (a : app) :
  Inv.coherent a -> Inv.coherent (Keyboard.run a ks).
Proof.
  revert a. induction ks as [|k ks IH]; intros a C; [exact C|].
  cbn [Keyboard.run]. apply IH, coherent_react, C.
Qed.

Lemma coherent_init (d : LibraryDB.db) : Inv.coherent (LibraryApp.__init__ d).
Proof.
  split; [discriminate|]. apply selection_ok_none. reflexivity.
Qed.


(** X18: after any sequence of user actions (the Return key included),
    the remembered selection, if there is one, is the id of a row that is
    in the database: Update and Delete never act on a missing id. *)
Theorem selection_refers_to_stored_row (d : LibraryDB.db)
    (ks : list Keyboard.action) :
  Inv.selection_ok (Keyboard.run (LibraryApp.__init__ d) ks).
Proof. apply (coherent_run ks _ (coherent_init d)). Qed.

(** X25: the Return key still runs [handle_login] on the dashboard.  With
    credentials that verify, it rebuilds the dashboard objects: the form
    and the search term the handlers read are empty again (Available back
    to "1") and the table lists every book, while the database and the
    remembered selection stay as they were and no dialog is shown. *)
Theorem press_return_on_dashboard (a : app) (u pw : string)
    (Ok : Py.truthy (Py.strip u) && Py.truthy pw
          && verify_user (db a) (Py.strip u) pw = true) :
  let a' := fst (Keyboard.press_return a u pw) in
  db a' = db a
  /\ selected_id a' = selected_id a
  /\ form a' = mkForm "" "" "" "" "" "1"
  /\ search_var a' = ""
  /\ tree a' = fetch_books (db a) ""
  /\ view a' = LoggedIn
  /\ snd (Keyboard.press_return a u pw) = [].
Proof.
  apply andb_prop in Ok. destruct Ok as [Ok V].
  apply andb_prop in Ok. destruct Ok as [U P].
  cbv zeta. unfold Keyboard.press_return, handle_login.
  rewrite U, P, V. cbn [negb orb].
  destruct (build_main_ui_cases a) as [T [F [Sv _]]].
  split; [rewrite db_finish; apply db_build_main_ui|].
  split; [rewrite selected_id_finish; apply selected_id_build_main_ui|].
  split; [|split; [|split; [|split]]].
  - unfold finish. destruct (snd (_build_main_ui a)); exact F.
  - unfold finish. destruct (snd (_build_main_ui a)); exact Sv.
  - unfold finish. destruct (snd (_build_main_ui a)); exact T.
  - rewrite view_finish. apply view_build_main_ui.
  - unfold finish. destruct (snd (_build_main_ui a)); reflexivity.
Qed.

End Window.
Section SelectUpdate.

Import LibraryDB LibraryApp.


(** A click on a heading leaves the table in another order than the
    query's, and a search field changed without a key release leaves it
    showing the rows of the earlier term. *)
Example table_after_heading_click :
  map id (tree (run (LibraryApp.__init__ no_file)
                  [Login "admin" "admin"; Edit_form Spec.dune_form;
                   Click_add "2024-01-01 00:00:00";
                   Edit_form Spec.big_form;
                   Click_add "2024-01-02 00:00:00";
                   Click_heading TableSort.col_id]))
  = [1; 2]
  /\ map id (fetch_books
               (db (run (LibraryApp.__init__ no_file)
                      [Login "admin" "admin"; Edit_form Spec.dune_form;
                       Click_add "2024-01-01 00:00:00";
                       Edit_form Spec.big_form;
                       Click_add "2024-01-02 00:00:00";
                       Click_heading TableSort.col_id])) "")
     = [2; 1].
Proof. split; vm_compute; reflexivity. Qed.

Example table_after_search_change :
  tree (run (LibraryApp.__init__ no_file)
          [Login "admin" "admin"; Edit_form Spec.dune_form;
           Click_add Spec.scenario_clock; Change_search "zzz"])
  = [mkBook 1 "Dune" "Herbert" (Some "") None 2 2 Spec.scenario_clock]
  /\ fetch_books
       (db (run (LibraryApp.__init__ no_file)
              [Login "admin" "admin"; Edit_form Spec.dune_form;
               Click_add Spec.scenario_clock; Change_search "zzz"]))
       "zzz"
     = [].
Proof. split; vm_compute; reflexivity. Qed.

Lemma press_return_on_dashboard_witness :
  form Inv.window_with_form = Spec.dune_form
  /\ form (fst (Keyboard.press_return Inv.window_with_form "admin" "admin"))
     = mkForm "" "" "" "" "" "1".
Proof.
  split; [vm_compute; reflexivity|].
  apply (press_return_on_dashboard Inv.window_with_form "admin" "admin").
  vm_compute. reflexivity.
Defined.







(** On the store whose column sums pass 64 bits, Update without editing
    is carried out but no "Updated" dialog follows. *)
Example update_on_big_store :
  snd (update_selected (on_select (Inv.big_window None) (Some 0%nat))) = []
  /\ stderr (fst (update_selected
                    (on_select (Inv.big_window None) (Some 0%nat))))
     = [integer_overflow].
Proof. split; vm_compute; reflexivity. Qed.

(** X20: a row whose year is NULL shows the text None in the Year field
    once selected, which is not a number: clicking Update then is refused
    with the "Invalid number" dialog and the window and the database stay
    as they are, until the user clears the field. *)
Theorem select_null_year_then_update (a : app) (i : nat) (b : book)
    (Sel : nth_error (tree a) i = Some b)
    (Null : year b = None)
    (T : Spec.blank (title b) = false) (A : Spec.blank (author b) = false) :
  Year (form (on_select a (Some i))) = "None"
  /\ update_selected (on_select a (Some i))
     = (on_select a (Some i), [Spec.invalid_number]).
Proof.
  unfold on_select. rewrite Sel, Null. cbn [form Year Tk.text_of_int].
  split; [reflexivity|].
  unfold update_selected. cbn [selected_id form].
  rewrite form_payload_rejects; [reflexivity|exact T|exact A|].
  unfold Spec.malformed_numbers. cbn [Year]. reflexivity.
Qed.

Lemma select_null_year_then_update_witness :
  snd (update_selected (on_select Inv.window_after_add (Some 0%nat)))
  = [Spec.invalid_number].
Proof.
  destruct (select_null_year_then_update Inv.window_after_add 0%nat
              (mkBook 1 "Dune" "Herbert" (Some "") None 2 2
                      Spec.scenario_clock)) as [_ H].
  - vm_compute. reflexivity.
  - reflexivity.
  - reflexivity.
  - reflexivity.
  - rewrite H. reflexivity.
Defined.

End SelectUpdate.
(** ** Delete from the window *)

Section DeleteClick.

Import LibraryDB LibraryApp.



Lemma ensure_db_spec_witness :
  _ensure_db (_ensure_db no_file) = _ensure_db no_file
  /\ NoDup (map username (users (_ensure_db no_file))).
Proof.
  destruct (ensure_db_spec no_file) as [_ [I [_ [_ [_ [_ U]]]]]].
  split; [exact I|]. apply U. constructor.
Defined.

Lemma fetch_books_any_term_witness :
  NoDup (fetch_books Spec.dune_store "d_n%").
Proof.
  apply (fetch_books_any_term Spec.dune_store "d_n%").
  simpl. constructor; [intros []|constructor].
Defined.

End DeleteClick.
(** ** The row invariant and the Return key *)

Section ReturnKey.

Import LibraryDB LibraryApp.

Lemma rows_ok_react (a : app) (k : Keyboard.action) :
  Spec.rows_ok (db a) -> Spec.rows_ok (db (fst (Keyboard.react a k))).
Proof.
  intros H. destruct k as [e|u pw]; cbn [Keyboard.react].
  - apply rows_ok_handle, H.
  - unfold Keyboard.press_return. rewrite db_handle_login. exact H.
Qed.

(** X27: [0 <= available <= copies] also survives the Return key: after
    any sequence of dashboard actions and Return presses, on a store that
    satisfied it when the window opened, every row satisfies it. *)
Theorem rows_ok_with_return_key (d : LibraryDB.db)
    (ks : list Keyboard.action) (H : Spec.rows_ok d) :
  Spec.rows_ok (db (Keyboard.run (LibraryApp.__init__ d) ks)).
Proof.
  assert (G : forall a, Spec.rows_ok (db a) ->
                        Spec.rows_ok (db (Keyboard.run a ks))).
  { induction ks as [|k ks IH]; intros a Ha; [exact Ha|].
    cbn [Keyboard.run]. apply IH, rows_ok_react, Ha. }
  apply G. unfold Spec.rows_ok. cbn [LibraryApp.__init__ db].
  unfold LibraryDB.__init__. rewrite books_ensure_db. exact H.
Qed.

Lemma rows_ok_with_return_key_witness :
  Spec.rows_ok
    (db (Keyboard.run (LibraryApp.__init__ no_file)
           [Keyboard.Do (Login "admin" "admin");
            Keyboard.Return_key "admin" "admin";
            Keyboard.Do (Edit_form Spec.dune_form);
            Keyboard.Do (Click_add Spec.scenario_clock)])).
Proof.
  apply (rows_ok_with_return_key no_file). constructor.
Defined.

End ReturnKey.
